(** * uenv-venv: the discovery-and-linking logic of [uenv_venv/cli.py]

  A shallow embedding of [src/uenv_venv/cli.py].  A Python [str] is the
  Rocq string of its UTF-8 bytes (undecodable bytes of the environment
  stand for themselves, as [surrogateescape] keeps them), [os.environ] is a
  finite map from names to values, [pathlib] and the operating system are an
  interface the program is parameterised over, and the control effects of
  the program (exceptions, [sys.exit], printing, subprocesses, directory
  mutation) are explicit in a state-and-outcome monad. *)

From Stdlib Require Import ZArith Ascii String List Bool Lia.
From stdpp Require Import base gmap strings list.

Local Open Scope Z_scope.

(** ** Python string built-ins used by the program *)

Module PyStr.

Definition nl : string := String "010"%char EmptyString.

(** [bool(s)]: a string is truthy when it is not empty. *)
Definition truthy (s : string) : bool :=
  match s with EmptyString => false | String _ _ => true end.

(** [c in s] for a one-character needle. *)
Fixpoint contains (c : ascii) (s : string) : bool :=
  match s with
  | EmptyString => false
  | String a s' => if Ascii.eqb a c then true else contains c s'
  end.

(** [any(p(ch) for ch in s)]. *)
Fixpoint has (p : ascii -> bool) (s : string) : bool :=
  match s with
  | EmptyString => false
  | String a s' => p a || has p s'
  end.

(** [s.startswith(pre)]. *)
Fixpoint startswith (s pre : string) {struct pre} : bool :=
  match pre with
  | EmptyString => true
  | String b pre' =>
      match s with
      | EmptyString => false
      | String a s' => if Ascii.eqb a b then startswith s' pre' else false
      end
  end.

(** Put a character in front of the first field of a split. *)
Definition push_head (a : ascii) (fields : list string) : list string :=
  match fields with
  | [] => [String a EmptyString]
  | f :: fs => String a f :: fs
  end.

(** Splitting at every character that satisfies [is_sep]: this is
    [s.split(sep)] when [is_sep] recognises the single character [sep],
    and [re.split(r"[ ,]", s)] when it recognises a space or a comma.
    The result always has at least one field. *)
Fixpoint split_on (is_sep : ascii -> bool) (s : string) : list string :=
  match s with
  | EmptyString => [EmptyString]
  | String a s' =>
      if is_sep a then EmptyString :: split_on is_sep s'
      else push_head a (split_on is_sep s')
  end.

(** [s.split(sep)] with a one-character separator and no limit. *)
Definition split (sep : ascii) (s : string) : list string :=
  split_on (Ascii.eqb sep) s.

(** [s.split(sep, maxsplit)]: at most [maxsplit] cuts, from the left;
    what is left after the last cut is one field. *)
Fixpoint split_max (sep : ascii) (s : string) (maxsplit : nat) : list string :=
  match s with
  | EmptyString => [EmptyString]
  | String a s' =>
      match maxsplit with
      | O => [s]
      | S k =>
          if Ascii.eqb sep a then EmptyString :: split_max sep s' k
          else push_head a (split_max sep s' maxsplit)
      end
  end.

(** [s.rsplit(sep, 1)]: one cut, at the last separator. *)
Fixpoint rsplit1 (sep : ascii) (s : string) : list string :=
  match s with
  | EmptyString => [EmptyString]
  | String a s' =>
      match rsplit1 sep s' with
      | [t] => if Ascii.eqb sep a then [EmptyString; t] else [String a t]
      | fs => push_head a fs
      end
  end.

(** [fields[-1]] of a list of strings that is never empty here. *)
Definition last_field (fields : list string) : string :=
  List.last fields EmptyString.

(** The white space of [str.strip()] and [str.isspace()], by the length of
    its UTF-8 encoding.  One byte: tab, line feed, vertical tab, form feed,
    carriage return, the four separators 0x1c-0x1f, and space. *)
Definition isspace (a : ascii) : bool :=
  match a with
  | "009" | "010" | "011" | "012" | "013"
  | "028" | "029" | "030" | "031" | " " => true
  | _ => false
  end%char.

(** Two bytes: U+0085 (next line) and U+00A0 (no-break space). *)
Definition isspace2 (a b : ascii) : bool :=
  Ascii.eqb a "194" && (Ascii.eqb b "133" || Ascii.eqb b "160").

(** Three bytes: U+1680, U+2000 to U+200A, U+2028, U+2029, U+202F, U+205F
    and U+3000. *)
Definition isspace3 (a b c : ascii) : bool :=
  (Ascii.eqb a "225" && Ascii.eqb b "154" && Ascii.eqb c "128")
  || (Ascii.eqb a "226" && Ascii.eqb b "128"
      && ((N.leb 128 (N_of_ascii c) && N.leb (N_of_ascii c) 138)
          || Ascii.eqb c "168" || Ascii.eqb c "169" || Ascii.eqb c "175"))
  || (Ascii.eqb a "226" && Ascii.eqb b "129" && Ascii.eqb c "159")
  || (Ascii.eqb a "227" && Ascii.eqb b "128" && Ascii.eqb c "128").

(** An ASCII character that is not white space. *)
Definition plain (a : ascii) : bool :=
  N.ltb (N_of_ascii a) 128 && negb (isspace a).

(** The string is the encoding of one white-space character. *)
Definition blank (s : string) : bool :=
  match s with
  | String a EmptyString => isspace a
  | String a (String b EmptyString) => isspace2 a b
  | String a (String b (String c EmptyString)) => isspace3 a b c
  | _ => false
  end.

(** [s.lstrip()]. *)
Fixpoint lstrip (s : string) : string :=
  match s with
  | EmptyString => EmptyString
  | String a s1 =>
      if isspace a then lstrip s1
      else
        match s1 with
        | EmptyString => s
        | String b s2 =>
            if isspace2 a b then lstrip s2
            else
              match s2 with
              | EmptyString => s
              | String c s3 => if isspace3 a b c then lstrip s3 else s
              end
        end
  end.

(** [s.rstrip()]: once the text behind a byte is stripped, the byte goes
    too when it and what is left encode one white-space character. *)
Fixpoint rstrip (s : string) : string :=
  match s with
  | EmptyString => EmptyString
  | String a s' =>
      let t := rstrip s' in
      if blank (String a t) then EmptyString else String a t
  end.

(** [s.strip()]. *)
Definition strip (s : string) : string := rstrip (lstrip s).

End PyStr.

(** Lines joined by newlines: ["\n".join(ls)]. *)
Definition unlines (ls : list string) : string :=
  match ls with
  | [] => EmptyString
  | l :: rest => fold_left (fun acc x => acc +:+ PyStr.nl +:+ x) rest l
  end.

(** ** [textwrap.dedent] *)

Module Textwrap.

(** The class [[ \t]] of the two patterns of [dedent]. *)
Definition is_space_tab (a : ascii) : bool :=
  Ascii.eqb a " " || Ascii.eqb a "009".

(** The lines of a text: what lies between its line feeds, which is where
    [^] and [$] match under [re.MULTILINE]. *)
Definition lines (text : string) : list string := PyStr.split "010" text.

(** [_whitespace_only_re.sub('', text)], a line at a time: a line of
    blanks and tabs only is emptied. *)
Definition clear_blank (l : string) : string :=
  if PyStr.has (fun a => negb (is_space_tab a)) l then l else EmptyString.

(** The blanks and tabs a line starts with. *)
Fixpoint indent_of (l : string) : string :=
  match l with
  | EmptyString => EmptyString
  | String a t => if is_space_tab a then String a (indent_of t) else EmptyString
  end.

(** [_leading_whitespace_re.findall(text)]: the indentation of every line
    that holds a character other than blank and tab. *)
Definition indents (ls : list string) : list string :=
  map indent_of (List.filter PyStr.truthy ls).

(** What [margin] and [indent] have in common from the left: the loop over
    [zip(margin, indent)] that cuts [margin] at the first difference. *)
Fixpoint common_prefix (margin indent : string) : string :=
  match margin, indent with
  | String x m, String y i =>
      if Ascii.eqb x y then String x (common_prefix m i) else EmptyString
  | _, _ => EmptyString
  end.

(** One turn of the loop over the indentations. *)
Definition margin_step (margin : option string) (indent : string) : option string :=
  match margin with
  | None => Some indent
  | Some m =>
      if PyStr.startswith indent m then Some m
      else if PyStr.startswith m indent then Some indent
      else Some (common_prefix m indent)
  end.

(** [re.sub(r'(?m)^' + margin, '', text)], a line at a time. *)
Fixpoint cut (margin l : string) : option string :=
  match margin with
  | EmptyString => Some l
  | String x m =>
      match l with
      | EmptyString => None
      | String a t => if Ascii.eqb a x then cut m t else None
      end
  end.

Definition cut_margin (margin l : string) : string :=
  default l (cut margin l).

(** [textwrap.dedent(text)]. *)
Definition dedent (text : string) : string :=
  let ls := map clear_blank (lines text) in
  match fold_left margin_step (indents ls) None with
  | Some margin =>
      if PyStr.truthy margin then unlines (map (cut_margin margin) ls) else unlines ls
  | None => unlines ls
  end.

End Textwrap.

(** ** Exceptions, outcomes and observable events *)

(** The subclasses of [Exception] that the program or the operating system
    can raise. *)
Inductive exn : Type :=
| FileNotFoundError
| NotADirectoryError
| FileExistsError
| PermissionError
| RuntimeError
| CalledProcessError (returncode : Z)
| JSONDecodeError
| KeyError (key : string).

(** How a call ends: it returns, an [Exception] propagates, or
    [sys.exit(code)] raised [SystemExit], which [except Exception] does not
    catch. *)
Inductive outcome (A : Type) : Type :=
| Ret (a : A)
| Raise (e : exn)
| SysExit (code : Z).

Arguments Ret {A} a.
Arguments Raise {A} e.
Arguments SysExit {A} code.

(** The status the process ends with: an uncaught exception ends the
    interpreter with status 1. *)
Definition exit_status {A : Type} (o : outcome A) : Z :=
  match o with
  | Ret _ => 0
  | Raise _ => 1
  | SysExit code => code
  end.

Inductive stream : Type := Stdout | Stderr.

(** What the program does to the outside world, in order.  The paths are
    recorded by their [str()]. *)
Inductive event : Type :=
| EvPrint (to : stream) (msg : string)
| EvCheckOutput (cmd : list string)
| EvCheckCall (cmd : list string)
| EvRmtree (target : string)
| EvMkdir (target : string)
| EvWriteText (file : string) (data : string).

(** The events that change the file system: removing or creating a
    directory, writing a file, and running a tool that creates or installs
    ([subprocess.check_call]).  Printing and the read-only introspection
    subprocesses ([subprocess.check_output]) are not among them. *)
Definition mutating (ev : event) : bool :=
  match ev with
  | EvPrint _ _ | EvCheckOutput _ => false
  | EvCheckCall _ | EvRmtree _ | EvMkdir _ | EvWriteText _ _ => true
  end.

(** ** The interface to [pathlib] and to the operating system *)

(** [pathlib.PurePosixPath]: construction from a string, the [/] operator
    with a string on the right, and [as_posix()], which on a POSIX system is
    also [str()]. *)
Class PathLib (path : Type) : Type := {
  Path : string -> path;
  joinpath : path -> string -> path;
  as_posix : path -> string
}.

(** One element of the [sys.path] list the interpreter reported: a string,
    or a value for which [isinstance(p, str)] is false. *)
Inductive sys_path_entry : Type :=
| PathStr (s : string)
| PathOther.

(** What the introspection snippet printed, decoded: [data["ver"]] and
    [data["path"]]. *)
Record introspection : Type := {
  ver : string;
  sys_path : list sys_path_entry
}.

(** The operating system, with [W] the state of the file system and of the
    tools installed on it.  Queries read the state; the four actions return
    the new state together with the exception they raised, if any.
    [check_output_json cmd] stands for [subprocess.check_output(cmd)],
    [.decode()], [json.loads] and the two subscripts that read the reply:
    each of them can only raise before anything else happens.  [is_dir] and
    [exists] answer [False] for a path that is missing and raise the
    [OSError] of [stat] otherwise (a directory that may not be searched, a
    name that is too long).  The two introspection subprocesses only print,
    so they are queries. *)
Class OS (path W : Type) : Type := {
  resolve : W -> path -> exn + path;
  is_dir : W -> path -> exn + bool;
  path_exists : W -> path -> exn + bool;
  iterdir : W -> path -> exn + list path;
  which : W -> string -> option string;
  check_output_json : W -> list string -> exn + introspection;
  check_output : W -> list string -> exn + string;
  check_call : list string -> gmap string string -> W -> option exn * W;
  rmtree : path -> W -> option exn * W;
  mkdir : path -> W -> option exn * W;
  write_text : path -> string -> W -> option exn * W
}.

(** ** The monad of the program: state, trace and outcome *)

Section Program.

Context {path W : Type} {PL : PathLib path} {os : OS path W}.

(** [str(p)] of a [PosixPath]. *)
Definition path_str (p : path) : string := as_posix p.

Record state : Type := State {
  world : W;
  trace : list event
}.

Definition M (A : Type) : Type := state -> outcome A * state.

#[export] Instance M_ret : MRet M := fun A a st => (Ret a, st).

#[export] Instance M_bind : MBind M := fun A B f m st =>
  match m st with
  | (Ret a, st') => f a st'
  | (Raise e, st') => (Raise e, st')
  | (SysExit code, st') => (SysExit code, st')
  end.

Definition raise {A : Type} (e : exn) : M A := fun st => (Raise e, st).

(** [sys.exit(code)]. *)
Definition sys_exit {A : Type} (code : Z) : M A := fun st => (SysExit code, st).

Definition emit (ev : event) : M unit := fun st =>
  (Ret tt, State (world st) (trace st ++ [ev])).

(** [print(msg, file=to)]. *)
Definition print (to : stream) (msg : string) : M unit := emit (EvPrint to msg).

(** A query of the operating system that cannot raise. *)
Definition ask {A : Type} (q : W -> A) : M A := fun st => (Ret (q (world st)), st).

(** A query of the operating system that can raise. *)
Definition ask_exn {A : Type} (q : W -> exn + A) : M A := fun st =>
  match q (world st) with
  | inl e => (Raise e, st)
  | inr a => (Ret a, st)
  end.

(** An action on the operating system: the event is recorded, the state is
    replaced, and the exception, if any, propagates. *)
Definition act (ev : event) (a : W -> option exn * W) : M unit := fun st =>
  let '(r, w') := a (world st) in
  (match r with None => Ret tt | Some e => Raise e end,
   State w' (trace st ++ [ev])).

(** [try: body / except Exception: handler]. *)
Definition try_except {A : Type} (body handler : M A) : M A := fun st =>
  match body st with
  | (Raise _, st') => handler st'
  | r => r
  end.

(** [if cond: body] as a statement. *)
Definition when (cond : bool) (body : M unit) : M unit :=
  if cond then body else mret tt.

(** [subprocess.check_call(cmd, env=env)]. *)
Definition subprocess_check_call (cmd : list string) (env : gmap string string) : M unit :=
  act (EvCheckCall cmd) (check_call cmd env).

(** [subprocess.check_output(cmd).decode()]. *)
Definition subprocess_check_output (cmd : list string) : M string :=
  emit (EvCheckOutput cmd);; ask_exn (fun w => check_output w cmd).

(** ** The program *)

(** [_err], lines 13-15. *)
Definition _err {A : Type} (msg : string) (code : Z) : M A :=
  print Stderr msg;; sys_exit code.

(** The f-string of lines 21-38, a line of the source to a line, with
    [pp] filled in. *)
Definition pythonpath_template (pp : string) : string :=
  unlines
    [ "";
      "        ERROR: PYTHONPATH is set in your environment and will break venv tooling.";
      "";
      "          PYTHONPATH=" +:+ pp;
      "";
      "        Please unset it and rerun:";
      "";
      "          # bash/zsh:";
      "          unset PYTHONPATH";
      "";
      "          # fish:";
      "          set -e PYTHONPATH";
      "";
      "          # csh/tcsh:";
      "          unsetenv PYTHONPATH";
      "";
      "        (This is intentional: uenv-venv refuses to proceed while PYTHONPATH is set.)";
      "        " ].

(** The text [ensure_no_pythonpath] prints: [dedent(f"...").strip()],
    the value filled in before the text is dedented. *)
Definition pythonpath_message (pp : string) : string :=
  PyStr.strip (Textwrap.dedent (pythonpath_template pp)).

(** [ensure_no_pythonpath], lines 18-40.  [if pp:] is false both when the
    variable is absent ([None]) and when its value is the empty string. *)
Definition ensure_no_pythonpath (environ : gmap string string) : M unit :=
  let pp := environ !! "PYTHONPATH" in
  match pp with
  | Some v =>
      if PyStr.truthy v then
        print Stderr (pythonpath_message v);; sys_exit 2
      else mret tt
  | None => mret tt
  end.

(** The pattern [[ ,]] of [re.split]: one space or one comma. *)
Definition is_list_sep (a : ascii) : bool :=
  Ascii.eqb a " " || Ascii.eqb a ",".

(** The loop of lines 53-56 over the reversed tokens: the first token that
    is not empty and holds a colon gives the mount, the text after its last
    colon. *)
Fixpoint scan_tokens (tokens : list string) : option string :=
  match tokens with
  | [] => None
  | token :: rest =>
      if PyStr.truthy token && PyStr.contains ":" token
      then Some (PyStr.last_field (PyStr.rsplit1 ":" token))
      else scan_tokens rest
  end.

(** [parse_uenv], lines 50-57: the list descriptor [UENV_MOUNT_LIST]. *)
Definition parse_uenv_mount_list (environ : gmap string string)
  : M (path * string * string) :=
  let uml := default "" (environ !! "UENV_MOUNT_LIST") in
  if PyStr.truthy uml then
    match scan_tokens (rev (PyStr.split_on is_list_sep (PyStr.strip uml))) with
    | Some mount => mret (Path mount, "", "")
    | None => _err "ERROR: Could not detect uenv." 2
    end
  else _err "ERROR: Could not detect uenv." 2.

(** [parse_uenv], lines 43-57: the composite descriptor [UENV_VIEW] first,
    then the list descriptor. *)
Definition parse_uenv (environ : gmap string string)
  : M (path * string * string) :=
  let uv := default "" (environ !! "UENV_VIEW") in
  if PyStr.truthy uv then
    match PyStr.split_max ":" uv 3 with
    | [mount; name; view] => mret (Path mount, name, view)
    | _ => parse_uenv_mount_list environ
    end
  else parse_uenv_mount_list environ.

(** [py_in_uenv], lines 60-64.  [py] and [mount] are paths already, so
    [Path(py)] and [Path(mount)] are [py] and [mount]. *)
Definition py_in_uenv (py mount : path) : M bool :=
  try_except
    (p ← ask_exn (fun w => resolve w py);
     m ← ask_exn (fun w => resolve w mount);
     mret (PyStr.startswith (as_posix p) (as_posix m +:+ "/")))
    (mret false).

Definition dq : string := String "034"%char EmptyString.

(** The snippet of lines 74-78. *)
Definition introspection_code : string :=
  PyStr.nl +:+ "import sys, json" +:+ PyStr.nl +:+
  "pyver = f" +:+ dq +:+ "{sys.version_info[0]}.{sys.version_info[1]}" +:+ dq +:+ PyStr.nl +:+
  "print(json.dumps({" +:+ dq +:+ "ver" +:+ dq +:+ ": pyver, " +:+ dq +:+ "path" +:+ dq +:+
  ": sys.path}))" +:+ PyStr.nl.

(** Line 82: [[Path(p).resolve() for p in data["path"] if isinstance(p, str)]];
    a resolution that raises ends the comprehension. *)
Fixpoint resolve_entries (entries : list sys_path_entry) : M (list path) :=
  match entries with
  | [] => mret []
  | PathStr s :: rest =>
      p ← ask_exn (fun w => resolve w (Path s));
      ps ← resolve_entries rest;
      mret (p :: ps)
  | PathOther :: rest => resolve_entries rest
  end.

(** The loop of lines 88-94: [Some pr] is its [return pr], [None] is the
    loop running to its end. *)
Fixpoint scan_sys_path (want_prefix : path) (sys_path : list path) : M (option path) :=
  match sys_path with
  | [] => mret None
  | p :: rest =>
      r ← try_except (pr ← ask_exn (fun w => resolve w p); mret (Some pr)) (mret None);
      match r with
      | None => scan_sys_path want_prefix rest
      | Some pr =>
          d ← ask_exn (fun w => is_dir w pr);
          if (d : bool) && PyStr.startswith (as_posix pr) (as_posix want_prefix)
          then mret (Some pr)
          else scan_sys_path want_prefix rest
      end
  end.

(** The f-string of lines 102-106. *)
Definition site_packages_template (want_prefix : path) : string :=
  unlines
    [ "";
      "            ERROR: Could not locate the uenv view's site-packages.";
      "              looked for: " +:+ path_str want_prefix;
      "            Hint: ensure the uenv is active and exposes its view on sys.path.";
      "            " ].

(** The text of lines 101-107: [dedent(f"...").strip()]. *)
Definition site_packages_message (want_prefix : path) : string :=
  PyStr.strip (Textwrap.dedent (site_packages_template want_prefix)).

(** The path of line 85 before it is resolved. *)
Definition canonical_site_packages (mount : path) (view_name pyver : string) : path :=
  joinpath (joinpath (joinpath (joinpath (joinpath mount "env") view_name) "lib")
              ("python" +:+ pyver)) "site-packages".

(** [discover_uenv_site_packages], lines 67-108. *)
Definition discover_uenv_site_packages (mount : path) (view_name : string) (py : path)
  : M path :=
  let cmd := [path_str py; "-c"; introspection_code] in
  emit (EvCheckOutput cmd);;
  data ← ask_exn (fun w => check_output_json w cmd);
  let pyver := ver data in
  sys_path ← resolve_entries (sys_path data);
  want_prefix ← ask_exn (fun w => resolve w (canonical_site_packages mount view_name pyver));
  found ← scan_sys_path want_prefix sys_path;
  match found return M path with
  | Some pr => mret pr
  | None =>
      d ← ask_exn (fun w => is_dir w want_prefix);
      if (d : bool) then mret want_prefix
      else _err (site_packages_message want_prefix) 2
  end.

(** [venv_site_packages], lines 111-114. *)
Definition venv_site_packages (venv_python : path) : M path :=
  let code := "import sysconfig;print(sysconfig.get_paths()['purelib'])" in
  out ← subprocess_check_output [path_str venv_python; "-c"; code];
  mret (Path (PyStr.strip out)).

(** [_venv_python], lines 117-118. *)
Definition _venv_python (target : path) : path := joinpath target "bin/python".

(** [if uv:] on what [shutil.which] returned. *)
Definition found_tool (uv : option string) : option string :=
  match uv with
  | Some u => if PyStr.truthy u then Some u else None
  | None => None
  end.

(** [upgrade_bootstrap], lines 121-144. *)
Definition upgrade_bootstrap (venv_python : path) (env : gmap string string) : M unit :=
  uv ← ask (fun w => which w "uv");
  try_except
    (subprocess_check_call [path_str venv_python; "-m"; "ensurepip"; "--upgrade"] env)
    (mret tt);;
  match found_tool uv with
  | Some u =>
      subprocess_check_call
        [u; "pip"; "install"; "-p"; path_str venv_python; "-U"; "pip"; "setuptools"; "wheel"]
        env
  | None =>
      subprocess_check_call
        [path_str venv_python; "-m"; "pip"; "install"; "-U"; "pip"; "setuptools"; "wheel"]
        env
  end.

Definition copies_flag (copies : bool) : list string :=
  if copies then ["--copies"] else [].

(** [create_with_uv], lines 147-155. *)
Definition create_with_uv (target py : path) (copies : bool) (env : gmap string string)
  : M unit :=
  uv ← ask (fun w => which w "uv");
  match found_tool uv with
  | None => raise FileNotFoundError
  | Some u =>
      let cmd := [u; "venv"; path_str target; "--python"; path_str py; "--seed"]
                   ++ copies_flag copies in
      subprocess_check_call cmd env;;
      upgrade_bootstrap (_venv_python target) env
  end.

(** [create_with_stdlib], lines 158-163. *)
Definition create_with_stdlib (target py : path) (copies : bool) (env : gmap string string)
  : M unit :=
  let cmd := [path_str py; "-m"; "venv"; path_str target] ++ copies_flag copies in
  subprocess_check_call cmd env;;
  upgrade_bootstrap (_venv_python target) env.

(** The parsed command line of lines 167-177. *)
Record Args : Type := {
  venv : path;
  python : path;
  force : bool;
  copies : bool
}.

(** What the gates of [main] have established when they are passed. *)
Record discovery : Type := Discovery {
  d_mount : path;
  d_name : string;
  d_view : string;
  d_py : path;
  d_uenv_sp : path
}.

(** The f-string of lines 195-201. *)
Definition outside_mount_template (py mount : path) (view : string) : string :=
  unlines
    [ "";
      "                ERROR: Selected Python is not inside the uenv mount.";
      "                  python: " +:+ path_str py;
      "                  mount:  " +:+ path_str mount;
      "";
      "                Hint: pass --python " +:+ path_str mount +:+ "/env/" +:+ view
        +:+ "/bin/python";
      "                " ].

(** The text of lines 194-202: [dedent(f"...").strip()]. *)
Definition outside_mount_message (py mount : path) (view : string) : string :=
  PyStr.strip (Textwrap.dedent (outside_mount_template py mount view)).

(** [main], lines 179-208: discovery of the base environment, of the
    interpreter and of the view package directory. *)
Definition main_discover (environ : gmap string string) (args : Args) : M discovery :=
  '(mount, name, view) ← parse_uenv environ;
  when (negb (PyStr.truthy name)) (_err "ERROR: Could not detect uenv name." 2);;
  mount_is_dir ← ask_exn (fun w => is_dir w mount);
  when (negb mount_is_dir)
    (_err ("ERROR: mount point does not exist: " +:+ path_str mount) 2);;
  when (negb (PyStr.truthy view)) (_err "ERROR: Could not detect active view." 2);;
  py ← ask_exn (fun w => resolve w (python args));
  py_exists ← ask_exn (fun w => path_exists w py);
  when (negb py_exists) (_err ("ERROR: --python not found: " +:+ path_str py) 2);;
  inside ← py_in_uenv py mount;
  when (negb inside) (_err (outside_mount_message py mount view) 2);;
  uenv_sp ← discover_uenv_site_packages mount view py;
  sp_is_dir ← ask_exn (fun w => is_dir w uenv_sp);
  when (negb sp_is_dir)
    (_err ("ERROR: uenv site-packages not found: " +:+ path_str uenv_sp) 2);;
  mret (Discovery mount name view py uenv_sp).

(** [main], lines 179-210: all the gates in front of any change to the file
    system, the check of [PYTHONPATH] last. *)
Definition main_gates (environ : gmap string string) (args : Args) : M discovery :=
  d ← main_discover environ args;
  ensure_no_pythonpath environ;;
  mret d.

(** [main], lines 213-214: with [--force] an existing target is removed. *)
Definition remove_existing (args : Args) : M unit :=
  remove ← (if force args then ask_exn (fun w => path_exists w (venv args))
            else mret false);
  when remove (act (EvRmtree (path_str (venv args))) (rmtree (venv args))).

(** [main], lines 215-217: a target that exists and is not empty is
    refused; otherwise the directory is made. *)
Definition make_target (args : Args) : M unit :=
  present ← ask_exn (fun w => path_exists w (venv args));
  occupied ← (if (present : bool)
              then children ← ask_exn (fun w => iterdir w (venv args));
                   mret (negb (bool_decide (children = [])))
              else mret false);
  when occupied
    (_err ("ERROR: venv directory exists and is not empty: " +:+ path_str (venv args)
           +:+ " (use --force)") 2);;
  act (EvMkdir (path_str (venv args))) (mkdir (venv args)).

(** [main], lines 212-217: the target directory. *)
Definition main_prepare (args : Args) : M unit :=
  remove_existing args;;
  make_target args.

(** [main], lines 219-226: the fast method, and the stdlib method when the
    fast one raised. *)
Definition main_create (args : Args) (py : path) (environ : gmap string string)
  : M string :=
  let env := environ in
  try_except
    (create_with_uv (venv args) py (copies args) env;; mret "uv")
    (create_with_stdlib (venv args) py (copies args) env;; mret "venv").

(** [main], lines 228-234: the path-injection file.  Returns [vsp] and
    [pth]. *)
Definition main_link (args : Args) (uenv_sp : path) : M (path * path) :=
  let vpy := _venv_python (venv args) in
  vsp ← venv_site_packages vpy;
  let pth := joinpath vsp "uenv.pth" in
  act (EvWriteText (path_str pth) (path_str uenv_sp +:+ PyStr.nl))
      (write_text pth (path_str uenv_sp +:+ PyStr.nl));;
  mret (vsp, pth).

(** [main], lines 236-249: the report. *)
Definition main_report (args : Args) (d : discovery) (used : string) (vsp pth : path)
  : M Z :=
  let act_ := joinpath (venv args) "bin/activate" in
  print Stdout ("uenv-venv created with " +:+ used);;
  print Stdout ("  venv:                 " +:+ path_str (venv args));;
  print Stdout ("  python:               " +:+ path_str (d_py d));;
  print Stdout ("  uenv mount/name/view: " +:+ path_str (d_mount d) +:+ " / "
                +:+ d_name d +:+ " / " +:+ d_view d);;
  print Stdout ("  uenv site-pkgs:       " +:+ path_str (d_uenv_sp d));;
  print Stdout ("  venv site-pkgs:       " +:+ path_str vsp);;
  print Stdout ("  wrote:                " +:+ path_str pth);;
  print Stdout "";;
  print Stdout "Activate with:";;
  print Stdout ("source " +:+ path_str act_);;
  mret 0.

(** [main], lines 219-249: creation, linking and the report. *)
Definition main_build (environ : gmap string string) (args : Args) (d : discovery) : M Z :=
  used ← main_create args (d_py d) environ;
  '(vsp, pth) ← main_link args (d_uenv_sp d);
  main_report args d used vsp pth.

(** [main] from line 179 on: the body of [main] once [ap.parse_args()] of
    line 177 has returned the command line [args].  What [argparse] itself
    prints and how it exits, on [--help] or on a command line it refuses,
    is in front of this and is not part of it. *)
Definition main (environ : gmap string string) (args : Args) : M Z :=
  d ← main_gates environ args;
  main_prepare args;;
  main_build environ args d.

End Program.

(** ** Vocabulary of the statements *)

(** The elements of the reported [sys.path] that are strings. *)
Fixpoint str_entries (entries : list sys_path_entry) : list string :=
  match entries with
  | [] => []
  | PathStr s :: rest => s :: str_entries rest
  | PathOther :: rest => str_entries rest
  end.

Section Vocabulary.

Context {path W : Type} {PL : PathLib path} {os : OS path W}.

(** What the loop of lines 88-94 makes of one search-path entry.  An entry
    is accepted when it resolves, to an existing directory, whose path
    string starts with the path string of [want_prefix]; what is accepted
    is the resolved path.  An entry that does not resolve is passed over,
    and the directory test of line 93 may raise. *)
Definition accepted (w : W) (want_prefix p : path) : exn + option path :=
  match resolve w p with
  | inr pr =>
      match is_dir w pr with
      | inr d =>
          inr (if (d : bool) && PyStr.startswith (as_posix pr) (as_posix want_prefix)
               then Some pr else None)
      | inl e => inl e
      end
  | inl _ => inr None
  end.

(** The commands of lines 130, 137, 143, 151 and 159, and of line 112. *)
Definition ensurepip_cmd (venv_python : path) : list string :=
  [path_str venv_python; "-m"; "ensurepip"; "--upgrade"].

Definition upgrade_cmd (uv : option string) (venv_python : path) : list string :=
  match found_tool uv with
  | Some u => [u; "pip"; "install"; "-p"; path_str venv_python; "-U"; "pip"; "setuptools"; "wheel"]
  | None => [path_str venv_python; "-m"; "pip"; "install"; "-U"; "pip"; "setuptools"; "wheel"]
  end.

Definition uv_venv_cmd (u : string) (target py : path) (copies : bool) : list string :=
  [u; "venv"; path_str target; "--python"; path_str py; "--seed"] ++ copies_flag copies.

Definition stdlib_venv_cmd (target py : path) (copies : bool) : list string :=
  [path_str py; "-m"; "venv"; path_str target] ++ copies_flag copies.

Definition purelib_cmd (venv_python : path) : list string :=
  [path_str venv_python; "-c"; "import sysconfig;print(sysconfig.get_paths()['purelib'])"].

(** The state after one more event. *)
Definition logged (st : @state W) (evs : list event) : @state W :=
  State (world st) (trace st ++ evs).

(** The trace grew by events that leave the file system alone. *)
Definition quiet (st st' : @state W) : Prop :=
  world st' = world st
  /\ exists evs, trace st' = trace st ++ evs /\ forallb (fun ev => negb (mutating ev)) evs = true.

(** The trace only grew. *)
Definition grows (st st' : @state W) : Prop :=
  exists evs, trace st' = trace st ++ evs.

(** Every run of [m] relates the state it starts in to the state it ends
    in. *)
Definition respects (R : @state W -> @state W -> Prop) {A : Type} (m : @M W A) : Prop :=
  forall st o st', m st = (o, st') -> R st st'.



End Vocabulary.

(** ** A concrete file system to run the program on *)

Module Toy.

(** A pure POSIX path: its root and its components. *)
Record ppath : Type := PPath {
  root : string;
  parts : list string
}.

#[export] Instance ppath_eq_dec : EqDecision ppath.
Proof. solve_decision. Defined.

(** [PurePosixPath(s)]: two leading slashes are kept, any other number is
    one; empty components and [.] are dropped. *)
Definition parse (s : string) : ppath :=
  let r := if PyStr.startswith s "//" && negb (PyStr.startswith s "///") then "//"
           else if PyStr.startswith s "/" then "/" else "" in
  PPath r (List.filter (fun f => PyStr.truthy f && negb (String.eqb f "."))
             (PyStr.split "/" s)).

Definition render (p : ppath) : string :=
  match root p, parts p with
  | EmptyString, [] => "."
  | r, ps => r +:+ String.concat "/" ps
  end.

(** [p / s]: an absolute right-hand side replaces [p]. *)
Definition join (p : ppath) (s : string) : ppath :=
  let q := parse s in
  if PyStr.truthy (root q) then q else PPath (root p) (parts p ++ parts q).

#[export] Instance toy_pathlib : PathLib ppath := {|
  Path := parse;
  joinpath := join;
  as_posix := render
|}.

(** The state of the machine: the directory tree, the tools on [PATH], what
    the interpreters print, which commands fail, what has been written, and
    the directories that may not be searched. *)
Record machine : Type := Machine {
  cwd : ppath;
  dirs : list string;
  files : list string;
  loops : list string;
  tools : gmap string string;
  replies : gmap string introspection;
  purelib : gmap string string;
  failing : list (list string);
  written : list (string * string);
  denied : list string
}.

(** [..] steps back over the component before it. *)
Definition collapse (ps : list string) : list string :=
  rev (fold_left (fun stack c =>
                    if String.eqb c ".." then tail stack else c :: stack) ps []).

(** [p.resolve()] where no symbolic link exists: the path made absolute;
    a path listed in [loops] raises as a symbolic link loop does. *)
Definition toy_resolve (w : machine) (p : ppath) : exn + ppath :=
  let a := if PyStr.truthy (root p) then PPath (root p) (collapse (parts p))
           else PPath (root (cwd w)) (collapse (parts (cwd w) ++ parts p)) in
  if bool_decide (render a ∈ loops w) then inl RuntimeError else inr a.

(** [stat] fails with [EACCES] on what lies inside a directory that may
    not be searched. *)
Definition unreachable (w : machine) (a : ppath) : bool :=
  existsb (fun d => PyStr.startswith (render a) (d +:+ "/")) (denied w).

Definition toy_is_dir (w : machine) (p : ppath) : exn + bool :=
  match toy_resolve w p with
  | inr a =>
      if unreachable w a then inl PermissionError
      else inr (bool_decide (render a ∈ dirs w))
  | inl _ => inr false
  end.

Definition toy_exists (w : machine) (p : ppath) : exn + bool :=
  match toy_resolve w p with
  | inr a =>
      if unreachable w a then inl PermissionError
      else inr (bool_decide (render a ∈ dirs w ++ files w))
  | inl _ => inr false
  end.

(** [q] names an entry directly inside the directory [a]. *)
Definition child_of (a : ppath) (q : string) : bool :=
  let p := parse q in
  bool_decide (root p = root a) && bool_decide (removelast (parts p) = parts a)
  && negb (bool_decide (parts p = [])).

Definition below (a : ppath) (q : string) : bool :=
  bool_decide (q = render a) || PyStr.startswith q (render a +:+ "/").

Definition toy_iterdir (w : machine) (p : ppath) : exn + list ppath :=
  match toy_resolve w p with
  | inr a =>
      if bool_decide (render a ∈ dirs w)
      then inr (map parse (List.filter (child_of a) (dirs w ++ files w)))
      else if bool_decide (render a ∈ files w) then inl NotADirectoryError
      else inl FileNotFoundError
  | inl e => inl e
  end.

Definition toy_check_output_json (w : machine) (cmd : list string) : exn + introspection :=
  match cmd with
  | py :: _ =>
      match replies w !! py with
      | Some r => inr r
      | None =>
          if bool_decide (py ∈ dirs w) then inl PermissionError
          else inl FileNotFoundError
      end
  | [] => inl FileNotFoundError
  end.

Definition toy_check_output (w : machine) (cmd : list string) : exn + string :=
  match cmd with
  | py :: _ =>
      match purelib w !! py with
      | Some out => inr out
      | None => inl FileNotFoundError
      end
  | [] => inl FileNotFoundError
  end.

(** A command either fails with status 1 or succeeds; what the tools
    themselves put on disk is not simulated. *)
Definition toy_check_call (cmd : list string) (env : gmap string string) (w : machine)
  : option exn * machine :=
  (if bool_decide (cmd ∈ failing w) then Some (CalledProcessError 1) else None, w).

Definition set_tree (w : machine) (ds fs : list string) : machine :=
  Machine (cwd w) ds fs (loops w) (tools w) (replies w) (purelib w) (failing w) (written w)
    (denied w).

Definition toy_rmtree (p : ppath) (w : machine) : option exn * machine :=
  match toy_resolve w p with
  | inr a =>
      if bool_decide (render a ∈ dirs w)
      then (None, set_tree w (List.filter (fun q => negb (below a q)) (dirs w))
                              (List.filter (fun q => negb (below a q)) (files w)))
      else if bool_decide (render a ∈ files w) then (Some NotADirectoryError, w)
      else (Some FileNotFoundError, w)
  | inl e => (Some e, w)
  end.

(** [mkdir(parents=True, exist_ok=True)]. *)
Definition toy_mkdir (p : ppath) (w : machine) : option exn * machine :=
  match toy_resolve w p with
  | inr a =>
      if bool_decide (render a ∈ files w) then (Some FileExistsError, w)
      else (None, set_tree w
                    (List.filter (fun q => negb (bool_decide (q ∈ dirs w)))
                       (map (fun n => render (PPath (root a) (take n (parts a))))
                          (seq 1 (length (parts a))))
                     ++ dirs w)
                    (files w))
  | inl e => (Some e, w)
  end.

Definition toy_write_text (p : ppath) (data : string) (w : machine) : option exn * machine :=
  match toy_resolve w p with
  | inr a =>
      if bool_decide (render a ∈ dirs w) then (Some PermissionError, w)
      else (None, Machine (cwd w) (dirs w) (render a :: files w) (loops w) (tools w)
                    (replies w) (purelib w) (failing w)
                    ((render a, data) :: written w) (denied w))
  | inl e => (Some e, w)
  end.

#[export] Instance toy_os : OS ppath machine := {|
  resolve := toy_resolve;
  is_dir := toy_is_dir;
  path_exists := toy_exists;
  iterdir := toy_iterdir;
  which := fun w name => tools w !! name;
  check_output_json := toy_check_output_json;
  check_output := toy_check_output;
  check_call := toy_check_call;
  rmtree := toy_rmtree;
  mkdir := toy_mkdir;
  write_text := toy_write_text
|}.

(** The end-to-end scenario: mount [/uenv/base], name [base], view
    [default], the interpreter inside the mount, and no target yet. *)
Definition site_packages : string := "/uenv/base/env/default/lib/python3.11/site-packages".

Definition interpreter : string := "/uenv/base/env/default/bin/python3.11".

Definition base_world : machine := {|
  cwd := parse "/home/user";
  dirs := ["/"; "/uenv"; "/uenv/base"; "/uenv/base/env"; "/uenv/base/env/default";
           "/uenv/base/env/default/bin"; "/uenv/base/env/default/lib";
           "/uenv/base/env/default/lib/python3.11"; site_packages;
           "/usr"; "/usr/lib"; "/usr/lib/python3.11"; "/home"; "/home/user"];
  files := [interpreter];
  loops := ["/home/user/loop"];
  tools := ∅;
  replies := {[ interpreter :=
                 {| ver := "3.11";
                    sys_path := [PathStr site_packages; PathStr "/usr/lib/python3.11"] |} ]};
  purelib := {[ "work/venv/bin/python" :=
                 "/home/user/work/venv/lib/python3.11/site-packages" +:+ PyStr.nl ]};
  failing := [];
  written := [];
  denied := []
|}.

Definition base_environ : gmap string string :=
  {[ "UENV_VIEW" := "/uenv/base:base:default" ]}.

Definition base_args : Args := {|
  venv := parse "./work/venv";
  python := parse interpreter;
  force := false;
  copies := false
|}.

Definition start (w : machine) : state := State w [].

(** The same machine with other tools, other replies of the interpreter
    and other failing commands. *)
Definition with_tools (w : machine) (t : gmap string string) (bad : list (list string))
  : machine :=
  Machine (cwd w) (dirs w) (files w) (loops w) t (replies w) (purelib w) bad (written w)
    (denied w).

Definition with_sys_path (w : machine) (entries : list sys_path_entry) : machine :=
  Machine (cwd w) (dirs w) (files w) (loops w) (tools w)
    {[ interpreter := {| ver := "3.11"; sys_path := entries |} ]}
    (purelib w) (failing w) (written w) (denied w).

(** The interpreter advertises nothing of the view; the canonical directory
    exists. *)
Definition fallback_world : machine :=
  with_sys_path base_world [PathOther; PathStr "/usr/lib/python3.11"].

(** The same, and the canonical directory does not exist. *)
Definition missing_world : machine :=
  set_tree fallback_world
    (List.filter (fun q => negb (String.eqb q site_packages)) (dirs base_world))
    (files base_world).

(** A sibling of the canonical directory is on the search path, in front of
    the canonical directory itself. *)
Definition extra_world : machine :=
  with_sys_path
    (set_tree base_world ((site_packages +:+ "-extra") :: dirs base_world)
       (files base_world))
    [PathStr (site_packages +:+ "-extra"); PathStr site_packages].

(** The target exists and holds a file. *)
Definition occupied_world : machine :=
  set_tree base_world
    ("/home/user/work" :: "/home/user/work/venv" :: dirs base_world)
    ("/home/user/work/venv/pyvenv.cfg" :: files base_world).

Definition force_args : Args := {|
  venv := parse "./work/venv";
  python := parse interpreter;
  force := true;
  copies := false
|}.


(** [uv] is not installed and [pip install] exits with status 1. *)
Definition pip_fails_world : machine :=
  with_tools base_world ∅
    [ ["work/venv/bin/python"; "-m"; "pip"; "install"; "-U"; "pip"; "setuptools"; "wheel"] ].


Definition pythonpath_environ : gmap string string :=
  <[ "PYTHONPATH" := "/opt/lib/python" ]> base_environ.

Definition list_environ : gmap string string :=
  {[ "UENV_MOUNT_LIST" := "/images/a.squashfs:/user-tools /images/base.squashfs:/uenv/base" ]}.

End Toy.

(** ** Vocabulary of the statements about whole runs *)

(** How a run ended, without the value it returned. *)
Inductive ending : Type :=
| Returned
| Raised
| Exited (code : Z).

Definition ending_of {A : Type} (o : outcome A) : ending :=
  match o with
  | Ret _ => Returned
  | Raise _ => Raised
  | SysExit code => Exited code
  end.

Definition is_stderr (ev : event) : bool :=
  match ev with
  | EvPrint Stderr _ => true
  | _ => false
  end.

Definition is_check_call (ev : event) : bool :=
  match ev with
  | EvCheckCall _ => true
  | _ => false
  end.

(** The characters that end a token of the list descriptor, and the colon. *)
Definition token_breaker (a : ascii) : bool :=
  is_list_sep a || Ascii.eqb a ":".

Section RunVocabulary.

Context {path W : Type} {PL : PathLib path} {os : OS path W}.

(** Every run of [m] relates the state it starts in, the way it ends and
    the state it ends in. *)
Definition obeys (S : @state W -> ending -> @state W -> Prop) {A : Type} (m : @M W A)
  : Prop :=
  forall st o st', m st = (o, st') -> S st (ending_of o) st'.

(** The discipline of the diagnostics: a run that ends in [sys.exit] ends
    with status 2 and has printed one message on the error stream, as the
    last thing it did; any other run has printed nothing there. *)
Definition disciplined (st : @state W) (e : ending) (st' : @state W) : Prop :=
  exists evs,
    trace st' = trace st ++ evs
    /\ match e with
       | Exited code =>
           code = 2
           /\ exists init msg,
               evs = init ++ [EvPrint Stderr msg]
               /\ forallb (fun ev => negb (is_stderr ev)) init = true
       | _ => forallb (fun ev => negb (is_stderr ev)) evs = true
       end.




(** The ten lines of the report, lines 238-247. *)
Definition report_lines (args : @Args path) (d : @discovery path) (used : string)
    (vsp pth : path) : list event :=
  [ EvPrint Stdout ("uenv-venv created with " +:+ used);
    EvPrint Stdout ("  venv:                 " +:+ path_str (venv args));
    EvPrint Stdout ("  python:               " +:+ path_str (d_py d));
    EvPrint Stdout ("  uenv mount/name/view: " +:+ path_str (d_mount d) +:+ " / "
                    +:+ d_name d +:+ " / " +:+ d_view d);
    EvPrint Stdout ("  uenv site-pkgs:       " +:+ path_str (d_uenv_sp d));
    EvPrint Stdout ("  venv site-pkgs:       " +:+ path_str vsp);
    EvPrint Stdout ("  wrote:                " +:+ path_str pth);
    EvPrint Stdout "";
    EvPrint Stdout "Activate with:";
    EvPrint Stdout ("source " +:+ path_str (joinpath (venv args) "bin/activate")) ].

End RunVocabulary.

(** Further machines and environments. *)
Module Cases.
Import Toy.

(** A composite descriptor with three empty fields, beside a list
    descriptor. *)
Definition empty_fields_environ : gmap string string :=
  {[ "UENV_VIEW" := "::"; "UENV_MOUNT_LIST" := "a:b" ]}.

(** The mount of the descriptor is not on disk. *)
Definition no_mount_environ : gmap string string :=
  {[ "UENV_VIEW" := "/nowhere:base:default" ]}.

(** The view field of the descriptor is empty. *)
Definition no_view_environ : gmap string string :=
  {[ "UENV_VIEW" := "/uenv/base:base:" ]}.

Definition args_with_python (py : string) : Args := {|
  venv := parse "./work/venv";
  python := parse py;
  force := false;
  copies := false
|}.

(** [uv] is installed and everything works. *)
Definition uv_works_world : machine :=
  with_tools base_world {[ "uv" := "/usr/bin/uv" ]} [].

(** [ensurepip] exits with status 1; nothing else fails. *)
Definition ensurepip_fails_world : machine :=
  with_tools base_world ∅ [ ["work/venv/bin/python"; "-m"; "ensurepip"; "--upgrade"] ].

(** The search path holds the view package directory and, behind it, an
    entry whose resolution raises. *)
Definition loop_entry_world : machine :=
  with_sys_path base_world [PathStr site_packages; PathStr "/home/user/loop"].

(** The resolution of the canonical directory raises. *)
Definition canonical_loop_world : machine :=
  Machine (cwd base_world) (dirs base_world) (files base_world) [site_packages]
    (tools base_world)
    {[ interpreter := {| ver := "3.11"; sys_path := [PathOther; PathStr "/usr/lib/python3.11"] |} ]}
    (purelib base_world) (failing base_world) (written base_world) (denied base_world).

(** The target exists and is empty. *)
Definition empty_target_world : machine :=
  set_tree base_world
    ("/home/user/work" :: "/home/user/work/venv" :: dirs base_world)
    (files base_world).

(** The target is a file. *)
Definition file_target_world : machine :=
  set_tree base_world
    ("/home/user/work" :: dirs base_world)
    ("/home/user/work/venv" :: files base_world).

(** The same machine with other directories that may not be searched. *)
Definition with_denied (w : machine) (ds : list string) : machine :=
  Machine (cwd w) (dirs w) (files w) (loops w) (tools w) (replies w) (purelib w)
    (failing w) (written w) ds.

(** The mount lies in a directory that may not be searched. *)
Definition denied_mount_world : machine := with_denied base_world ["/uenv"].

(** [--python] lies in a directory that may not be searched. *)
Definition denied_python_world : machine := with_denied base_world ["/opt/private"].

(** The target lies in a directory that may not be searched. *)
Definition denied_target_world : machine := with_denied base_world ["/home/user/work"].

(** The no-break space U+00A0, in UTF-8. *)
Definition nbsp : string := String "194" (String "160" EmptyString).

(** The interpreter of the venv prints a no-break space on both sides of
    the package directory. *)
Definition padded_world : machine :=
  Machine (cwd base_world) (dirs base_world) (files base_world) (loops base_world)
    (tools base_world) (replies base_world)
    {[ "work/venv/bin/python" :=
         nbsp +:+ "/home/user/work/venv/lib/python3.11/site-packages" +:+ nbsp
         +:+ PyStr.nl ]}
    (failing base_world) (written base_world) (denied base_world).

(** A list descriptor that ends in a no-break space. *)
Definition padded_list_environ : gmap string string :=
  {[ "UENV_MOUNT_LIST" := "/images/base.squashfs:/uenv/base" +:+ nbsp ]}.

End Cases.

(** Unfolding the monad down to pairs of an outcome and a state. *)
Ltac run :=
  unfold _err, print, when, subprocess_check_call, subprocess_check_output,
    try_except, act, emit, ask, ask_exn, raise, sys_exit,
    mbind, M_bind, mret, M_ret in *; cbn [world trace] in *.


(** ** Facts about the string built-ins *)

Module PyStrFacts.
Import PyStr.

Lemma app_cons (c : ascii) (s t : string) :
  String c s +:+ t = String c (s +:+ t).
Proof. reflexivity. Qed.

Lemma app_empty_r (s : string) : s +:+ "" = s.
Proof. induction s as [|c s IH]; [reflexivity|]. rewrite app_cons, IH. reflexivity. Qed.

Lemma app_assoc (s t u : string) : (s +:+ t) +:+ u = s +:+ (t +:+ u).
Proof.
  induction s as [|c s IH]; [reflexivity|].
  rewrite !app_cons, IH. reflexivity.
Qed.

Lemma startswith_app (pre rest : string) : startswith (pre +:+ rest) pre = true.
Proof.
  induction pre as [|b pre IH]; [reflexivity|].
  rewrite app_cons. simpl. rewrite Ascii.eqb_refl. exact IH.
Qed.

(** [s.startswith(pre)] holds exactly when [s] is [pre] followed by
    something. *)
Lemma startswith_spec (s pre : string) :
  startswith s pre = true <-> exists rest, s = pre +:+ rest.
Proof.
  split.
  - revert s. induction pre as [|b pre IH]; intros s H.
    + exists s. reflexivity.
    + destruct s as [|a s]; simpl in H; [discriminate|].
      destruct (Ascii.eqb a b) eqn:E; [|discriminate].
      apply Ascii.eqb_eq in E. subst b.
      destruct (IH _ H) as [rest ->]. exists rest. reflexivity.
  - intros [rest ->]. apply startswith_app.
Qed.

Lemma has_app (p : ascii -> bool) (s t : string) :
  has p (s +:+ t) = has p s || has p t.
Proof.
  induction s as [|a s IH]; [reflexivity|].
  rewrite app_cons. simpl. rewrite IH. apply orb_assoc.
Qed.

Lemma contains_has (c : ascii) (s : string) :
  contains c s = has (fun a => Ascii.eqb a c) s.
Proof.
  induction s as [|a s IH]; [reflexivity|].
  simpl. rewrite IH. destruct (Ascii.eqb a c); reflexivity.
Qed.

Lemma contains_app (c : ascii) (s t : string) :
  contains c (s +:+ t) = contains c s || contains c t.
Proof. rewrite !contains_has. apply has_app. Qed.

Lemma split_on_not_nil (p : ascii -> bool) (s : string) : split_on p s <> [].
Proof.
  destruct s as [|a s]; simpl; [discriminate|].
  destruct (p a); [discriminate|].
  destruct (split_on p s); discriminate.
Qed.

Lemma split_max_not_nil (sep : ascii) (s : string) (k : nat) : split_max sep s k <> [].
Proof.
  destruct s as [|a s]; simpl; [discriminate|].
  destruct k; [discriminate|].
  destruct (Ascii.eqb sep a); [discriminate|].
  destruct (split_max sep s (S k)); discriminate.
Qed.

Lemma length_push_head (a : ascii) (fs : list string) :
  fs <> [] -> length (push_head a fs) = length fs.
Proof. destruct fs; [congruence | reflexivity]. Qed.

(** A string without the separator is a single field. *)
Lemma split_max_plain (sep : ascii) (s : string) (k : nat) :
  contains sep s = false -> split_max sep s k = [s].
Proof.
  induction s as [|a s IH]; intros H; [reflexivity|].
  simpl in H. destruct (Ascii.eqb a sep) eqn:E; [discriminate|].
  simpl. destruct k; [reflexivity|].
  rewrite Ascii.eqb_sym, E, (IH H). reflexivity.
Qed.

(** The first cut is at the first separator. *)
Lemma split_max_cut (sep : ascii) (m rest : string) (k : nat) :
  contains sep m = false ->
  split_max sep (m +:+ String sep rest) (S k) = m :: split_max sep rest k.
Proof.
  induction m as [|a m IH]; intros H.
  - simpl. rewrite Ascii.eqb_refl. reflexivity.
  - simpl in H. destruct (Ascii.eqb a sep) eqn:E; [discriminate|].
    rewrite app_cons. simpl. rewrite Ascii.eqb_sym, E, (IH H). reflexivity.
Qed.

(** With a limit of [k] cuts there are as many fields as separators allow,
    and at most [k + 1]. *)
Lemma length_split_max (sep : ascii) (s : string) (k : nat) :
  length (split_max sep s k) = Nat.min (length (split sep s)) (S k).
Proof.
  unfold split. revert k. induction s as [|a s IH]; intros k; [reflexivity|].
  pose proof (split_on_not_nil (Ascii.eqb sep) s) as Hs.
  assert (0 < length (split_on (Ascii.eqb sep) s))%nat as Hlen
    by (destruct (split_on (Ascii.eqb sep) s); simpl; [congruence | lia]).
  simpl. destruct k as [|k].
  - destruct (Ascii.eqb sep a); simpl.
    + lia.
    + rewrite length_push_head by assumption. lia.
  - destruct (Ascii.eqb sep a); simpl.
    + rewrite IH. lia.
    + rewrite !length_push_head by (assumption || apply split_max_not_nil).
      apply IH.
Qed.

Lemma rsplit1_plain (sep : ascii) (s : string) :
  contains sep s = false -> rsplit1 sep s = [s].
Proof.
  induction s as [|a s IH]; intros H; [reflexivity|].
  simpl in H. destruct (Ascii.eqb a sep) eqn:E; [discriminate|].
  simpl. rewrite (IH H), Ascii.eqb_sym, E. reflexivity.
Qed.

(** [rsplit] with one cut separates what follows the last separator. *)
Lemma rsplit1_cut (sep : ascii) (z d : string) :
  contains sep d = false -> rsplit1 sep (z +:+ String sep d) = [z; d].
Proof.
  intros H. induction z as [|a z IH].
  - simpl. rewrite (rsplit1_plain _ _ H), Ascii.eqb_refl. reflexivity.
  - rewrite app_cons. simpl. rewrite IH. reflexivity.
Qed.

Lemma plain_not_space (c : ascii) : plain c = true -> isspace c = false.
Proof. unfold plain. intros H. apply andb_true_iff in H as [_ H]. apply negb_true_iff, H. Qed.

Lemma plain_differ (c x : ascii) : plain c = true -> plain x = false -> Ascii.eqb c x = false.
Proof. intros Hc Hx. apply Ascii.eqb_neq. intros ->. congruence. Qed.

Lemma plain_below (c : ascii) :
  plain c = true -> N.leb 128 (N_of_ascii c) = false.
Proof.
  unfold plain. intros H. apply andb_true_iff in H as [H _].
  apply N.ltb_lt in H. apply N.leb_gt, H.
Qed.

(** No byte of a longer white-space character is an ASCII character. *)
Lemma isspace2_plain_l (a b : ascii) : plain a = true -> isspace2 a b = false.
Proof.
  intros H. unfold isspace2. rewrite (plain_differ a "194" H eq_refl). reflexivity.
Qed.

Lemma isspace2_plain_r (a b : ascii) : plain b = true -> isspace2 a b = false.
Proof.
  intros H. unfold isspace2.
  rewrite (plain_differ b "133" H eq_refl), (plain_differ b "160" H eq_refl).
  apply andb_false_r.
Qed.

Lemma isspace3_plain_l (a b c : ascii) : plain a = true -> isspace3 a b c = false.
Proof.
  intros H. unfold isspace3.
  rewrite (plain_differ a "225" H eq_refl), (plain_differ a "226" H eq_refl),
    (plain_differ a "227" H eq_refl). reflexivity.
Qed.

Lemma isspace3_plain_m (a b c : ascii) : plain b = true -> isspace3 a b c = false.
Proof.
  intros H. unfold isspace3.
  rewrite (plain_differ b "154" H eq_refl), (plain_differ b "128" H eq_refl),
    (plain_differ b "129" H eq_refl).
  rewrite !andb_false_r. reflexivity.
Qed.

Lemma isspace3_plain_r (a b c : ascii) : plain c = true -> isspace3 a b c = false.
Proof.
  intros H. unfold isspace3.
  rewrite (plain_differ c "128" H eq_refl), (plain_differ c "168" H eq_refl),
    (plain_differ c "169" H eq_refl), (plain_differ c "175" H eq_refl),
    (plain_differ c "159" H eq_refl), (plain_below c H).
  rewrite !andb_false_r. reflexivity.
Qed.

(** One step of [lstrip]. *)
Lemma lstrip_cons (a : ascii) (s1 : string) :
  lstrip (String a s1)
  = if isspace a then lstrip s1
    else match s1 with
         | EmptyString => String a s1
         | String b s2 =>
             if isspace2 a b then lstrip s2
             else match s2 with
                  | EmptyString => String a s1
                  | String c s3 => if isspace3 a b c then lstrip s3 else String a s1
                  end
         end.
Proof. reflexivity. Qed.

(** Nothing is stripped in front of an ASCII character that is not white
    space. *)
Lemma lstrip_plain_head (c : ascii) (t : string) :
  plain c = true -> lstrip (String c t) = String c t.
Proof.
  intros H. rewrite lstrip_cons, (plain_not_space c H).
  destruct t as [|b [|d t]]; [reflexivity| |];
    rewrite (isspace2_plain_l c b H); [reflexivity|].
  rewrite (isspace3_plain_l c b d H). reflexivity.
Qed.

Lemma lstrip_app (pre : string) (c : ascii) (t : string) :
  plain c = true -> lstrip (pre +:+ String c t) = lstrip pre +:+ String c t.
Proof.
  intros H. remember (String.length pre) as n eqn:Hn. revert pre Hn.
  induction n as [n IH] using lt_wf_ind. intros pre ->.
  destruct pre as [|a pre]; [apply (lstrip_plain_head c t H)|].
  rewrite app_cons, (lstrip_cons a (pre +:+ String c t)), (lstrip_cons a pre).
  destruct (isspace a).
  { apply (IH _ (Nat.lt_succ_diag_r _) pre eq_refl). }
  destruct pre as [|b pre].
  { change ("" +:+ String c t) with (String c t). cbv iota.
    rewrite (isspace2_plain_r a c H).
    destruct t as [|e t]; [reflexivity|].
    rewrite (isspace3_plain_m a c e H). reflexivity. }
  rewrite app_cons. cbv iota. destruct (isspace2 a b).
  { apply (IH (String.length pre)); [simpl; lia | reflexivity]. }
  destruct pre as [|d pre].
  { change ("" +:+ String c t) with (String c t). cbv iota.
    rewrite (isspace3_plain_r a b c H). reflexivity. }
  rewrite app_cons. cbv iota. destruct (isspace3 a b d); [|reflexivity].
  apply (IH (String.length pre)); [simpl; lia | reflexivity].
Qed.

Lemma rstrip_cons (a : ascii) (s : string) :
  rstrip (String a s)
  = if blank (String a (rstrip s)) then "" else String a (rstrip s).
Proof. reflexivity. Qed.

(** A white-space character holds no ASCII character that is not white
    space. *)
Lemma blank_no_plain (c : ascii) (s : string) :
  plain c = true -> contains c s = true -> blank s = false.
Proof.
  intros Hc Hs. destruct (blank s) eqn:Hb; [|reflexivity].
  destruct s as [|a [|b [|d [|e s]]]]; try discriminate; simpl in Hb, Hs.
  - destruct (Ascii.eqb a c) eqn:E; [|discriminate].
    apply Ascii.eqb_eq in E. subst a. rewrite (plain_not_space c Hc) in Hb. discriminate.
  - destruct (Ascii.eqb a c) eqn:E.
    + apply Ascii.eqb_eq in E. subst a. rewrite (isspace2_plain_l c b Hc) in Hb. discriminate.
    + destruct (Ascii.eqb b c) eqn:E'; [|discriminate].
      apply Ascii.eqb_eq in E'. subst b. rewrite (isspace2_plain_r a c Hc) in Hb.
      discriminate.
  - destruct (Ascii.eqb a c) eqn:E.
    + apply Ascii.eqb_eq in E. subst a. rewrite (isspace3_plain_l c b d Hc) in Hb.
      discriminate.
    + destruct (Ascii.eqb b c) eqn:E'.
      * apply Ascii.eqb_eq in E'. subst b. rewrite (isspace3_plain_m a c d Hc) in Hb.
        discriminate.
      * destruct (Ascii.eqb d c) eqn:E''; [|discriminate].
        apply Ascii.eqb_eq in E''. subst d. rewrite (isspace3_plain_r a b c Hc) in Hb.
        discriminate.
Qed.

(** Stripping on the right stops at an ASCII character that is not white
    space: what is in front of it stays. *)
Lemma rstrip_app_plain (x : string) (c : ascii) (y : string) :
  plain c = true -> rstrip (x +:+ String c y) = x +:+ String c (rstrip y).
Proof.
  intros H. induction x as [|a x IH].
  - change (rstrip (String c y) = String c (rstrip y)). rewrite rstrip_cons.
    rewrite (blank_no_plain c); [reflexivity | exact H |].
    simpl. rewrite Ascii.eqb_refl. reflexivity.
  - rewrite app_cons, rstrip_cons, IH.
    rewrite (blank_no_plain c); [reflexivity | exact H |].
    change (contains c (String a x +:+ String c (rstrip y)) = true).
    rewrite contains_app. simpl. rewrite Ascii.eqb_refl. apply orb_true_r.
Qed.

(** White space behind is skipped. *)
Lemma rstrip_skip (x post : string) : rstrip post = "" -> rstrip (x +:+ post) = rstrip x.
Proof.
  intros H. induction x as [|a x IH]; [exact H|].
  rewrite app_cons, !rstrip_cons, IH. reflexivity.
Qed.

Lemma split_on_plain (p : ascii -> bool) (y : string) :
  has p y = false -> split_on p y = [y].
Proof.
  induction y as [|a y IH]; intros H; [reflexivity|].
  simpl in H. apply orb_false_iff in H as [Ha Hy].
  simpl. rewrite Ha, (IH Hy). reflexivity.
Qed.

(** Text without separators appended to a string extends its last field. *)
Lemma split_on_app_plain (p : ascii -> bool) (x y : string) :
  has p y = false ->
  split_on p (x +:+ y)
  = removelast (split_on p x) ++ [List.last (split_on p x) "" +:+ y].
Proof.
  intros Hy. induction x as [|a x IH].
  - simpl. apply split_on_plain, Hy.
  - rewrite app_cons. simpl. rewrite IH.
    pose proof (split_on_not_nil p x) as Hne.
    destruct (split_on p x) as [|f [|g fs]]; [congruence| |];
      destruct (p a); reflexivity.
Qed.

Lemma contains_lstrip (c : ascii) (s : string) :
  plain c = true -> contains c (lstrip s) = contains c s.
Proof.
  intros Hc. remember (String.length s) as n eqn:Hn. revert s Hn.
  induction n as [n IH] using lt_wf_ind. intros s ->.
  destruct s as [|a s1]; [reflexivity|].
  assert (forall x, blank x = true -> contains c x = false) as Hblank.
  { intros x Hx. destruct (contains c x) eqn:E; [|reflexivity].
    rewrite (blank_no_plain c x Hc E) in Hx. discriminate. }
  rewrite lstrip_cons. destruct (isspace a) eqn:Ha.
  { rewrite (IH _ (Nat.lt_succ_diag_r _) s1 eq_refl).
    pose proof (Hblank (String a "") Ha) as Hx. simpl in Hx.
    simpl. destruct (Ascii.eqb a c); [discriminate | reflexivity]. }
  destruct s1 as [|b s2]; [reflexivity|].
  destruct (isspace2 a b) eqn:Hab.
  { rewrite (IH (String.length s2)); [|simpl; lia | reflexivity].
    pose proof (Hblank (String a (String b "")) Hab) as Hx. simpl in Hx.
    simpl. destruct (Ascii.eqb a c); [discriminate|].
    destruct (Ascii.eqb b c); [discriminate | reflexivity]. }
  destruct s2 as [|d s3]; [reflexivity|].
  destruct (isspace3 a b d) eqn:Habd; [|reflexivity].
  rewrite (IH (String.length s3)); [|simpl; lia | reflexivity].
  pose proof (Hblank (String a (String b (String d ""))) Habd) as Hx. simpl in Hx.
  simpl. destruct (Ascii.eqb a c); [discriminate|].
  destruct (Ascii.eqb b c); [discriminate|].
  destruct (Ascii.eqb d c); [discriminate | reflexivity].
Qed.

Lemma contains_rstrip (c : ascii) (s : string) :
  plain c = true -> contains c (rstrip s) = contains c s.
Proof.
  intros Hc. induction s as [|a s IH]; [reflexivity|].
  rewrite rstrip_cons. destruct (blank (String a (rstrip s))) eqn:Hb.
  - destruct (contains c (String a (rstrip s))) eqn:E.
    + rewrite (blank_no_plain c _ Hc E) in Hb. discriminate.
    + simpl in E. rewrite IH in E. simpl. rewrite E. reflexivity.
  - simpl. rewrite IH. reflexivity.
Qed.

Lemma contains_strip (c : ascii) (s : string) :
  plain c = true -> contains c (strip s) = contains c s.
Proof.
  intros Hc. unfold strip. rewrite contains_rstrip, contains_lstrip; auto.
Qed.

(** A character that is not a separator is in the text exactly when it is
    in one of the fields. *)
Lemma existsb_split_on (c : ascii) (p : ascii -> bool) (s : string) :
  p c = false -> existsb (contains c) (split_on p s) = contains c s.
Proof.
  intros Hc. induction s as [|a s IH]; [reflexivity|].
  simpl. destruct (p a) eqn:Ha.
  - simpl. rewrite IH.
    assert (Ascii.eqb a c = false) as ->; [|reflexivity].
    apply Ascii.eqb_neq. intros ->. congruence.
  - pose proof (split_on_not_nil p s) as Hne.
    destruct (split_on p s) as [|f fs]; [congruence|].
    simpl in *. rewrite <- IH. destruct (Ascii.eqb a c); reflexivity.
Qed.


End PyStrFacts.

(** ** The descriptor parser and the provenance check *)

Section ParserFacts.

Context {path W : Type} {PL : PathLib path} {os : OS path W}.

Implicit Types (environ : gmap string string) (st : @state W).

(** The tokens are inspected until one holds a colon. *)
Lemma scan_tokens_none (tokens : list string) :
  scan_tokens tokens = None <-> existsb (PyStr.contains ":") tokens = false.
Proof.
  induction tokens as [|t ts IH]; simpl; [tauto|].
  destruct (PyStr.contains ":" t) eqn:E.
  - destruct t; [discriminate|]. simpl. split; discriminate.
  - rewrite andb_false_r. exact IH.
Qed.

Lemma existsb_rev {A : Type} (f : A -> bool) (l : list A) :
  existsb f (rev l) = existsb f l.
Proof.
  induction l as [|x l IH]; [reflexivity|].
  simpl. rewrite existsb_app, IH. simpl. rewrite orb_false_r. apply orb_comm.
Qed.

(** The list descriptor gives a mount exactly when it holds a colon. *)
Lemma scan_mount_list (uml : string) :
  scan_tokens (rev (PyStr.split_on is_list_sep (PyStr.strip uml))) = None
  <-> PyStr.contains ":" uml = false.
Proof.
  rewrite scan_tokens_none, existsb_rev, PyStrFacts.existsb_split_on by reflexivity.
  rewrite PyStrFacts.contains_strip by reflexivity. tauto.
Qed.

(** What the list-descriptor path does: a mount with empty name and view,
    or the fatal diagnostic. *)
Lemma parse_uenv_mount_list_cases environ st :
  (PyStr.contains ":" (default "" (environ !! "UENV_MOUNT_LIST")) = true
   /\ exists mount : string,
        parse_uenv_mount_list environ st = (Ret (Path mount, "", ""), st))
  \/ (PyStr.contains ":" (default "" (environ !! "UENV_MOUNT_LIST")) = false
      /\ parse_uenv_mount_list environ st
         = (SysExit 2,
            State (world st) (trace st ++ [EvPrint Stderr "ERROR: Could not detect uenv."]))).
Proof.
  unfold parse_uenv_mount_list.
  set (uml := default "" (environ !! "UENV_MOUNT_LIST")).
  destruct (PyStr.contains ":" uml) eqn:Hc.
  - left. split; [reflexivity|].
    assert (PyStr.truthy uml = true) as -> by (destruct uml; [discriminate|reflexivity]).
    destruct (scan_tokens _) as [mount|] eqn:E.
    + exists mount. reflexivity.
    + apply scan_mount_list in E. congruence.
  - right. split; [reflexivity|].
    destruct (PyStr.truthy uml); [|reflexivity].
    apply scan_mount_list in Hc. rewrite Hc. reflexivity.
Qed.

Lemma composite_fallthrough environ st :
  length (PyStr.split ":" (default "" (environ !! "UENV_VIEW"))) <> 3%nat ->
  parse_uenv environ st = parse_uenv_mount_list environ st.
Proof.
  intros Hlen. unfold parse_uenv.
  set (uv := default "" (environ !! "UENV_VIEW")) in *.
  destruct (PyStr.truthy uv); [|reflexivity].
  pose proof (PyStrFacts.length_split_max ":" uv 3) as L.
  destruct (PyStr.split_max ":" uv 3) as [|a [|b [|c [|d l]]]]; try reflexivity.
  simpl in L. lia.
Qed.

(** C5: a composite descriptor [m:n:v] whose three fields hold no colon is
    parsed into mount [m], name [n] and view [v]; a value of [UENV_VIEW]
    that does not split at colons into exactly three fields (an absent or
    empty one included) hands the parse over to the list descriptor. *)
Theorem parse_uenv_composite environ st :
  (forall m n v : string,
      PyStr.contains ":" m = false ->
      PyStr.contains ":" n = false ->
      PyStr.contains ":" v = false ->
      environ !! "UENV_VIEW" = Some (m +:+ ":" +:+ n +:+ ":" +:+ v) ->
      parse_uenv environ st = (Ret (Path m, n, v), st))
  /\ (length (PyStr.split ":" (default "" (environ !! "UENV_VIEW"))) <> 3%nat ->
      parse_uenv environ st = parse_uenv_mount_list environ st).
Proof.
  split; [|apply composite_fallthrough].
  intros m n v Hm Hn Hv Huv. unfold parse_uenv. rewrite Huv. simpl.
  change (":" +:+ n +:+ ":" +:+ v) with (String ":" (n +:+ String ":" v)).
  assert (PyStr.truthy (m +:+ String ":" (n +:+ String ":" v)) = true) as ->
    by (destruct m; reflexivity).
  rewrite (PyStrFacts.split_max_cut ":" m _ 2 Hm).
  rewrite (PyStrFacts.split_max_cut ":" n _ 1 Hn).
  rewrite (PyStrFacts.split_max_plain ":" v 1 Hv). reflexivity.
Qed.

(** The mount of the last token of a list descriptor. *)
Lemma scan_last_token (front d trail : string) :
  PyStr.has is_list_sep d = false -> PyStr.contains ":" d = false ->
  PyStr.rstrip d = d -> PyStr.rstrip trail = "" ->
  scan_tokens
    (rev (PyStr.split_on is_list_sep (PyStr.strip (front +:+ String ":" (d +:+ trail)))))
  = Some d.
Proof.
  intros Hsep Hcol Hend Htrail. unfold PyStr.strip.
  rewrite PyStrFacts.lstrip_app by reflexivity.
  rewrite PyStrFacts.rstrip_app_plain by reflexivity.
  rewrite (PyStrFacts.rstrip_skip d trail Htrail), Hend.
  rewrite PyStrFacts.split_on_app_plain by (simpl; exact Hsep).
  rewrite rev_unit. simpl.
  set (z := List.last _ _).
  assert (PyStr.contains ":" (z +:+ String ":" d) = true) as Hc.
  { rewrite PyStrFacts.contains_app. simpl. apply orb_true_r. }
  rewrite Hc.
  assert (PyStr.truthy (z +:+ String ":" d) = true) as ->
    by (destruct z; reflexivity).
  simpl. rewrite (PyStrFacts.rsplit1_cut ":" z d Hcol). reflexivity.
Qed.

(** C6: when the composite descriptor is absent or malformed, a list
    descriptor whose last token is [image:d] (whatever tokens and
    separators come before it, and whatever white space, of Unicode too,
    comes behind it), with [d] free of space, comma and colon and not
    ending in white space, gives the mount [d], with empty name and view;
    and when the list descriptor holds no colon at all (or is absent) the
    parse ends in the fatal diagnostic with status 2. *)
Theorem parse_uenv_list_descriptor environ st :
  length (PyStr.split ":" (default "" (environ !! "UENV_VIEW"))) <> 3%nat ->
  (forall earlier image d trail : string,
      PyStr.has is_list_sep d = false ->
      PyStr.contains ":" d = false ->
      PyStr.rstrip d = d ->
      PyStr.rstrip trail = "" ->
      environ !! "UENV_MOUNT_LIST" = Some (earlier +:+ image +:+ ":" +:+ d +:+ trail) ->
      parse_uenv environ st = (Ret (Path d, "", ""), st))
  /\ (PyStr.contains ":" (default "" (environ !! "UENV_MOUNT_LIST")) = false ->
      parse_uenv environ st
      = (SysExit 2,
         State (world st) (trace st ++ [EvPrint Stderr "ERROR: Could not detect uenv."]))).
Proof.
  intros Hview. rewrite (composite_fallthrough _ _ Hview). split.
  - intros earlier image d trail Hsep Hcol Hend Htrail Huml.
    unfold parse_uenv_mount_list. rewrite Huml. simpl.
    rewrite <- PyStrFacts.app_assoc.
    change (":" +:+ d +:+ trail) with (String ":" (d +:+ trail)).
    assert (PyStr.truthy ((earlier +:+ image) +:+ String ":" (d +:+ trail)) = true) as ->
      by (destruct (earlier +:+ image); reflexivity).
    rewrite (scan_last_token _ d trail Hsep Hcol Hend Htrail). reflexivity.
  - intros Hc. destruct (parse_uenv_mount_list_cases environ st) as [[H _]|[_ H]];
      [congruence | exact H].
Qed.

(** C1: the provenance check always returns a boolean and never raises; it
    returns [True] exactly when both paths resolve and the interpreter's
    resolved path string is the mount's resolved path string, a slash, and
    something more; it returns [False] when a resolution raises. *)
Theorem py_in_uenv_sound (py mount : path) st :
  exists b : bool,
    py_in_uenv py mount st = (Ret b, st)
    /\ (b = true <->
        exists (p m : path) (rest : string),
          resolve (world st) py = inr p /\ resolve (world st) mount = inr m
          /\ as_posix p = as_posix m +:+ "/" +:+ rest)
    /\ ((exists e, resolve (world st) py = inl e \/ resolve (world st) mount = inl e) ->
        b = false).
Proof.
  unfold py_in_uenv. run.
  destruct (resolve (world st) py) as [e1|p] eqn:Hp.
  - exists false. split; [reflexivity|]. split; [|reflexivity].
    split; [discriminate|]. intros (p & m & rest & H & _). discriminate.
  - destruct (resolve (world st) mount) as [e2|m] eqn:Hm.
    + exists false. split; [reflexivity|]. split; [|reflexivity].
      split; [discriminate|]. intros (p' & m' & rest & _ & H & _). discriminate.
    + exists (PyStr.startswith (as_posix p) (as_posix m +:+ "/")).
      split; [reflexivity|]. split.
      * rewrite PyStrFacts.startswith_spec. split.
        -- intros [rest Hr]. exists p, m, rest. rewrite PyStrFacts.app_assoc in Hr. auto.
        -- intros (p' & m' & rest & H1 & H2 & H3). exists rest.
           inversion H1; inversion H2; subst. rewrite PyStrFacts.app_assoc. exact H3.
      * intros [e [H|H]]; discriminate.
Qed.

End ParserFacts.

(** ** The view package-directory resolver *)

Section ResolverFacts.

Context {path W : Type} {PL : PathLib path} {os : OS path W}.

Implicit Types (st : @state W) (w : W).

Lemma accepted_spec w (want_prefix p pr : path) :
  accepted w want_prefix p = inr (Some pr) <->
  resolve w p = inr pr /\ is_dir w pr = inr true
  /\ exists rest, as_posix pr = as_posix want_prefix +:+ rest.
Proof.
  unfold accepted. rewrite <- PyStrFacts.startswith_spec.
  destruct (resolve w p) as [e|q].
  - split; [discriminate|]. intros [H _]. discriminate.
  - destruct (is_dir w q) as [e|[]] eqn:Hd; simpl.
    + split; [discriminate|]. intros ([= <-] & H & _). congruence.
    + destruct (PyStr.startswith (as_posix q) (as_posix want_prefix)) eqn:Hs.
      * split.
        -- intros [= <-]. auto.
        -- intros ([= <-] & _ & _). reflexivity.
      * split; [discriminate|]. intros ([= <-] & _ & H). congruence.
    + split; [discriminate|]. intros ([= <-] & H & _). congruence.
Qed.

(** The comprehension of line 82 when every string entry resolves. *)
Lemma resolve_entries_run st (entries : list sys_path_entry) (ps : list path) :
  Forall2 (fun s p => resolve (world st) (Path s) = inr p) (str_entries entries) ps ->
  resolve_entries entries st = (Ret ps, st).
Proof.
  revert ps. induction entries as [|[s|] entries IH]; intros ps H; simpl in *.
  - inversion H. reflexivity.
  - inversion H as [|s' p ss ps' Hp Hrest]; subst. run.
    rewrite Hp, (IH _ Hrest). reflexivity.
  - apply IH, H.
Qed.

Lemma scan_sys_path_step st (want_prefix p : path) (rest : list path) :
  scan_sys_path want_prefix (p :: rest) st
  = match accepted (world st) want_prefix p with
    | inr (Some pr) => (Ret (Some pr), st)
    | inr None => scan_sys_path want_prefix rest st
    | inl e => (Raise e, st)
    end.
Proof.
  unfold accepted. simpl. run.
  destruct (resolve (world st) p) as [e|pr]; [reflexivity|].
  destruct (is_dir (world st) pr) as [e|d]; [reflexivity|].
  destruct (d && _); reflexivity.
Qed.

(** The loop of lines 88-94 ends without a result when no entry is
    accepted. *)
Lemma scan_sys_path_none w (tr : list event) (want_prefix : path) (ps : list path) :
  Forall (fun q => accepted w want_prefix q = inr None) ps ->
  scan_sys_path want_prefix ps (State w tr) = (Ret None, State w tr).
Proof.
  induction 1 as [|q ps Hq _ IH]; [reflexivity|].
  rewrite scan_sys_path_step. cbn [world]. rewrite Hq. exact IH.
Qed.

(** The loop returns the first accepted entry. *)
Lemma scan_sys_path_first w (tr : list event) (want_prefix p pr : path)
    (before after : list path) :
  Forall (fun q => accepted w want_prefix q = inr None) before ->
  accepted w want_prefix p = inr (Some pr) ->
  scan_sys_path want_prefix (before ++ p :: after) (State w tr)
  = (Ret (Some pr), State w tr).
Proof.
  intros Hb Hp. induction Hb as [|q before Hq _ IH]; simpl app.
  - rewrite scan_sys_path_step. cbn [world]. rewrite Hp. reflexivity.
  - rewrite scan_sys_path_step. cbn [world]. rewrite Hq. exact IH.
Qed.

(** The loop ends on the first directory test that raises. *)
Lemma scan_sys_path_raise w (tr : list event) (want_prefix p : path) (e : exn)
    (before after : list path) :
  Forall (fun q => accepted w want_prefix q = inr None) before ->
  accepted w want_prefix p = inl e ->
  scan_sys_path want_prefix (before ++ p :: after) (State w tr)
  = (Raise e, State w tr).
Proof.
  intros Hb Hp. induction Hb as [|q before Hq _ IH]; simpl app.
  - rewrite scan_sys_path_step. cbn [world]. rewrite Hp. reflexivity.
  - rewrite scan_sys_path_step. cbn [world]. rewrite Hq. exact IH.
Qed.

(** The resolver once the interpreter has replied and the paths resolved:
    what is left is the loop and the fallback. *)
Lemma discover_run (mount : path) (view_name : string) (py : path) st
    (reply : introspection) (ps : list path) (want : path) :
  let cmd := [path_str py; "-c"; introspection_code] in
  check_output_json (world st) cmd = inr reply ->
  Forall2 (fun s p => resolve (world st) (Path s) = inr p)
    (str_entries (sys_path reply)) ps ->
  resolve (world st) (canonical_site_packages mount view_name (ver reply)) = inr want ->
  discover_uenv_site_packages mount view_name py st
  = match scan_sys_path want ps (logged st [EvCheckOutput cmd]) with
    | (Ret (Some pr), st') => (Ret pr, st')
    | (Ret None, st') =>
        match is_dir (world st') want with
        | inr true => (Ret want, st')
        | inr false =>
            (SysExit 2, logged st' [EvPrint Stderr (site_packages_message want)])
        | inl e => (Raise e, st')
        end
    | (Raise e, st') => (Raise e, st')
    | (SysExit code, st') => (SysExit code, st')
    end.
Proof.
  intros cmd Hreply Hps Hwant. unfold discover_uenv_site_packages, logged.
  fold cmd. unfold mbind at 1 2 3 4. unfold M_bind at 1 2 3 4.
  unfold emit at 1. unfold ask_exn at 1. cbn [world trace]. rewrite Hreply.
  rewrite (resolve_entries_run (State (world st) (trace st ++ [EvCheckOutput cmd])) _ ps)
    by exact Hps.
  unfold ask_exn at 1. cbn [world trace]. rewrite Hwant.
  unfold mbind, M_bind.
  destruct (scan_sys_path want ps _) as [[[pr|]|e|code] st']; try reflexivity.
  run. destruct (is_dir (world st') want) as [e|[]]; reflexivity.
Qed.

(** The resolver when the interpreter has reported its version and search
    path, every reported string entry resolves and the canonical path
    resolves: it returns the first entry that is accepted; when no entry is
    it returns the canonical path if that is a directory, and otherwise
    ends with status 2 after its diagnostic; and a directory test that
    raises ends it with that exception. *)
Lemma discover_uenv_site_packages_spec (mount : path) (view_name : string) (py : path)
    st (reply : introspection) (ps : list path) (want : path) :
  let w := world st in
  let cmd := [path_str py; "-c"; introspection_code] in
  check_output_json w cmd = inr reply ->
  Forall2 (fun s p => resolve w (Path s) = inr p) (str_entries (sys_path reply)) ps ->
  resolve w (canonical_site_packages mount view_name (ver reply)) = inr want ->
  (forall (before after : list path) (p pr : path),
      ps = before ++ p :: after ->
      Forall (fun q => accepted w want q = inr None) before ->
      accepted w want p = inr (Some pr) ->
      discover_uenv_site_packages mount view_name py st
      = (Ret pr, logged st [EvCheckOutput cmd]))
  /\ (forall (before after : list path) (p : path) (e : exn),
         ps = before ++ p :: after ->
         Forall (fun q => accepted w want q = inr None) before ->
         accepted w want p = inl e ->
         discover_uenv_site_packages mount view_name py st
         = (Raise e, logged st [EvCheckOutput cmd]))
  /\ (Forall (fun q => accepted w want q = inr None) ps ->
      (is_dir w want = inr true ->
       discover_uenv_site_packages mount view_name py st
       = (Ret want, logged st [EvCheckOutput cmd]))
      /\ (is_dir w want = inr false ->
          discover_uenv_site_packages mount view_name py st
          = (SysExit 2,
             logged st [EvCheckOutput cmd; EvPrint Stderr (site_packages_message want)]))
      /\ (forall e, is_dir w want = inl e ->
                    discover_uenv_site_packages mount view_name py st
                    = (Raise e, logged st [EvCheckOutput cmd]))).
Proof.
  intros w cmd Hreply Hps Hwant.
  pose proof (discover_run mount view_name py st reply ps want Hreply Hps Hwant) as Hrun.
  fold cmd in Hrun. unfold logged in *. split; [|split].
  - intros before after p pr -> Hb Hp. rewrite Hrun.
    rewrite (scan_sys_path_first w _ want p pr before after Hb Hp). reflexivity.
  - intros before after p e -> Hb Hp. rewrite Hrun.
    rewrite (scan_sys_path_raise w _ want p e before after Hb Hp). reflexivity.
  - intros Hnone. rewrite Hrun, (scan_sys_path_none w _ want ps Hnone).
    cbn [world trace]. fold w. split; [|split].
    + intros ->. reflexivity.
    + intros ->. rewrite <- app_assoc. reflexivity.
    + intros e ->. reflexivity.
Qed.

(** What the loop returns is the resolution of one of the entries. *)
Lemma scan_sys_path_resolved (want_prefix pr : path) (ps : list path) st st' :
  scan_sys_path want_prefix ps st = (Ret (Some pr), st') ->
  st' = st /\ exists p, In p ps /\ resolve (world st) p = inr pr.
Proof.
  induction ps as [|p ps IH]; [discriminate|].
  rewrite scan_sys_path_step.
  destruct (accepted (world st) want_prefix p) as [e|[pr'|]] eqn:E.
  - discriminate.
  - intros [= <- <-]. apply accepted_spec in E as [E _].
    split; [reflexivity|]. exists p. split; [left; reflexivity | exact E].
  - intros H. destruct (IH H) as [-> (q & Hin & Hq)].
    split; [reflexivity|]. exists q. split; [right; exact Hin | exact Hq].
Qed.

Lemma resolve_entries_state (entries : list sys_path_entry) st (o : outcome (list path)) st' :
  resolve_entries entries st = (o, st') -> st' = st.
Proof.
  revert o st'. induction entries as [|[s|] entries IH]; intros o st'; simpl.
  - intros [= _ <-]. reflexivity.
  - run. destruct (resolve (world st) (Path s)) as [e|p].
    + intros [= _ <-]. reflexivity.
    + destruct (resolve_entries entries st) as [[ps|e|code] s1];
        intros [= _ <-]; exact (IH _ _ eq_refl).
  - apply IH.
Qed.

Lemma scan_sys_path_state (want_prefix : path) (ps : list path) st
    (o : outcome (option path)) st' :
  scan_sys_path want_prefix ps st = (o, st') -> st' = st.
Proof.
  induction ps as [|p ps IH].
  - intros [= _ <-]. reflexivity.
  - rewrite scan_sys_path_step.
    destruct (accepted (world st) want_prefix p) as [e|[pr|]]; [| |exact IH];
      intros [= _ <-]; reflexivity.
Qed.

(** The directory the resolver returns is the resolution of some path: of
    a search-path entry, or of the canonical path. *)
Lemma discover_returns_resolved (mount : path) (view_name : string) (py r : path) st st' :
  discover_uenv_site_packages mount view_name py st = (Ret r, st') ->
  world st' = world st /\ exists q, resolve (world st) q = inr r.
Proof.
  unfold discover_uenv_site_packages.
  set (cmd := [path_str py; "-c"; introspection_code]).
  unfold mbind at 1 2 3 4. unfold M_bind at 1 2 3 4.
  unfold emit at 1. unfold ask_exn at 1. cbn [world trace].
  destruct (check_output_json (world st) cmd) as [e|reply]; [discriminate|].
  destruct (resolve_entries (sys_path reply) _) as [[ps|e|code] s1] eqn:Eps;
    [|discriminate|discriminate].
  apply resolve_entries_state in Eps as ->.
  unfold ask_exn at 1. cbn [world trace].
  destruct (resolve (world st) (canonical_site_packages mount view_name (ver reply)))
    as [e|want] eqn:Ewant; [discriminate|].
  unfold mbind, M_bind.
  destruct (scan_sys_path want ps _) as [[[pr|]|e|code] s2] eqn:Escan;
    [| |discriminate|discriminate].
  - apply scan_sys_path_resolved in Escan as [-> (p & _ & Hp)].
    intros [= <- <-]. split; [reflexivity|]. exists p. exact Hp.
  - apply scan_sys_path_state in Escan as ->. run.
    destruct (is_dir (world st) want) as [e|[]]; [discriminate| |discriminate].
    intros [= <- <-]. split; [reflexivity|]. eexists. exact Ewant.
Qed.

End ResolverFacts.

(** ** Invariants of runs, closed under the control structure *)

Section Respects.

Context {path W : Type} {PL : PathLib path} {os : OS path W}.

Variable R : @state W -> @state W -> Prop.
Hypothesis R_refl : forall st, R st st.
Hypothesis R_trans : forall a b c, R a b -> R b c -> R a c.

Lemma respects_ret {A : Type} (a : A) : respects R (mret a).
Proof. intros st o st' [= <- <-]. apply R_refl. Qed.

Lemma respects_raise {A : Type} (e : exn) : respects R (raise e : M A).
Proof. intros st o st' [= <- <-]. apply R_refl. Qed.

Lemma respects_sys_exit {A : Type} (code : Z) : respects R (sys_exit code : M A).
Proof. intros st o st' [= <- <-]. apply R_refl. Qed.

Lemma respects_ask {A : Type} (q : W -> A) : respects R (ask q).
Proof. intros st o st' [= <- <-]. apply R_refl. Qed.

Lemma respects_ask_exn {A : Type} (q : W -> exn + A) : respects R (ask_exn q).
Proof.
  intros st o st'. unfold ask_exn. destruct (q (world st)); intros [= <- <-]; apply R_refl.
Qed.

Lemma respects_bind {A B : Type} (m : M A) (f : A -> M B) :
  respects R m -> (forall a, respects R (f a)) -> respects R (m ≫= f).
Proof.
  intros Hm Hf st o st'. unfold mbind, M_bind.
  destruct (m st) as [[a|e|code] st1] eqn:E; intros H.
  - eapply R_trans; [eapply Hm, E | eapply Hf, H].
  - injection H as <- <-. eapply Hm, E.
  - injection H as <- <-. eapply Hm, E.
Qed.

Lemma respects_try_except {A : Type} (body handler : M A) :
  respects R body -> respects R handler -> respects R (try_except body handler).
Proof.
  intros Hb Hh st o st'. unfold try_except.
  destruct (body st) as [[a|e|code] st1] eqn:E; intros H.
  - injection H as <- <-. eapply Hb, E.
  - eapply R_trans; [eapply Hb, E | eapply Hh, H].
  - injection H as <- <-. eapply Hb, E.
Qed.

Lemma respects_when (cond : bool) (body : M unit) :
  respects R body -> respects R (when cond body).
Proof. intros H. destruct cond; [exact H | apply respects_ret]. Qed.

Lemma respects_emit (ev : event) :
  (forall st, R st (logged st [ev])) -> respects R (emit ev).
Proof. intros H st o st' [= <- <-]. apply H. Qed.

Lemma respects_err {A : Type} (msg : string) (code : Z) :
  (forall st, R st (logged st [EvPrint Stderr msg])) -> respects R (_err msg code : M A).
Proof.
  intros H. unfold _err, print. apply respects_bind.
  - apply respects_emit, H.
  - intros _. apply respects_sys_exit.
Qed.

Lemma respects_act (ev : event) (a : W -> option exn * W) :
  (forall st, R st (State (snd (a (world st))) (trace st ++ [ev]))) ->
  respects R (act ev a).
Proof.
  intros H st o st'. unfold act. specialize (H st).
  destruct (a (world st)) as [r w']. intros [= <- <-]. exact H.
Qed.

End Respects.

(** ** Runs of [main] *)

Section MainFacts.

Context {path W : Type} {PL : PathLib path} {os : OS path W}.

Implicit Types (environ : gmap string string) (st : @state W) (args : @Args path).

Lemma quiet_refl st : quiet st st.
Proof. split; [reflexivity|]. exists []. rewrite app_nil_r. auto. Qed.

Lemma quiet_trans st1 st2 st3 : quiet st1 st2 -> quiet st2 st3 -> quiet st1 st3.
Proof.
  intros [Hw1 (e1 & Ht1 & Hq1)] [Hw2 (e2 & Ht2 & Hq2)]. split; [congruence|].
  exists (e1 ++ e2). rewrite Ht2, Ht1, <- app_assoc. split; [reflexivity|].
  rewrite forallb_app, Hq1, Hq2. reflexivity.
Qed.

Lemma quiet_logged st (ev : event) : mutating ev = false -> quiet st (logged st [ev]).
Proof.
  intros H. split; [reflexivity|]. exists [ev]. split; [reflexivity|].
  simpl. rewrite H. reflexivity.
Qed.

Lemma grows_refl st : grows st st.
Proof. exists []. rewrite app_nil_r. reflexivity. Qed.

Lemma grows_trans st1 st2 st3 : grows st1 st2 -> grows st2 st3 -> grows st1 st3.
Proof.
  intros [e1 H1] [e2 H2]. exists (e1 ++ e2). rewrite H2, H1, <- app_assoc. reflexivity.
Qed.

Lemma bind_ret_run {A B : Type} (m : M A) (f : A -> M B) st (a : A) st1 :
  m st = (Ret a, st1) -> (m ≫= f) st = f a st1.
Proof. intros H. unfold mbind, M_bind. rewrite H. reflexivity. Qed.


Lemma bind_exit_run {A B : Type} (m : M A) (f : A -> M B) st (code : Z) st1 :
  m st = (SysExit code, st1) -> (m ≫= f) st = (SysExit code, st1).
Proof. intros H. unfold mbind, M_bind. rewrite H. reflexivity. Qed.

Lemma bind_raise_run {A B : Type} (m : M A) (f : A -> M B) st (e : exn) st1 :
  m st = (Raise e, st1) -> (m ≫= f) st = (Raise e, st1).
Proof. intros H. unfold mbind, M_bind. rewrite H. reflexivity. Qed.

Lemma bind_assoc_run {A B C : Type} (m : @M W A) (f : A -> M B) (g : B -> M C) st :
  ((m ≫= f) ≫= g) st = (m ≫= (fun a => f a ≫= g)) st.
Proof.
  unfold mbind, M_bind. destruct (m st) as [[a|e|code] st1]; reflexivity.
Qed.

Lemma bind_ret_inv {A B : Type} (m : M A) (f : A -> M B) st (b : B) st' :
  (m ≫= f) st = (Ret b, st') ->
  exists a st1, m st = (Ret a, st1) /\ f a st1 = (Ret b, st').
Proof.
  unfold mbind, M_bind. destruct (m st) as [[a|e|code] st1]; intros H;
    [eauto | discriminate | discriminate].
Qed.

(** One step of a proof that a computation respects a relation: the
    closure lemma for the head of the computation, or a case split. *)
Ltac respects_step solve_side :=
  lazymatch goal with
  | |- respects _ (mret _) => apply respects_ret; solve_side
  | |- respects _ (raise _) => apply respects_raise; solve_side
  | |- respects _ (sys_exit _) => apply respects_sys_exit; solve_side
  | |- respects _ (ask _) => apply respects_ask; solve_side
  | |- respects _ (ask_exn _) => apply respects_ask_exn; solve_side
  | |- respects _ (_ ≫= _) => apply respects_bind; [solve_side | | intros ?]
  | |- respects _ (try_except _ _) => apply respects_try_except; [solve_side | | ]
  | |- respects _ (when _ _) => apply respects_when; [solve_side | ]
  | |- respects _ (_err _ _) => apply respects_err; [solve_side | solve_side | solve_side]
  | |- respects _ (print _ _) => apply respects_emit; solve_side
  | |- respects _ (emit _) => apply respects_emit; solve_side
  | |- respects _ (act _ _) => apply respects_act; solve_side
  | |- respects _ (match ?x with _ => _ end) => destruct x
  end.

Ltac quiet_side :=
  first [ exact quiet_refl | exact quiet_trans
        | intros; apply quiet_logged; reflexivity ].

Ltac grows_side :=
  first [ exact grows_refl | exact grows_trans
        | intros; eexists; reflexivity ].

Lemma parse_uenv_quiet environ : respects (@quiet W) (parse_uenv environ).
Proof.
  unfold parse_uenv, parse_uenv_mount_list.
  repeat respects_step quiet_side.
Qed.

Lemma py_in_uenv_quiet (py mount : path) : respects (@quiet W) (py_in_uenv py mount).
Proof. unfold py_in_uenv. repeat respects_step quiet_side. Qed.

Lemma resolve_entries_quiet (entries : list sys_path_entry) :
  respects (@quiet W) (resolve_entries entries).
Proof.
  induction entries as [|[s|] entries IH]; simpl; [| |exact IH];
    repeat first [exact IH | respects_step quiet_side].
Qed.

Lemma scan_sys_path_quiet (want_prefix : path) (ps : list path) :
  respects (@quiet W) (scan_sys_path want_prefix ps).
Proof.
  induction ps as [|p ps IH]; simpl;
    repeat first [exact IH | respects_step quiet_side].
Qed.

Lemma discover_quiet (mount : path) (view_name : string) (py : path) :
  respects (@quiet W) (discover_uenv_site_packages mount view_name py).
Proof.
  unfold discover_uenv_site_packages.
  repeat first [ apply resolve_entries_quiet | apply scan_sys_path_quiet
               | respects_step quiet_side ].
Qed.

Lemma ensure_no_pythonpath_quiet environ : respects (@quiet W) (ensure_no_pythonpath environ).
Proof. unfold ensure_no_pythonpath. repeat respects_step quiet_side. Qed.

(** Discovery and the gates change nothing on disk. *)
Lemma main_discover_quiet environ args : respects (@quiet W) (main_discover environ args).
Proof.
  unfold main_discover.
  repeat first [ apply parse_uenv_quiet | apply py_in_uenv_quiet | apply discover_quiet
               | respects_step quiet_side ].
Qed.

Lemma main_gates_quiet environ args : respects (@quiet W) (main_gates environ args).
Proof.
  unfold main_gates.
  repeat first [ apply main_discover_quiet | apply ensure_no_pythonpath_quiet
               | respects_step quiet_side ].
Qed.

Lemma bind_ret_inv_quiet {A B : Type} (m : @M W A) (f : A -> M B) st (b : B) st' :
  respects (@quiet W) m ->
  (m ≫= f) st = (Ret b, st') ->
  exists a st1, world st1 = world st /\ f a st1 = (Ret b, st').
Proof.
  intros Hq H. apply bind_ret_inv in H as (a & st1 & Hm & Hf).
  exists a, st1. split; [apply (Hq _ _ _ Hm) | exact Hf].
Qed.

(** When the gates are passed, the view package directory they hand on is
    an existing directory and the resolution of some path. *)
Lemma main_gates_ret environ args st (d : discovery) (st1 : @state W) :
  main_gates environ args st = (Ret d, st1) ->
  is_dir (world st) (d_uenv_sp d) = inr true
  /\ exists q, resolve (world st) q = inr (d_uenv_sp d).
Proof.
  intros H. unfold main_gates in H.
  apply bind_ret_inv in H as (d' & s & H & Hrest).
  assert (d' = d) as ->.
  { apply bind_ret_inv in Hrest as (? & ? & _ & Hrest). injection Hrest as ->.
    reflexivity. }
  clear Hrest. unfold main_discover in H.
  apply bind_ret_inv_quiet in H as ([[mount name] view] & s1 & Hw1 & H);
    [|apply parse_uenv_quiet].
  do 9 (apply bind_ret_inv_quiet in H as (? & ? & ?Hw & H);
        [|repeat first [apply py_in_uenv_quiet | respects_step quiet_side]]).
  apply bind_ret_inv in H as (uenv_sp & s2 & Hdisc & H).
  apply discover_returns_resolved in Hdisc as [Hwd [q Hq]].
  unfold mbind, M_bind, ask_exn, when, mret, M_ret in H. cbn [world] in H.
  assert (world s2 = world st) as Hws by congruence.
  rewrite Hws in H.
  destruct (is_dir (world st) uenv_sp) as [e|[]] eqn:Hdir; simpl in H;
    [discriminate| |discriminate].
  injection H as <- _. cbn [d_uenv_sp]. split; [exact Hdir|].
  exists q. rewrite <- Hq. f_equal. congruence.
Qed.

(** *** Every [sys.exit] of discovery carries status 2 *)
















(** What line 210 does when [PYTHONPATH] is absent or empty. *)
Lemma ensure_no_pythonpath_unset environ st :
  PyStr.truthy (default "" (environ !! "PYTHONPATH")) = false ->
  ensure_no_pythonpath environ st = (Ret tt, st).
Proof.
  unfold ensure_no_pythonpath. destruct (environ !! "PYTHONPATH") as [v|]; simpl.
  - intros ->. reflexivity.
  - reflexivity.
Qed.




(** C7: when the composite descriptor is absent or malformed, so that the
    base environment can only come from the list descriptor, every run ends
    with status 2 on the first gate, with nothing but the diagnostic
    printed: the empty name when the list descriptor gave a mount, the
    undetected environment when it did not. *)
Theorem list_descriptor_never_succeeds environ args st :
  length (PyStr.split ":" (default "" (environ !! "UENV_VIEW"))) <> 3%nat ->
  main environ args st
  = (SysExit 2,
     logged st [EvPrint Stderr
                  (if PyStr.contains ":" (default "" (environ !! "UENV_MOUNT_LIST"))
                   then "ERROR: Could not detect uenv name."
                   else "ERROR: Could not detect uenv.")]).
Proof.
  intros Hview. unfold main, main_gates. rewrite bind_assoc_run. unfold main_discover.
  rewrite (bind_exit_run _ _ st 2
             (logged st [EvPrint Stderr
                (if PyStr.contains ":" (default "" (environ !! "UENV_MOUNT_LIST"))
                 then "ERROR: Could not detect uenv name."
                 else "ERROR: Could not detect uenv.")])); [reflexivity|].
  destruct (parse_uenv_mount_list_cases environ st) as [[Hc [mount H]]|[Hc H]];
    rewrite Hc.
  - erewrite bind_ret_run by (rewrite (composite_fallthrough _ _ Hview); exact H).
    reflexivity.
  - apply bind_exit_run. rewrite (composite_fallthrough _ _ Hview). exact H.
Qed.

Lemma upgrade_bootstrap_grows (venv_python : path) environ :
  respects (@grows W) (upgrade_bootstrap venv_python environ).
Proof.
  unfold upgrade_bootstrap, subprocess_check_call. repeat respects_step grows_side.
Qed.

Lemma make_target_grows args : respects (@grows W) (make_target args).
Proof. unfold make_target. repeat respects_step grows_side. Qed.

Lemma main_build_grows environ args (d : discovery) :
  respects (@grows W) (main_build environ args d).
Proof.
  unfold main_build, main_create, create_with_uv, create_with_stdlib, main_link,
    venv_site_packages, main_report, subprocess_check_call, subprocess_check_output.
  repeat first [ apply upgrade_bootstrap_grows | respects_step grows_side ].
Qed.

Lemma main_report_grows args (d : discovery) (used : string) (vsp pth : path) :
  respects (@grows W) (main_report args d used vsp pth).
Proof. unfold main_report. repeat respects_step grows_side. Qed.

(** Without [--force], lines 213-214 do nothing. *)
Lemma remove_existing_unforced args st :
  force args = false -> remove_existing args st = (Ret tt, st).
Proof. intros H. unfold remove_existing. rewrite H. reflexivity. Qed.

(** With [--force] and an existing target, [shutil.rmtree] is called on
    it. *)
Lemma remove_existing_forced args st :
  force args = true -> path_exists (world st) (venv args) = inr true ->
  remove_existing args st
  = (match fst (rmtree (venv args) (world st)) with
     | None => Ret tt
     | Some e => Raise e
     end,
     State (snd (rmtree (venv args) (world st)))
       (trace st ++ [EvRmtree (path_str (venv args))])).
Proof.
  intros Hf He. unfold remove_existing. rewrite Hf. run. rewrite He. run.
  destruct (rmtree (venv args) (world st)) as [[e|] w']; reflexivity.
Qed.




End MainFacts.

(** ** The venv creator and the linker *)

Section CreatorFacts.

Context {path W : Type} {PL : PathLib path} {os : OS path W}.

Implicit Types (environ : gmap string string) (st : @state W) (args : @Args path).

(** [upgrade_bootstrap] runs [ensurepip], whose failure is swallowed, and
    then the upgrade command, whose failure propagates. *)
Lemma upgrade_bootstrap_run (venv_python : path) environ st :
  let w1 := snd (check_call (ensurepip_cmd venv_python) environ (world st)) in
  let cmd := upgrade_cmd (which (world st) "uv") venv_python in
  upgrade_bootstrap venv_python environ st
  = (match fst (check_call cmd environ w1) with
     | None => Ret tt
     | Some e => Raise e
     end,
     State (snd (check_call cmd environ w1))
       (trace st ++ [EvCheckCall (ensurepip_cmd venv_python); EvCheckCall cmd])).
Proof.
  unfold upgrade_bootstrap, upgrade_cmd, ensurepip_cmd. run.
  destruct (check_call _ environ (world st)) as [[e|] w1]; cbn [fst snd];
    destruct (found_tool (which (world st) "uv")) as [u|]; run;
    destruct (check_call _ environ w1) as [[e'|] w2]; cbn [fst snd];
    rewrite <- app_assoc; reflexivity.
Qed.





(** What the linker does once the venv interpreter has printed its package
    directory. *)
Lemma main_link_run args (uenv_sp : path) st (out : string) :
  let cmd := purelib_cmd (_venv_python (venv args)) in
  let vsp := Path (PyStr.strip out) in
  let pth := joinpath vsp "uenv.pth" in
  let data := path_str uenv_sp +:+ PyStr.nl in
  check_output (world st) cmd = inr out ->
  main_link args uenv_sp st
  = (match fst (write_text pth data (world st)) with
     | None => Ret (vsp, pth)
     | Some e => Raise e
     end,
     State (snd (write_text pth data (world st)))
       (trace st ++ [EvCheckOutput cmd; EvWriteText (path_str pth) data])).
Proof.
  intros cmd vsp pth data Hout.
  unfold main_link, venv_site_packages, subprocess_check_output. run.
  fold (purelib_cmd (_venv_python (venv args))). fold cmd. rewrite Hout.
  fold vsp pth data. cbn [world trace].
  destruct (write_text pth data (world st)) as [[e|] w']; cbn [fst snd];
    rewrite <- app_assoc; reflexivity.
Qed.

(** A run of the linker that returns has issued exactly the probe of the
    venv interpreter and the write. *)
Lemma main_link_ret args (uenv_sp vsp pth : path) st st' :
  main_link args uenv_sp st = (Ret (vsp, pth), st') ->
  pth = joinpath vsp "uenv.pth"
  /\ trace st'
     = trace st ++ [EvCheckOutput (purelib_cmd (_venv_python (venv args)));
                    EvWriteText (path_str pth) (path_str uenv_sp +:+ PyStr.nl)].
Proof.
  destruct (check_output (world st) (purelib_cmd (_venv_python (venv args))))
    as [e|out] eqn:Hout.
  - unfold main_link, venv_site_packages, subprocess_check_output. run.
    fold (purelib_cmd (_venv_python (venv args))). rewrite Hout. discriminate.
  - rewrite (main_link_run args uenv_sp st out Hout).
    destruct (fst (write_text _ _ (world st))); [discriminate|].
    intros [= <- <- <-]. split; reflexivity.
Qed.

(** C9: the linker writes, into [uenv.pth] in the package directory the
    venv interpreter reports, exactly the path string of the view package
    directory followed by a newline; two runs with the same view package
    directory (and the same reported package directory) write the same file
    with the same content, whatever state they start from; and in a run of
    [main] that succeeds, the directory so written is the one the gates
    handed on: an existing directory and the resolution of a path. *)
Theorem pth_file_content args :
  let cmd := purelib_cmd (_venv_python (venv args)) in
  (forall (uenv_sp : path) st (out : string),
      check_output (world st) cmd = inr out ->
      let pth := joinpath (Path (PyStr.strip out)) "uenv.pth" in
      let data := path_str uenv_sp +:+ PyStr.nl in
      exists (o : outcome (path * path)) (w' : W),
        main_link args uenv_sp st
        = (o, State w' (trace st ++ [EvCheckOutput cmd; EvWriteText (path_str pth) data]))
        /\ write_text pth data (world st)
           = (match o with Raise e => Some e | _ => None end, w'))
  /\ (forall (uenv_sp : path) st1 st2 (out : string) (o1 o2 : outcome (path * path))
             (st1' st2' : @state W),
        check_output (world st1) cmd = inr out ->
        check_output (world st2) cmd = inr out ->
        main_link args uenv_sp st1 = (o1, st1') ->
        main_link args uenv_sp st2 = (o2, st2') ->
        exists file : string,
          trace st1'
          = trace st1 ++ [EvCheckOutput cmd; EvWriteText file (path_str uenv_sp +:+ PyStr.nl)]
          /\ trace st2'
             = trace st2 ++ [EvCheckOutput cmd;
                             EvWriteText file (path_str uenv_sp +:+ PyStr.nl)])
  /\ (forall environ st (code : Z) (st' : @state W),
        main environ args st = (Ret code, st') ->
        exists (uenv_sp vsp : path),
          is_dir (world st) uenv_sp = inr true
          /\ (exists q, resolve (world st) q = inr uenv_sp)
          /\ In (EvWriteText (path_str (joinpath vsp "uenv.pth"))
                   (path_str uenv_sp +:+ PyStr.nl)) (trace st')).
Proof.
  intros cmd. split; [|split].
  - intros uenv_sp st out Hout pth data.
    rewrite (main_link_run args uenv_sp st out Hout).
    fold cmd data pth.
    destruct (write_text pth data (world st)) as [[e|] w']; cbn [fst snd];
      eexists; exists w'; split; reflexivity.
  - intros uenv_sp st1 st2 out o1 o2 st1' st2' H1 H2 E1 E2.
    rewrite (main_link_run args uenv_sp st1 out H1) in E1.
    rewrite (main_link_run args uenv_sp st2 out H2) in E2.
    injection E1 as _ <-. injection E2 as _ <-.
    eexists. split; reflexivity.
  - intros environ st code st' H. unfold main in H.
    apply bind_ret_inv in H as (d & st1 & Hgates & H).
    apply bind_ret_inv in H as ([] & st2 & _ & H).
    unfold main_build in H.
    apply bind_ret_inv in H as (used & st3 & _ & H).
    apply bind_ret_inv in H as ([vsp pth] & st4 & Hlink & H).
    apply main_link_ret in Hlink as [-> Htrace].
    apply main_report_grows in H as [evs Hevs].
    destruct (main_gates_ret _ _ _ _ _ Hgates) as [Hdir Hres].
    exists (d_uenv_sp d), vsp. split; [exact Hdir|]. split; [exact Hres|].
    rewrite Hevs, Htrace. apply in_or_app. left. apply in_or_app. right.
    right. left. reflexivity.
Qed.



End CreatorFacts.

(** ** Further facts about the string built-ins *)

Module PyStrMore.
Import PyStr.

Lemma split_on_single (p : ascii -> bool) (s : string) :
  length (split_on p s) = 1%nat -> split_on p s = [s].
Proof.
  induction s as [|a s IH]; [reflexivity|].
  simpl. pose proof (PyStrFacts.split_on_not_nil p s) as Hne.
  destruct (p a).
  - simpl. destruct (split_on p s); [congruence | discriminate].
  - rewrite PyStrFacts.length_push_head by exact Hne.
    intros H. rewrite (IH H). reflexivity.
Qed.

(** A limit that the separators do not reach changes nothing. *)
Lemma split_max_all (sep : ascii) (s : string) (k : nat) :
  (length (split sep s) <= S k)%nat -> split_max sep s k = split sep s.
Proof.
  unfold split. revert k. induction s as [|a s IH]; intros k H; [reflexivity|].
  pose proof (PyStrFacts.split_on_not_nil (Ascii.eqb sep) s) as Hne.
  assert (0 < length (split_on (Ascii.eqb sep) s))%nat as Hpos
    by (destruct (split_on (Ascii.eqb sep) s); simpl; [congruence | lia]).
  destruct k as [|k].
  - pose proof (PyStrFacts.split_on_not_nil (Ascii.eqb sep) (String a s)) as Hne'.
    rewrite split_on_single; [reflexivity|].
    destruct (split_on (Ascii.eqb sep) (String a s)); simpl in *; [congruence | lia].
  - simpl in *. destruct (Ascii.eqb sep a).
    + simpl in H. rewrite IH by lia. reflexivity.
    + rewrite PyStrFacts.length_push_head in H by exact Hne.
      rewrite IH by exact H. reflexivity.
Qed.

(** [rsplit] with one cut: the whole string when it has no separator,
    else what is before the last separator and what is after it. *)
Lemma rsplit1_shape (sep : ascii) (s : string) :
  (contains sep s = false /\ rsplit1 sep s = [s])
  \/ exists x d, rsplit1 sep s = [x; d] /\ s = x +:+ String sep d
                 /\ contains sep d = false.
Proof.
  induction s as [|a s IH]; [left; split; reflexivity|].
  simpl. destruct IH as [[Hc ->]|(x & d & -> & -> & Hd)].
  - destruct (Ascii.eqb sep a) eqn:E.
    + right. apply Ascii.eqb_eq in E. subst a. exists "", s. auto.
    + left. rewrite Ascii.eqb_sym, E. auto.
  - right. exists (String a x), d. auto.
Qed.

(** The last field of [rsplit] is the end of the string and holds no
    separator. *)
Lemma rsplit1_last (sep : ascii) (s : string) :
  contains sep (last_field (rsplit1 sep s)) = false
  /\ exists front, s = front +:+ last_field (rsplit1 sep s).
Proof.
  destruct (rsplit1_shape sep s) as [[Hc ->]|(x & d & -> & -> & Hd)]; simpl.
  - split; [exact Hc|]. exists "". reflexivity.
  - split; [exact Hd|]. exists (x +:+ String sep ""). rewrite PyStrFacts.app_assoc.
    reflexivity.
Qed.

(** No field of a split holds a separator. *)
Lemma split_on_fields (p : ascii -> bool) (s : string) :
  Forall (fun f => has p f = false) (split_on p s).
Proof.
  induction s as [|a s IH]; simpl; [repeat constructor|].
  destruct (p a) eqn:E; [constructor; [reflexivity | exact IH]|].
  destruct IH as [|f fs Hf Hfs]; simpl.
  - repeat constructor. simpl. rewrite E. reflexivity.
  - constructor; [simpl; rewrite E, Hf; reflexivity | exact Hfs].
Qed.

Lemma startswith_self_more (s : string) (c : ascii) (t : string) :
  startswith s (s +:+ String c t) = false.
Proof.
  induction s as [|a s IH]; [reflexivity|].
  rewrite PyStrFacts.app_cons. simpl. rewrite Ascii.eqb_refl. exact IH.
Qed.

(** White space in front is skipped. *)
Lemma lstrip_skip (pre z : string) : lstrip pre = "" -> lstrip (pre +:+ z) = lstrip z.
Proof.
  remember (String.length pre) as n eqn:Hn. revert pre Hn.
  induction n as [n IH] using lt_wf_ind. intros pre -> H.
  destruct pre as [|a pre]; [reflexivity|].
  rewrite PyStrFacts.app_cons, (PyStrFacts.lstrip_cons a (pre +:+ z)).
  rewrite PyStrFacts.lstrip_cons in H. destruct (isspace a).
  { apply (IH _ (Nat.lt_succ_diag_r _) pre eq_refl H). }
  destruct pre as [|b pre]; [discriminate|].
  rewrite PyStrFacts.app_cons. cbv iota. destruct (isspace2 a b).
  { apply (IH (String.length pre)); [simpl; lia | reflexivity | exact H]. }
  destruct pre as [|d pre]; [discriminate|].
  rewrite PyStrFacts.app_cons. cbv iota. destruct (isspace3 a b d); [|discriminate].
  apply (IH (String.length pre)); [simpl; lia | reflexivity | exact H].
Qed.

Lemma has_orb (p q : ascii -> bool) (s : string) :
  has (fun a => p a || q a) s = has p s || has q s.
Proof.
  induction s as [|a s IH]; [reflexivity|].
  simpl. rewrite IH. destruct (p a), (q a), (has p s); reflexivity.
Qed.

(** The first field of a split is the beginning of the string. *)
Lemma split_on_head (p : ascii -> bool) (s f : string) (fs : list string) :
  split_on p s = f :: fs -> exists rest, s = f +:+ rest.
Proof.
  revert f fs. induction s as [|a s IH]; intros f fs; simpl.
  - intros [= <- _]. exists "". reflexivity.
  - destruct (p a).
    + intros [= <- _]. eexists. reflexivity.
    + destruct (split_on p s) as [|g gs] eqn:E; simpl.
      * intros [= <- _]. exists s. reflexivity.
      * intros [= <- _]. destruct (IH g gs eq_refl) as [rest ->].
        exists rest. reflexivity.
Qed.

(** Every field of a split is a piece of the string. *)
Lemma split_on_piece (p : ascii -> bool) (s f : string) :
  In f (split_on p s) -> exists pre post, s = pre +:+ f +:+ post.
Proof.
  revert f. induction s as [|a s IH]; intros f; simpl.
  - intros [<-|[]]. exists "", "". reflexivity.
  - destruct (p a).
    + intros [<-|Hin].
      * exists "". eexists. reflexivity.
      * destruct (IH f Hin) as (pre & post & ->). exists (String a pre), post. reflexivity.
    + destruct (split_on p s) as [|g gs] eqn:E; simpl.
      * intros [<-|[]]. exists "", s. reflexivity.
      * intros [<-|Hin].
        -- destruct (split_on_head p s g gs E) as [rest ->].
           exists "", rest. reflexivity.
        -- destruct (IH f (or_intror Hin)) as (pre & post & ->).
           exists (String a pre), post. reflexivity.
Qed.

End PyStrMore.

(** ** Further facts about the parser and the provenance check *)

Section ParserMore.

Context {path W : Type} {PL : PathLib path} {os : OS path W}.

Implicit Types (environ : gmap string string) (st : @state W).

(** X1: a composite descriptor that splits at colons into exactly three
    fields is taken as it is, empty fields included, and the list descriptor
    is not looked at. *)
Theorem parse_uenv_three_fields environ st (a b c : string) :
  PyStr.split ":" (default "" (environ !! "UENV_VIEW")) = [a; b; c] ->
  parse_uenv environ st = (Ret (Path a, b, c), st).
Proof.
  intros H. unfold parse_uenv.
  set (uv := default "" (environ !! "UENV_VIEW")) in *.
  assert (PyStr.truthy uv = true) as -> by (destruct uv; [discriminate|reflexivity]).
  rewrite PyStrMore.split_max_all by (rewrite H; simpl; lia).
  rewrite H. reflexivity.
Qed.

Lemma scan_tokens_some (tokens : list string) (m : string) :
  scan_tokens tokens = Some m ->
  exists token,
    In token tokens /\ PyStr.contains ":" token = true
    /\ m = PyStr.last_field (PyStr.rsplit1 ":" token).
Proof.
  induction tokens as [|t ts IH]; [discriminate|].
  simpl. destruct (PyStr.truthy t && PyStr.contains ":" t) eqn:E.
  - intros [= <-]. apply andb_true_iff in E as [_ E]. exists t. auto.
  - intros H. destruct (IH H) as (token & Hin & Hc & Hm). exists token. auto.
Qed.

(** X2: whatever the list descriptor holds, the parse of lines 50-57 either
    leaves the state alone and returns a mount with empty name and view, the
    mount being text of the descriptor free of space, comma and colon, or
    ends with status 2 on the one diagnostic. *)
Theorem parse_uenv_mount_list_result environ st
    (o : outcome (path * string * string)) (st' : @state W) :
  parse_uenv_mount_list environ st = (o, st') ->
  (exists m : string,
      o = Ret (Path m, "", "") /\ st' = st
      /\ PyStr.has token_breaker m = false
      /\ exists front back,
          PyStr.strip (default "" (environ !! "UENV_MOUNT_LIST"))
          = front +:+ ":" +:+ m +:+ back)
  \/ (o = SysExit 2
      /\ st' = logged st [EvPrint Stderr "ERROR: Could not detect uenv."]
      /\ PyStr.contains ":" (default "" (environ !! "UENV_MOUNT_LIST")) = false).
Proof.
  destruct (parse_uenv_mount_list_cases environ st) as [[Hc [m0 H0]]|[Hc H0]].
  - intros H. left. unfold parse_uenv_mount_list in *.
    set (uml := default "" (environ !! "UENV_MOUNT_LIST")) in *.
    destruct (PyStr.truthy uml); [|discriminate].
    destruct (scan_tokens _) as [m|] eqn:E; [|discriminate].
    injection H as <- <-. exists m. split; [reflexivity|]. split; [reflexivity|].
    apply scan_tokens_some in E as (token & Hin & Hcolon & ->).
    apply in_rev in Hin.
    pose proof (PyStrMore.split_on_fields is_list_sep (PyStr.strip uml)) as Hall.
    rewrite Forall_forall in Hall.
    assert (PyStr.has is_list_sep token = false) as Htok.
    { apply Hall. apply list_elem_of_In. exact Hin. }
    destruct (PyStrMore.split_on_piece _ _ _ Hin) as (pre & post & Hpiece).
    destruct (PyStrMore.rsplit1_shape ":" token) as [[Hno _]|(x & d & Hr & -> & Hd)];
      [congruence|].
    rewrite Hr. unfold PyStr.last_field. cbn [List.last]. split.
    + unfold token_breaker. rewrite PyStrMore.has_orb.
      rewrite PyStrFacts.has_app in Htok. apply orb_false_iff in Htok as [_ Htok].
      simpl in Htok. rewrite Htok. rewrite <- PyStrFacts.contains_has. exact Hd.
    + exists (pre +:+ x), post. rewrite Hpiece.
      rewrite !PyStrFacts.app_assoc. reflexivity.
  - intros H. right. rewrite H0 in H. injection H as <- <-. auto.
Qed.

End ParserMore.

(** ** Further facts about the checks and the creator *)

Section CreatorMore.

Context {path W : Type} {PL : PathLib path} {os : OS path W}.

Implicit Types (environ : gmap string string) (st : @state W) (args : @Args path).

(** The value of the provenance check. *)
Lemma py_in_uenv_value (py mount : path) st :
  py_in_uenv py mount st
  = (Ret (match resolve (world st) py, resolve (world st) mount with
          | inr p, inr m => PyStr.startswith (as_posix p) (as_posix m +:+ "/")
          | _, _ => false
          end), st).
Proof.
  unfold py_in_uenv. run.
  destruct (resolve (world st) py); [reflexivity|].
  destruct (resolve (world st) mount); reflexivity.
Qed.

(** X3: being inside is a strict order on paths: no path is inside itself,
    and what is inside a directory that is inside a mount is inside the
    mount. *)
Theorem py_in_uenv_strict_order (a b c : path) st :
  py_in_uenv a a st = (Ret false, st)
  /\ (py_in_uenv a b st = (Ret true, st) ->
      py_in_uenv b c st = (Ret true, st) ->
      py_in_uenv a c st = (Ret true, st)).
Proof.
  rewrite !py_in_uenv_value. split.
  - destruct (resolve (world st) a) as [e|p]; [reflexivity|].
    change (as_posix p +:+ "/") with (as_posix p +:+ String "/" "").
    rewrite PyStrMore.startswith_self_more. reflexivity.
  - destruct (resolve (world st) a) as [e|pa]; [discriminate|].
    destruct (resolve (world st) b) as [e|pb]; [discriminate|].
    destruct (resolve (world st) c) as [e|pc]; [discriminate|].
    intros [= Hab] [= Hbc]. f_equal. f_equal.
    apply PyStrFacts.startswith_spec in Hab as [r1 Hab].
    apply PyStrFacts.startswith_spec in Hbc as [r2 Hbc].
    apply PyStrFacts.startswith_spec. exists (r2 +:+ "/" +:+ r1).
    rewrite Hab, Hbc, !PyStrFacts.app_assoc. reflexivity.
Qed.

(** X4: the package directory of the venv is what its interpreter printed
    without the white space around it, the final newline and the white
    space beyond ASCII included, for a directory whose path begins with an
    ASCII character. *)
Theorem venv_site_packages_strips (venv_python : path) st
    (pre post : string) (c : ascii) (body : string) :
  PyStr.lstrip pre = "" ->
  PyStr.rstrip post = "" ->
  PyStr.plain c = true ->
  PyStr.rstrip (String c body) = String c body ->
  check_output (world st) (purelib_cmd venv_python)
  = inr (pre +:+ String c body +:+ post) ->
  venv_site_packages venv_python st
  = (Ret (Path (String c body)), logged st [EvCheckOutput (purelib_cmd venv_python)]).
Proof.
  intros Hpre Hpost Hc Hcore Hout.
  unfold venv_site_packages, subprocess_check_output. run.
  fold (purelib_cmd venv_python). rewrite Hout.
  unfold PyStr.strip.
  rewrite (PyStrMore.lstrip_skip pre _ Hpre).
  change (String c body +:+ post) with (String c (body +:+ post)).
  rewrite (PyStrFacts.lstrip_plain_head c _ Hc).
  change (String c (body +:+ post)) with (String c body +:+ post).
  rewrite (PyStrFacts.rstrip_skip _ post Hpost), Hcore. reflexivity.
Qed.

(** X5: [upgrade_bootstrap] runs two commands, [ensurepip] and then the
    upgrade with the installer found before [ensurepip] ran; it raises
    exactly when the upgrade fails, whatever [ensurepip] did, and it never
    exits. *)
Theorem upgrade_bootstrap_best_effort (venv_python : path) environ st
    (o : outcome unit) (st' : @state W) :
  upgrade_bootstrap venv_python environ st = (o, st') ->
  let w1 := snd (check_call (ensurepip_cmd venv_python) environ (world st)) in
  let cmd := upgrade_cmd (which (world st) "uv") venv_python in
  trace st' = trace st ++ [EvCheckCall (ensurepip_cmd venv_python); EvCheckCall cmd]
  /\ world st' = snd (check_call cmd environ w1)
  /\ (forall e, o = Raise e <-> fst (check_call cmd environ w1) = Some e)
  /\ (o = Ret tt <-> fst (check_call cmd environ w1) = None)
  /\ forall code, o <> SysExit code.
Proof.
  intros H w1 cmd. rewrite upgrade_bootstrap_run in H. fold w1 cmd in H.
  injection H as <- <-. cbn [world trace].
  split; [reflexivity|]. split; [reflexivity|].
  destruct (fst (check_call cmd environ w1)) as [e|].
  - split; [|split].
    + intros e'. split; intros [= ->]; reflexivity.
    + split; discriminate.
    + discriminate.
  - split; [|split].
    + intros e'. split; discriminate.
    + split; reflexivity.
    + discriminate.
Qed.

(** The fast method when [uv] is not on [PATH]. *)
Lemma create_with_uv_absent (target py : path) (copies : bool) environ st :
  found_tool (which (world st) "uv") = None ->
  create_with_uv target py copies environ st = (Raise FileNotFoundError, st).
Proof. intros H. unfold create_with_uv. run. rewrite H. reflexivity. Qed.

(** What a creation method has issued when it ends: nothing (only the
    fast method, with [uv] absent), its creation command alone, which
    then has failed, or its creation command and the two commands of the
    bootstrap. *)
Lemma create_with_uv_trace (target py : path) (copies : bool) environ st
    (o : outcome unit) (st' : @state W) :
  create_with_uv target py copies environ st = (o, st') ->
  (o = Raise FileNotFoundError /\ st' = st)
  \/ (exists u, (exists e, o = Raise e)
                /\ trace st' = trace st ++ [EvCheckCall (uv_venv_cmd u target py copies)])
  \/ (exists u tool, (forall code, o <> SysExit code)
                     /\ trace st'
                        = trace st ++ [EvCheckCall (uv_venv_cmd u target py copies);
                                       EvCheckCall (ensurepip_cmd (_venv_python target));
                                       EvCheckCall (upgrade_cmd tool (_venv_python target))]).
Proof.
  unfold create_with_uv. run.
  destruct (found_tool (which (world st) "uv")) as [u|].
  - fold (uv_venv_cmd u target py copies). run.
    destruct (check_call (uv_venv_cmd u target py copies) environ (world st))
      as [[e|] w1].
    + intros [= <- <-]. right. left. exists u. split; [eauto | reflexivity].
    + rewrite upgrade_bootstrap_run. cbn [world trace]. intros [= <- <-].
      right. right. exists u. eexists. split.
      * intros code. destruct (fst _); discriminate.
      * cbn [trace]. rewrite <- app_assoc. reflexivity.
  - intros [= <- <-]. left. auto.
Qed.

Lemma create_with_stdlib_trace (target py : path) (copies : bool) environ st
    (o : outcome unit) (st' : @state W) :
  create_with_stdlib target py copies environ st = (o, st') ->
  ((exists e, o = Raise e)
   /\ trace st' = trace st ++ [EvCheckCall (stdlib_venv_cmd target py copies)])
  \/ (exists tool, (forall code, o <> SysExit code)
                   /\ trace st'
                      = trace st ++ [EvCheckCall (stdlib_venv_cmd target py copies);
                                     EvCheckCall (ensurepip_cmd (_venv_python target));
                                     EvCheckCall (upgrade_cmd tool (_venv_python target))]).
Proof.
  unfold create_with_stdlib. run.
  fold (stdlib_venv_cmd target py copies).
  destruct (check_call (stdlib_venv_cmd target py copies) environ (world st))
    as [[e|] w1].
  - intros [= <- <-]. left. split; [eauto | reflexivity].
  - rewrite upgrade_bootstrap_run. cbn [world trace]. intros [= <- <-].
    right. eexists. split.
    + intros code. destruct (fst _); discriminate.
    + cbn [trace]. rewrite <- app_assoc. reflexivity.
Qed.

(** X6: creation runs at most six commands and nothing else, each at most
    once per method, and never exits.  It answers [uv] only after the three
    commands of the fast method, with the stdlib method not started; it
    answers [venv] after the three commands of the stdlib method, which
    follow whatever the fast method had issued; and when it raises, the
    stdlib method had been started. *)
Theorem main_create_outcomes args (py : path) environ st
    (o : outcome string) (st' : @state W) :
  main_create args py environ st = (o, st') ->
  let vpy := _venv_python (venv args) in
  let stdlib_cmd := stdlib_venv_cmd (venv args) py (copies args) in
  exists evs,
    trace st' = trace st ++ evs
    /\ forallb is_check_call evs = true
    /\ (length evs <= 6)%nat
    /\ match o with
       | Ret used =>
           (used = "uv"
            /\ exists u tool,
                evs = [EvCheckCall (uv_venv_cmd u (venv args) py (copies args));
                       EvCheckCall (ensurepip_cmd vpy);
                       EvCheckCall (upgrade_cmd tool vpy)])
           \/ (used = "venv"
               /\ exists fast tool,
                   evs = fast ++ [EvCheckCall stdlib_cmd;
                                  EvCheckCall (ensurepip_cmd vpy);
                                  EvCheckCall (upgrade_cmd tool vpy)])
       | Raise e => exists fast slow, evs = fast ++ EvCheckCall stdlib_cmd :: slow
       | SysExit _ => False
       end.
Proof.
  intros H vpy stdlib_cmd. unfold main_create, try_except in H.
  unfold mbind at 1 in H. unfold M_bind at 1 in H.
  destruct (create_with_uv (venv args) py (copies args) environ st)
    as [o1 st1] eqn:Efast.
  apply create_with_uv_trace in Efast as Hfast.
  assert (exists fast,
             trace st1 = trace st ++ fast /\ forallb is_check_call fast = true
             /\ (length fast <= 3)%nat
             /\ (o1 = Ret tt ->
                 exists u tool,
                   fast = [EvCheckCall (uv_venv_cmd u (venv args) py (copies args));
                           EvCheckCall (ensurepip_cmd vpy);
                           EvCheckCall (upgrade_cmd tool vpy)])
             /\ forall code, o1 <> SysExit code) as (fast & Hf & Hfc & Hfl & Hfr & Hfe).
  { destruct Hfast as [[-> ->]|[(u & [e ->] & Ht)|(u & tool & Hne & Ht)]].
    - exists []. rewrite app_nil_r.
      split; [reflexivity|]. split; [reflexivity|]. split; [simpl; lia|].
      split; discriminate.
    - eexists. split; [exact Ht|].
      split; [reflexivity|]. split; [simpl; lia|]. split; discriminate.
    - eexists. split; [exact Ht|].
      split; [reflexivity|]. split; [simpl; lia|]. split; [|exact Hne].
      intros _. exists u, tool. reflexivity. }
  destruct o1 as [[]|e1|code1]; [| |exfalso; exact (Hfe code1 eq_refl)].
  - unfold mret, M_ret in H. injection H as <- <-.
    destruct (Hfr eq_refl) as (u & tool & ->).
    eexists. split; [exact Hf|]. split; [reflexivity|]. split; [simpl; lia|].
    left. split; [reflexivity|]. exists u, tool. reflexivity.
  - unfold mbind, M_bind in H.
    destruct (create_with_stdlib (venv args) py (copies args) environ st1)
      as [o2 st2] eqn:Eslow.
    apply create_with_stdlib_trace in Eslow as [[[e2 ->] Ht]|(tool & Hne & Ht)].
    + injection H as <- <-. exists (fast ++ [EvCheckCall stdlib_cmd]).
      split; [rewrite Ht, Hf, <- app_assoc; reflexivity|].
      split; [rewrite forallb_app, Hfc; reflexivity|].
      split; [rewrite length_app; simpl; lia|].
      exists fast, []. reflexivity.
    + exists (fast ++ [EvCheckCall stdlib_cmd; EvCheckCall (ensurepip_cmd vpy);
                       EvCheckCall (upgrade_cmd tool vpy)]).
      assert (st' = st2) as -> by (destruct o2 as [[]|e2|c2]; injection H as _ <-; reflexivity).
      split; [rewrite Ht, Hf, <- app_assoc; reflexivity|].
      split; [rewrite forallb_app, Hfc; reflexivity|].
      split; [rewrite length_app; simpl; lia|].
      destruct o2 as [[]|e2|c2].
      * unfold mret, M_ret in H. injection H as <-.
        right. split; [reflexivity|]. exists fast, tool. reflexivity.
      * injection H as <-. exists fast. eexists. reflexivity.
      * exfalso. exact (Hne c2 eq_refl).
Qed.

End CreatorMore.

(** ** Ways of ending, closed under the control structure *)

Section Obeys.

Context {path W : Type} {PL : PathLib path} {os : OS path W}.

Variable S : @state W -> ending -> @state W -> Prop.
Hypothesis S_returned : forall st, S st Returned st.
Hypothesis S_raised : forall st, S st Raised st.
Hypothesis S_seq : forall st st1 e st2, S st Returned st1 -> S st1 e st2 -> S st e st2.
Hypothesis S_catch : forall st st1 e st2, S st Raised st1 -> S st1 e st2 -> S st e st2.

Lemma obeys_ret {A : Type} (a : A) : obeys S (mret a).
Proof. intros st o st' [= <- <-]. apply S_returned. Qed.

Lemma obeys_raise {A : Type} (e : exn) : obeys S (raise e : M A).
Proof. intros st o st' [= <- <-]. apply S_raised. Qed.

Lemma obeys_ask {A : Type} (q : W -> A) : obeys S (ask q).
Proof. intros st o st' [= <- <-]. apply S_returned. Qed.

Lemma obeys_ask_exn {A : Type} (q : W -> exn + A) : obeys S (ask_exn q).
Proof.
  intros st o st'. unfold ask_exn.
  destruct (q (world st)); intros [= <- <-]; [apply S_raised | apply S_returned].
Qed.

Lemma obeys_bind {A B : Type} (m : M A) (f : A -> M B) :
  obeys S m -> (forall a, obeys S (f a)) -> obeys S (m ≫= f).
Proof.
  intros Hm Hf st o st'. unfold mbind, M_bind.
  destruct (m st) as [[a|e|code] st1] eqn:E; intros H.
  - eapply S_seq; [exact (Hm _ _ _ E) | exact (Hf _ _ _ _ H)].
  - injection H as <- <-. exact (Hm _ _ _ E).
  - injection H as <- <-. exact (Hm _ _ _ E).
Qed.

Lemma obeys_try_except {A : Type} (body handler : M A) :
  obeys S body -> obeys S handler -> obeys S (try_except body handler).
Proof.
  intros Hb Hh st o st'. unfold try_except.
  destruct (body st) as [[a|e|code] st1] eqn:E; intros H.
  - injection H as <- <-. exact (Hb _ _ _ E).
  - eapply S_catch; [exact (Hb _ _ _ E) | exact (Hh _ _ _ H)].
  - injection H as <- <-. exact (Hb _ _ _ E).
Qed.

Lemma obeys_when (cond : bool) (body : M unit) :
  obeys S body -> obeys S (when cond body).
Proof. intros H. destruct cond; [exact H | apply obeys_ret]. Qed.

Lemma obeys_emit (ev : event) :
  (forall st, S st Returned (logged st [ev])) -> obeys S (emit ev).
Proof. intros H st o st' [= <- <-]. apply H. Qed.

Lemma obeys_err {A : Type} (msg : string) (code : Z) :
  (forall st, S st (Exited code) (logged st [EvPrint Stderr msg])) ->
  obeys S (_err msg code : M A).
Proof. intros H st o st' [= <- <-]. apply H. Qed.

Lemma obeys_act (ev : event) (a : W -> option exn * W) :
  (forall st e, e = Returned \/ e = Raised ->
                S st e (State (snd (a (world st))) (trace st ++ [ev]))) ->
  obeys S (act ev a).
Proof.
  intros H st o st'. unfold act. specialize (H st).
  destruct (a (world st)) as [[e|] w']; intros [= <- <-]; apply H; auto.
Qed.

End Obeys.

(** ** Further facts about runs of [main] *)

Section RunsMore.

Context {path W : Type} {PL : PathLib path} {os : OS path W}.

Implicit Types (environ : gmap string string) (st : @state W) (args : @Args path).

Lemma disciplined_quiet st (e : ending) :
  (forall code, e <> Exited code) -> disciplined st e st.
Proof.
  intros H. exists []. rewrite app_nil_r. split; [reflexivity|].
  destruct e; [reflexivity | reflexivity | exfalso; exact (H code eq_refl)].
Qed.

Lemma disciplined_then st st1 st2 (e0 e : ending) :
  (forall code, e0 <> Exited code) ->
  disciplined st e0 st1 -> disciplined st1 e st2 -> disciplined st e st2.
Proof.
  intros Hne (evs1 & H1 & Hq1) (evs2 & H2 & Hq2).
  assert (forallb (fun ev => negb (is_stderr ev)) evs1 = true) as Hclean
    by (destruct e0; [exact Hq1 | exact Hq1 | exfalso; exact (Hne code eq_refl)]).
  exists (evs1 ++ evs2). split; [rewrite H2, H1, <- app_assoc; reflexivity|].
  destruct e as [| |code].
  - rewrite forallb_app, Hclean, Hq2. reflexivity.
  - rewrite forallb_app, Hclean, Hq2. reflexivity.
  - destruct Hq2 as (-> & init & msg & -> & Hinit). split; [reflexivity|].
    exists (evs1 ++ init), msg. split; [rewrite <- app_assoc; reflexivity|].
    rewrite forallb_app, Hclean, Hinit. reflexivity.
Qed.

Lemma disciplined_event st (ev : event) (w' : W) (e : ending) :
  is_stderr ev = false -> e = Returned \/ e = Raised ->
  disciplined st e (State w' (trace st ++ [ev])).
Proof.
  intros Hev He. exists [ev]. split; [reflexivity|].
  destruct He as [-> | ->]; simpl; rewrite Hev; reflexivity.
Qed.

Lemma disciplined_err st (msg : string) :
  disciplined st (Exited 2) (logged st [EvPrint Stderr msg]).
Proof.
  exists [EvPrint Stderr msg]. split; [reflexivity|]. split; [reflexivity|].
  exists [], msg. split; reflexivity.
Qed.

(** One step of a proof that a computation keeps the discipline. *)
Ltac discipline_side :=
  first [ exact (fun st => disciplined_quiet st Returned ltac:(discriminate))
        | exact (fun st => disciplined_quiet st Raised ltac:(discriminate))
        | exact (fun st st1 e st2 =>
                   disciplined_then st st1 st2 Returned e ltac:(discriminate))
        | exact (fun st st1 e st2 =>
                   disciplined_then st st1 st2 Raised e ltac:(discriminate))
        | intros; apply disciplined_err
        | intros; apply disciplined_event; [reflexivity | auto]
        | intros; unfold logged; apply disciplined_event; [reflexivity | auto] ].

Ltac discipline_step :=
  lazymatch goal with
  | |- obeys _ (mret _) => apply obeys_ret; discipline_side
  | |- obeys _ (raise _) => apply obeys_raise; discipline_side
  | |- obeys _ (ask _) => apply obeys_ask; discipline_side
  | |- obeys _ (ask_exn _) => apply obeys_ask_exn; discipline_side
  | |- obeys _ (_ ≫= _) => apply obeys_bind; [discipline_side | | intros ?]
  | |- obeys _ (try_except _ _) => apply obeys_try_except; [discipline_side | | ]
  | |- obeys _ (when _ _) => apply obeys_when; [discipline_side | ]
  | |- obeys _ (_err _ 2) => apply obeys_err; discipline_side
  | |- obeys _ (print _ _) => apply obeys_emit; discipline_side
  | |- obeys _ (emit _) => apply obeys_emit; discipline_side
  | |- obeys _ (act _ _) => apply obeys_act; discipline_side
  | |- obeys _ (match ?x with _ => _ end) => destruct x
  end.

Lemma resolve_entries_disciplined (entries : list sys_path_entry) :
  obeys (@disciplined W) (resolve_entries entries).
Proof.
  induction entries as [|[s|] entries IH]; simpl; [| |exact IH];
    repeat first [exact IH | discipline_step].
Qed.

Lemma scan_sys_path_disciplined (want_prefix : path) (ps : list path) :
  obeys (@disciplined W) (scan_sys_path want_prefix ps).
Proof.
  induction ps as [|p ps IH]; simpl; repeat first [exact IH | discipline_step].
Qed.

Lemma ensure_no_pythonpath_disciplined environ :
  obeys (@disciplined W) (ensure_no_pythonpath environ).
Proof.
  unfold ensure_no_pythonpath. destruct (environ !! "PYTHONPATH") as [v|].
  - destruct (PyStr.truthy v).
    + apply (obeys_err (@disciplined W) (A:=unit)). intros st. apply disciplined_err.
    + discipline_step.
  - discipline_step.
Qed.

(** What the report prints and returns. *)
Lemma main_report_run args (d : discovery) (used : string) (vsp pth : path) st :
  main_report args d used vsp pth st
  = (Ret 0, logged st (report_lines args d used vsp pth)).
Proof.
  unfold main_report, report_lines, logged. run.
  repeat rewrite <- app_assoc. reflexivity.
Qed.

(** X7: from line 179 on, that is once the command line is parsed, every
    run of [main] keeps the discipline of the diagnostics: when it ends in
    [sys.exit] the status is 2 and the program has printed one message on
    the error stream, as the last thing it did; when it returns or raises,
    the program has printed nothing there; and a run that returns returns
    0. *)
Theorem main_run_discipline environ args st (o : outcome Z) (st' : @state W) :
  main environ args st = (o, st') ->
  disciplined st (ending_of o) st' /\ forall code, o = Ret code -> code = 0.
Proof.
  intros H. split.
  - revert st o st' H. change (obeys (@disciplined W) (main environ args)).
    unfold main, main_gates, main_discover, parse_uenv, parse_uenv_mount_list,
      py_in_uenv, discover_uenv_site_packages, main_prepare, remove_existing,
      make_target, main_build, main_create, create_with_uv, create_with_stdlib,
      upgrade_bootstrap, main_link, venv_site_packages, main_report,
      subprocess_check_call, subprocess_check_output.
    repeat first [ apply resolve_entries_disciplined | apply scan_sys_path_disciplined
                 | apply ensure_no_pythonpath_disciplined | discipline_step ].
  - intros code ->. unfold main in H.
    apply bind_ret_inv in H as (d & st1 & _ & H).
    apply bind_ret_inv in H as ([] & st2 & _ & H).
    unfold main_build in H.
    apply bind_ret_inv in H as (used & st3 & _ & H).
    apply bind_ret_inv in H as ([vsp pth] & st4 & _ & H).
    rewrite main_report_run in H. injection H as <- _. reflexivity.
Qed.

End RunsMore.

(** ** What a run may do to the disk, and what the resolver returns *)

Section DiskMore.

Context {path W : Type} {PL : PathLib path} {os : OS path W}.

Implicit Types (environ : gmap string string) (st : @state W) (args : @Args path).










(** What the loop returns is an accepted entry. *)
Lemma scan_sys_path_accepted (want_prefix pr : path) (ps : list path) st st' :
  scan_sys_path want_prefix ps st = (Ret (Some pr), st') ->
  exists p, In p ps /\ accepted (world st) want_prefix p = inr (Some pr).
Proof.
  induction ps as [|p ps IH]; [discriminate|].
  rewrite scan_sys_path_step.
  destruct (accepted (world st) want_prefix p) as [e|[pr'|]] eqn:E.
  - discriminate.
  - intros [= <- <-]. exists p. split; [left; reflexivity | exact E].
  - intros H. destruct (IH H) as (q & Hin & Hq). exists q. split; [right|]; assumption.
Qed.

(** X9: whenever the resolver returns, with no assumption on the machine,
    it has run the probe and nothing else, and what it returns is an
    existing directory whose path string starts with the path string of the
    resolved canonical directory of the version the interpreter reported. *)
Theorem discover_uenv_site_packages_result (mount : path) (view_name : string)
    (py r : path) st (st' : @state W) :
  discover_uenv_site_packages mount view_name py st = (Ret r, st') ->
  let cmd := [path_str py; "-c"; introspection_code] in
  st' = logged st [EvCheckOutput cmd]
  /\ is_dir (world st) r = inr true
  /\ exists (reply : introspection) (want : path) (rest : string),
      check_output_json (world st) cmd = inr reply
      /\ resolve (world st) (canonical_site_packages mount view_name (ver reply))
         = inr want
      /\ as_posix r = as_posix want +:+ rest.
Proof.
  intros H cmd. unfold discover_uenv_site_packages in H. fold cmd in H.
  unfold mbind at 1 2 3 4 in H. unfold M_bind at 1 2 3 4 in H.
  unfold emit at 1 in H. unfold ask_exn at 1 in H. cbn [world trace] in H.
  destruct (check_output_json (world st) cmd) as [e|reply] eqn:Ereply; [discriminate|].
  destruct (resolve_entries (sys_path reply) _) as [[ps|e|code] s1] eqn:Eps;
    [|discriminate|discriminate].
  apply resolve_entries_state in Eps as ->.
  unfold ask_exn at 1 in H. cbn [world trace] in H.
  destruct (resolve (world st) (canonical_site_packages mount view_name (ver reply)))
    as [e|want] eqn:Ewant; [discriminate|].
  unfold mbind, M_bind in H.
  destruct (scan_sys_path want ps _) as [[[pr|]|e|code] s2] eqn:Escan;
    [| |discriminate|discriminate].
  - pose proof (scan_sys_path_state _ _ _ _ _ Escan) as ->.
    apply scan_sys_path_accepted in Escan as (p & _ & Hacc).
    apply accepted_spec in Hacc as (_ & Hdir & rest & Hrest).
    injection H as <- <-. split; [reflexivity|]. split; [exact Hdir|].
    exists reply, want, rest. auto.
  - apply scan_sys_path_state in Escan as ->.
    unfold ask_exn, mret, M_ret in H. cbn [world] in H.
    destruct (is_dir (world st) want) as [e|[]] eqn:Hdir; [discriminate| |discriminate].
    injection H as <- <-. split; [reflexivity|]. split; [exact Hdir|].
    exists reply, want, "". rewrite PyStrFacts.app_empty_r. auto.
Qed.

End DiskMore.

(** ** The gates of [main] and the run that passes them *)

Section GatesMore.

Context {path W : Type} {PL : PathLib path} {os : OS path W}.

Implicit Types (environ : gmap string string) (st : @state W) (args : @Args path).

Lemma when_err_inv (c : bool) (msg : string) (code : Z) st (u : unit) (st' : @state W) :
  when c (_err msg code) st = (Ret u, st') -> c = false /\ st' = st.
Proof. destruct c; [discriminate|]. intros [= _ <-]. auto. Qed.

Lemma ask_inv {A : Type} (q : W -> A) st (a : A) (st' : @state W) :
  ask q st = (Ret a, st') -> a = q (world st) /\ st' = st.
Proof. intros [= <- <-]. auto. Qed.

Lemma ask_exn_inv {A : Type} (q : W -> exn + A) st (a : A) (st' : @state W) :
  ask_exn q st = (Ret a, st') -> q (world st) = inr a /\ st' = st.
Proof.
  unfold ask_exn. destruct (q (world st)); [discriminate|]. intros [= <- <-]. auto.
Qed.

(** A parse that returns has printed nothing. *)
Lemma parse_uenv_ret_state environ st (x : path * string * string) (st' : @state W) :
  parse_uenv environ st = (Ret x, st') -> st' = st.
Proof.
  assert (forall s s' : @state W,
             parse_uenv_mount_list environ s = (Ret x, s') -> s' = s) as Hlist.
  { intros s s' H.
    destruct (parse_uenv_mount_list_cases environ s) as [[_ [m Hm]]|[_ Hm]];
      rewrite Hm in H; [injection H as _ <-; reflexivity | discriminate]. }
  unfold parse_uenv. destruct (PyStr.truthy _); [|apply Hlist].
  destruct (PyStr.split_max ":" _ 3) as [|a [|b [|c [|d l]]]]; try apply Hlist.
  intros [= _ <-]. reflexivity.
Qed.

Lemma ensure_no_pythonpath_ret environ st (u : unit) (st' : @state W) :
  ensure_no_pythonpath environ st = (Ret u, st') ->
  PyStr.truthy (default "" (environ !! "PYTHONPATH")) = false /\ st' = st.
Proof.
  unfold ensure_no_pythonpath. destruct (environ !! "PYTHONPATH") as [v|]; simpl.
  - destruct (PyStr.truthy v); [discriminate|]. intros [= <-]. auto.
  - intros [= <-]. auto.
Qed.

Lemma truthy_nonempty (s : string) : PyStr.truthy s = true <-> s <> "".
Proof. destruct s; simpl; split; congruence. Qed.

(** A resolver that returns has run the probe and nothing else. *)
Lemma discover_uenv_site_packages_state (mount : path) (view_name : string)
    (py r : path) st (st' : @state W) :
  discover_uenv_site_packages mount view_name py st = (Ret r, st') ->
  st' = logged st [EvCheckOutput [path_str py; "-c"; introspection_code]].
Proof.
  unfold discover_uenv_site_packages.
  set (cmd := [path_str py; "-c"; introspection_code]).
  unfold mbind at 1 2 3 4. unfold M_bind at 1 2 3 4.
  unfold emit at 1. unfold ask_exn at 1. cbn [world trace].
  destruct (check_output_json (world st) cmd) as [e|reply]; [discriminate|].
  destruct (resolve_entries (sys_path reply) _) as [[ps|e|code] s1] eqn:Eps;
    [|discriminate|discriminate].
  apply resolve_entries_state in Eps as ->.
  unfold ask_exn at 1. cbn [world trace].
  destruct (resolve (world st) _) as [e|want]; [discriminate|].
  unfold mbind, M_bind.
  destruct (scan_sys_path want ps _) as [[[pr|]|e|code] s2] eqn:Escan;
    [| |discriminate|discriminate];
    apply scan_sys_path_state in Escan as ->.
  - intros [= _ <-]. reflexivity.
  - unfold ask_exn, mret, M_ret. cbn [world].
    destruct (is_dir (world st) want) as [e|[]]; [discriminate| |discriminate].
    intros [= _ <-]. reflexivity.
Qed.

(** Everything the gates have checked when they are passed. *)
Lemma main_gates_inv environ args st (d : discovery) (st1 : @state W) :
  main_gates environ args st = (Ret d, st1) ->
  parse_uenv environ st = (Ret (d_mount d, d_name d, d_view d), st)
  /\ d_name d <> "" /\ d_view d <> ""
  /\ is_dir (world st) (d_mount d) = inr true
  /\ resolve (world st) (python args) = inr (d_py d)
  /\ path_exists (world st) (d_py d) = inr true
  /\ py_in_uenv (d_py d) (d_mount d) st = (Ret true, st)
  /\ is_dir (world st) (d_uenv_sp d) = inr true
  /\ PyStr.truthy (default "" (environ !! "PYTHONPATH")) = false
  /\ st1 = logged st [EvCheckOutput [path_str (d_py d); "-c"; introspection_code]].
Proof.
  intros H. unfold main_gates in H.
  apply bind_ret_inv in H as (d' & s & Hdisc & H).
  apply bind_ret_inv in H as ([] & s' & Hpp & H).
  unfold mret, M_ret in H. injection H as -> ->.
  apply ensure_no_pythonpath_ret in Hpp as [Hpp ->].
  unfold main_discover in Hdisc.
  apply bind_ret_inv in Hdisc as ([[mount name] view] & s1 & Hparse & H).
  pose proof (parse_uenv_ret_state _ _ _ _ Hparse) as ->.
  apply bind_ret_inv in H as ([] & s2 & Hname & H).
  apply when_err_inv in Hname as [Hname ->].
  apply bind_ret_inv in H as (mount_is_dir & s3 & Hmd & H).
  apply ask_exn_inv in Hmd as [Hmd ->].
  apply bind_ret_inv in H as ([] & s4 & Hmount & H).
  apply when_err_inv in Hmount as [Hmount ->].
  apply bind_ret_inv in H as ([] & s5 & Hview & H).
  apply when_err_inv in Hview as [Hview ->].
  apply bind_ret_inv in H as (py & s6 & Hpy & H).
  apply ask_exn_inv in Hpy as [Hpy ->].
  apply bind_ret_inv in H as (py_exists & s7 & Hex & H).
  apply ask_exn_inv in Hex as [Hex ->].
  apply bind_ret_inv in H as ([] & s8 & Hexists & H).
  apply when_err_inv in Hexists as [Hexists ->].
  apply bind_ret_inv in H as (inside & s9 & Hin & H).
  rewrite py_in_uenv_value in Hin. injection Hin as <- <-.
  apply bind_ret_inv in H as ([] & s10 & Hinside & H).
  apply when_err_inv in Hinside as [Hinside ->].
  apply bind_ret_inv in H as (uenv_sp & s11 & Hsp & H).
  apply discover_uenv_site_packages_state in Hsp as ->.
  apply bind_ret_inv in H as (sp_is_dir & s12 & Hsd & H).
  apply ask_exn_inv in Hsd as [Hsd ->].
  apply bind_ret_inv in H as ([] & s13 & Hspdir & H).
  apply when_err_inv in Hspdir as [Hspdir ->].
  unfold mret, M_ret in H. injection H as <- <-. cbn [d_mount d_name d_view d_py d_uenv_sp].
  apply negb_false_iff in Hname, Hmount, Hview, Hexists, Hinside, Hspdir.
  subst mount_is_dir py_exists sp_is_dir. cbn [world logged] in Hsd.
  split; [exact Hparse|]. split; [apply truthy_nonempty, Hname|].
  split; [apply truthy_nonempty, Hview|]. split; [exact Hmd|].
  split; [exact Hpy|]. split; [exact Hex|].
  split; [rewrite py_in_uenv_value, Hinside; reflexivity|].
  split; [exact Hsd|]. split; [exact Hpp | reflexivity].
Qed.

(** X10: when the gates are passed, the name and the view are not empty,
    the mount is a directory, the interpreter is the resolved [--python],
    exists, and has a path string that is the resolved mount's, a slash and
    more, the view package directory is a directory, [PYTHONPATH] is absent
    or empty, and the probe of the interpreter is all that has happened. *)
Theorem gates_establish environ args st (d : discovery) (st1 : @state W) :
  main_gates environ args st = (Ret d, st1) ->
  d_name d <> "" /\ d_view d <> ""
  /\ is_dir (world st) (d_mount d) = inr true
  /\ resolve (world st) (python args) = inr (d_py d)
  /\ path_exists (world st) (d_py d) = inr true
  /\ (exists (p m : path) (rest : string),
         resolve (world st) (d_py d) = inr p /\ resolve (world st) (d_mount d) = inr m
         /\ as_posix p = as_posix m +:+ "/" +:+ rest)
  /\ is_dir (world st) (d_uenv_sp d) = inr true
  /\ (environ !! "PYTHONPATH" = None \/ environ !! "PYTHONPATH" = Some "")
  /\ st1 = logged st [EvCheckOutput [path_str (d_py d); "-c"; introspection_code]].
Proof.
  intros H.
  destruct (main_gates_inv _ _ _ _ _ H)
    as (_ & Hname & Hview & Hmount & Hpy & Hex & Hin & Hsp & Hpp & Hst).
  split; [exact Hname|]. split; [exact Hview|]. split; [exact Hmount|].
  split; [exact Hpy|]. split; [exact Hex|]. split.
  - rewrite py_in_uenv_value in Hin.
    destruct (resolve (world st) (d_py d)) as [e|p]; [discriminate|].
    destruct (resolve (world st) (d_mount d)) as [e|m]; [discriminate|].
    injection Hin as Hin. apply PyStrFacts.startswith_spec in Hin as [rest Hrest].
    exists p, m, rest. rewrite Hrest, PyStrFacts.app_assoc. auto.
  - split; [exact Hsp|]. split; [|exact Hst].
    destruct (environ !! "PYTHONPATH") as [[|c v]|]; [auto | discriminate | auto].
Qed.

Lemma main_of_discover_exit environ args st (code : Z) (s : @state W) :
  main_discover environ args st = (SysExit code, s) ->
  main environ args st = (SysExit code, s).
Proof.
  intros H. unfold main. apply bind_exit_run. unfold main_gates.
  apply bind_exit_run. exact H.
Qed.

Lemma main_of_discover_raise environ args st (e : exn) (s : @state W) :
  main_discover environ args st = (Raise e, s) ->
  main environ args st = (Raise e, s).
Proof.
  intros H. unfold main. apply bind_raise_run. unfold main_gates.
  apply bind_raise_run. exact H.
Qed.

(** X11: the gates of lines 181-203 stand in this order: the name, the
    mount, the view, the resolution of [--python], the existence of the
    interpreter, its provenance.  The first one that fails ends the run,
    with status 2 and its own diagnostic as the only thing printed, or with
    the exception that [is_dir], [resolve] or [exists] raised; nothing else
    has happened. *)
Theorem gates_in_order environ args st (mount : path) (name view : string) :
  parse_uenv environ st = (Ret (mount, name, view), st) ->
  (name = "" ->
   main environ args st
   = (SysExit 2, logged st [EvPrint Stderr "ERROR: Could not detect uenv name."]))
  /\ (name <> "" ->
      (forall e, is_dir (world st) mount = inl e ->
                 main environ args st = (Raise e, st))
      /\ (is_dir (world st) mount = inr false ->
          main environ args st
          = (SysExit 2,
             logged st [EvPrint Stderr
                          ("ERROR: mount point does not exist: " +:+ path_str mount)]))
      /\ (is_dir (world st) mount = inr true ->
          (view = "" ->
           main environ args st
           = (SysExit 2,
              logged st [EvPrint Stderr "ERROR: Could not detect active view."]))
          /\ (view <> "" ->
              (forall e, resolve (world st) (python args) = inl e ->
                         main environ args st = (Raise e, st))
              /\ forall py, resolve (world st) (python args) = inr py ->
                   (forall e, path_exists (world st) py = inl e ->
                              main environ args st = (Raise e, st))
                   /\ (path_exists (world st) py = inr false ->
                       main environ args st
                       = (SysExit 2,
                          logged st [EvPrint Stderr
                                       ("ERROR: --python not found: " +:+ path_str py)]))
                   /\ (path_exists (world st) py = inr true ->
                       py_in_uenv py mount st = (Ret false, st) ->
                       main environ args st
                       = (SysExit 2,
                          logged st [EvPrint Stderr
                                       (outside_mount_message py mount view)]))))).
Proof.
  intros Hparse.
  assert (forall s : string, s <> "" -> PyStr.truthy s = true) as Htruthy
    by (intros s; apply truthy_nonempty).
  assert (forall (A : Type) (q : W -> exn + A) (a : A),
             q (world st) = inr a -> ask_exn q st = (Ret a, st)) as Hask
    by (intros A q a Hq; unfold ask_exn; rewrite Hq; reflexivity).
  assert (forall (A : Type) (q : W -> exn + A) (e : exn),
             q (world st) = inl e -> ask_exn q st = (Raise e, st)) as Hfail
    by (intros A q e Hq; unfold ask_exn; rewrite Hq; reflexivity).
  split.
  - intros ->. apply main_of_discover_exit. unfold main_discover.
    rewrite (bind_ret_run _ _ _ _ _ Hparse). apply bind_exit_run. reflexivity.
  - intros Hname. apply Htruthy in Hname. split; [|split].
    + intros e Hdir. apply main_of_discover_raise. unfold main_discover.
      rewrite (bind_ret_run _ _ _ _ _ Hparse). cbn beta iota. rewrite Hname.
      erewrite bind_ret_run by reflexivity.
      apply bind_raise_run. apply (Hfail _ (fun w => is_dir w mount) e Hdir).
    + intros Hdir. apply main_of_discover_exit. unfold main_discover.
      rewrite (bind_ret_run _ _ _ _ _ Hparse). cbn beta iota. rewrite Hname.
      erewrite bind_ret_run by reflexivity.
      rewrite (bind_ret_run _ _ _ _ _ (Hask _ (fun w => is_dir w mount) _ Hdir)).
      apply bind_exit_run. reflexivity.
    + intros Hdir. split.
      * intros ->. apply main_of_discover_exit. unfold main_discover.
        rewrite (bind_ret_run _ _ _ _ _ Hparse). cbn beta iota. rewrite Hname.
        erewrite bind_ret_run by reflexivity.
        rewrite (bind_ret_run _ _ _ _ _ (Hask _ (fun w => is_dir w mount) _ Hdir)).
        erewrite bind_ret_run by reflexivity. apply bind_exit_run. reflexivity.
      * intros Hview. apply Htruthy in Hview. split.
        -- intros e He. apply main_of_discover_raise. unfold main_discover.
           rewrite (bind_ret_run _ _ _ _ _ Hparse). cbn beta iota. rewrite Hname.
           erewrite bind_ret_run by reflexivity.
           rewrite (bind_ret_run _ _ _ _ _ (Hask _ (fun w => is_dir w mount) _ Hdir)).
           rewrite Hview.
           erewrite bind_ret_run by reflexivity. erewrite bind_ret_run by reflexivity.
           apply bind_raise_run. apply (Hfail _ (fun w => resolve w (python args)) e He).
        -- intros py Hpy. split; [|split].
           ++ intros e Hex. apply main_of_discover_raise. unfold main_discover.
              rewrite (bind_ret_run _ _ _ _ _ Hparse). cbn beta iota. rewrite Hname.
              erewrite bind_ret_run by reflexivity.
              rewrite (bind_ret_run _ _ _ _ _ (Hask _ (fun w => is_dir w mount) _ Hdir)).
              rewrite Hview.
              erewrite bind_ret_run by reflexivity. erewrite bind_ret_run by reflexivity.
              rewrite (bind_ret_run _ _ _ _ _
                         (Hask _ (fun w => resolve w (python args)) _ Hpy)).
              apply bind_raise_run. apply (Hfail _ (fun w => path_exists w py) e Hex).
           ++ intros Hex. apply main_of_discover_exit. unfold main_discover.
              rewrite (bind_ret_run _ _ _ _ _ Hparse). cbn beta iota. rewrite Hname.
              erewrite bind_ret_run by reflexivity.
              rewrite (bind_ret_run _ _ _ _ _ (Hask _ (fun w => is_dir w mount) _ Hdir)).
              rewrite Hview.
              erewrite bind_ret_run by reflexivity. erewrite bind_ret_run by reflexivity.
              rewrite (bind_ret_run _ _ _ _ _
                         (Hask _ (fun w => resolve w (python args)) _ Hpy)).
              rewrite (bind_ret_run _ _ _ _ _ (Hask _ (fun w => path_exists w py) _ Hex)).
              apply bind_exit_run. reflexivity.
           ++ intros Hex Hout. apply main_of_discover_exit. unfold main_discover.
              rewrite (bind_ret_run _ _ _ _ _ Hparse). cbn beta iota. rewrite Hname.
              erewrite bind_ret_run by reflexivity.
              rewrite (bind_ret_run _ _ _ _ _ (Hask _ (fun w => is_dir w mount) _ Hdir)).
              rewrite Hview.
              erewrite bind_ret_run by reflexivity. erewrite bind_ret_run by reflexivity.
              rewrite (bind_ret_run _ _ _ _ _
                         (Hask _ (fun w => resolve w (python args)) _ Hpy)).
              rewrite (bind_ret_run _ _ _ _ _ (Hask _ (fun w => path_exists w py) _ Hex)).
              erewrite bind_ret_run by reflexivity.
              rewrite (bind_ret_run _ _ _ _ _ Hout). apply bind_exit_run. reflexivity.
Qed.

End GatesMore.

(** ** The run that returns *)

Section SuccessMore.

Context {path W : Type} {PL : PathLib path} {os : OS path W}.

Implicit Types (environ : gmap string string) (st : @state W) (args : @Args path).

(** Lines 213-214 when they return: nothing, or the removal of the target
    under [--force]. *)
Lemma remove_existing_ret args st (u : unit) (st' : @state W) :
  remove_existing args st = (Ret u, st') ->
  exists removal,
    trace st' = trace st ++ removal
    /\ (removal = []
        \/ (removal = [EvRmtree (path_str (venv args))] /\ force args = true)).
Proof.
  destruct u. destruct (force args) eqn:Hf.
  - destruct (path_exists (world st) (venv args)) as [e|[]] eqn:He.
    + unfold remove_existing. rewrite Hf. run. rewrite He. discriminate.
    + rewrite (remove_existing_forced args st Hf He). intros H.
      exists [EvRmtree (path_str (venv args))]. split; [|right; auto].
      destruct (fst (rmtree (venv args) (world st))); [discriminate|].
      injection H as <-. reflexivity.
    + unfold remove_existing. rewrite Hf. run. rewrite He. intros [= <-].
      exists []. rewrite app_nil_r. auto.
  - rewrite (remove_existing_unforced args st Hf). intros [= <-].
    exists []. rewrite app_nil_r. auto.
Qed.

(** Lines 215-217 when they return: the target has been made. *)
Lemma make_target_ret args st (u : unit) (st' : @state W) :
  make_target args st = (Ret u, st') ->
  trace st' = trace st ++ [EvMkdir (path_str (venv args))].
Proof.
  destruct u. unfold make_target. run.
  destruct (path_exists (world st) (venv args)) as [e|[]]; [discriminate| |].
  - destruct (iterdir (world st) (venv args)) as [e|children]; [discriminate|].
    cbn [world trace]. destruct (bool_decide (children = [])); [|discriminate].
    cbn [negb world trace].
    destruct (mkdir (venv args) (world st)) as [[e|] w']; [discriminate|].
    intros [= <-]. reflexivity.
  - cbn [world trace].
    destruct (mkdir (venv args) (world st)) as [[e|] w']; [discriminate|].
    intros [= <-]. reflexivity.
Qed.

(** Lines 220-226 when they return: commands only, and one of the two
    answers. *)
Lemma main_create_ret args (py : path) environ st (used : string) (st' : @state W) :
  main_create args py environ st = (Ret used, st') ->
  exists cmds,
    trace st' = trace st ++ cmds
    /\ forallb is_check_call cmds = true
    /\ (used = "uv" \/ used = "venv").
Proof.
  intros H. unfold main_create, try_except in H.
  unfold mbind at 1 in H. unfold M_bind at 1 in H.
  destruct (create_with_uv (venv args) py (copies args) environ st)
    as [o1 st1] eqn:Efast.
  apply create_with_uv_trace in Efast.
  assert (exists fast, trace st1 = trace st ++ fast /\ forallb is_check_call fast = true)
    as (fast & Hf & Hfc).
  { destruct Efast as [[_ ->]|[(u & _ & Ht)|(u & tool & _ & Ht)]].
    - exists []. rewrite app_nil_r. auto.
    - eexists. split; [exact Ht | reflexivity].
    - eexists. split; [exact Ht | reflexivity]. }
  destruct o1 as [[]|e1|code1]; [| |discriminate].
  - unfold mret, M_ret in H. injection H as <- <-. exists fast. auto.
  - unfold mbind, M_bind in H.
    destruct (create_with_stdlib (venv args) py (copies args) environ st1)
      as [o2 st2] eqn:Eslow.
    destruct o2 as [[]|e2|c2]; [|discriminate|discriminate].
    unfold mret, M_ret in H. injection H as <- <-.
    apply create_with_stdlib_trace in Eslow as [[[e2 He2] _]|(tool & _ & Ht)];
      [discriminate He2|].
    eexists. split; [rewrite Ht, Hf, <- app_assoc; reflexivity|].
    split; [rewrite forallb_app, Hfc; reflexivity | auto].
Qed.

(** X12: a run of [main] that returns has done this and nothing else, in
    this order: the probe of the interpreter; the removal of the target, at
    most once and only under [--force]; the making of the target; the
    creation commands; the query of the venv's package directory; the write
    of [uenv.pth] in that directory, holding the view package directory and
    a newline; the ten lines of the report, which name that same file. *)
Theorem successful_run_anatomy environ args st (code : Z) (st' : @state W) :
  main environ args st = (Ret code, st') ->
  exists (d : discovery) (removal cmds : list event) (used : string) (vsp : path),
    main_gates environ args st
    = (Ret d, logged st [EvCheckOutput [path_str (d_py d); "-c"; introspection_code]])
    /\ trace st'
       = trace st
           ++ [EvCheckOutput [path_str (d_py d); "-c"; introspection_code]]
           ++ removal
           ++ [EvMkdir (path_str (venv args))]
           ++ cmds
           ++ [EvCheckOutput (purelib_cmd (_venv_python (venv args)));
               EvWriteText (path_str (joinpath vsp "uenv.pth"))
                 (path_str (d_uenv_sp d) +:+ PyStr.nl)]
           ++ report_lines args d used vsp (joinpath vsp "uenv.pth")
    /\ (removal = []
        \/ (removal = [EvRmtree (path_str (venv args))] /\ force args = true))
    /\ forallb is_check_call cmds = true
    /\ (used = "uv" \/ used = "venv").
Proof.
  intros H. unfold main in H.
  apply bind_ret_inv in H as (d & st1 & Hgates & H).
  apply bind_ret_inv in H as ([] & st2 & Hprep & H).
  unfold main_prepare in Hprep.
  apply bind_ret_inv in Hprep as ([] & st1' & Hremove & Hmake).
  unfold main_build in H.
  apply bind_ret_inv in H as (used & st3 & Hcreate & H).
  apply bind_ret_inv in H as ([vsp pth] & st4 & Hlink & H).
  rewrite main_report_run in H. injection H as _ <-.
  pose proof (main_gates_inv _ _ _ _ _ Hgates) as Hst1.
  do 9 apply proj2 in Hst1.
  apply remove_existing_ret in Hremove as (removal & Hr & Hremoval).
  apply make_target_ret in Hmake.
  apply main_create_ret in Hcreate as (cmds & Hc & Hcmds & Hused).
  apply main_link_ret in Hlink as [-> Hl].
  exists d, removal, cmds, used, vsp.
  split; [rewrite Hgates, Hst1; reflexivity|].
  split; [|auto].
  unfold logged. cbn [trace]. rewrite Hl, Hc, Hmake, Hr, Hst1. cbn [logged trace].
  rewrite <- !app_assoc. reflexivity.
Qed.

End SuccessMore.

(** ** How runs fail *)

Section FailureMore.

Context {path W : Type} {PL : PathLib path} {os : OS path W}.

Implicit Types (environ : gmap string string) (st : @state W) (args : @Args path).


(** The comprehension of line 82 ends on the first string entry whose
    resolution raises. *)
Lemma resolve_entries_raise st (before : list sys_path_entry) (s : string)
    (after : list sys_path_entry) (e : exn) :
  (forall s', In (PathStr s') before -> exists p, resolve (world st) (Path s') = inr p) ->
  resolve (world st) (Path s) = inl e ->
  resolve_entries (before ++ PathStr s :: after) st = (Raise e, st).
Proof.
  intros Hb He. induction before as [|[s'|] before IH]; simpl.
  - apply bind_raise_run. unfold ask_exn. rewrite He. reflexivity.
  - destruct (Hb s' (or_introl eq_refl)) as [p Hp].
    erewrite bind_ret_run by (unfold ask_exn; rewrite Hp; reflexivity).
    apply bind_raise_run. apply IH. intros s'' Hin. apply Hb. right. exact Hin.
  - apply IH. intros s'' Hin. apply Hb. right. exact Hin.
Qed.

(** X13: the resolver ends with an exception, and not with a diagnostic,
    when the probe fails, when a reported string entry does not resolve,
    even behind an entry that would have been returned, and when the
    canonical directory does not resolve; the probe is all that has
    happened. *)
Theorem discover_uenv_site_packages_raises (mount : path) (view_name : string)
    (py : path) st :
  let cmd := [path_str py; "-c"; introspection_code] in
  (forall e, check_output_json (world st) cmd = inl e ->
             discover_uenv_site_packages mount view_name py st
             = (Raise e, logged st [EvCheckOutput cmd]))
  /\ forall reply, check_output_json (world st) cmd = inr reply ->
       (forall (before : list sys_path_entry) (s : string) (after : list sys_path_entry)
               (e : exn),
           sys_path reply = before ++ PathStr s :: after ->
           (forall s', In (PathStr s') before ->
                       exists p, resolve (world st) (Path s') = inr p) ->
           resolve (world st) (Path s) = inl e ->
           discover_uenv_site_packages mount view_name py st
           = (Raise e, logged st [EvCheckOutput cmd]))
       /\ (forall (ps : list path) (e : exn),
              Forall2 (fun s p => resolve (world st) (Path s) = inr p)
                (str_entries (sys_path reply)) ps ->
              resolve (world st) (canonical_site_packages mount view_name (ver reply))
              = inl e ->
              discover_uenv_site_packages mount view_name py st
              = (Raise e, logged st [EvCheckOutput cmd])).
Proof.
  intros cmd.
  assert (emit (EvCheckOutput cmd) st = (Ret tt, logged st [EvCheckOutput cmd])) as Hemit
    by reflexivity.
  split.
  - intros e He. unfold discover_uenv_site_packages. fold cmd.
    rewrite (bind_ret_run _ _ _ _ _ Hemit).
    apply bind_raise_run. unfold ask_exn. cbn [world logged]. rewrite He. reflexivity.
  - intros reply Hreply.
    assert (ask_exn (fun w => check_output_json w cmd) (logged st [EvCheckOutput cmd])
            = (Ret reply, logged st [EvCheckOutput cmd])) as Hask
      by (unfold ask_exn; cbn [world logged]; rewrite Hreply; reflexivity).
    split.
    + intros before s after e Hpath Hb He. unfold discover_uenv_site_packages. fold cmd.
      rewrite (bind_ret_run _ _ _ _ _ Hemit), (bind_ret_run _ _ _ _ _ Hask).
      apply bind_raise_run. rewrite Hpath.
      apply resolve_entries_raise; [exact Hb | exact He].
    + intros ps e Hps He. unfold discover_uenv_site_packages. fold cmd.
      rewrite (bind_ret_run _ _ _ _ _ Hemit), (bind_ret_run _ _ _ _ _ Hask).
      erewrite bind_ret_run by (apply resolve_entries_run; exact Hps).
      apply bind_raise_run. unfold ask_exn. cbn [world logged]. rewrite He. reflexivity.
Qed.

(** X14: [--force] changes nothing when the target does not exist, or when
    the test for it raises: the run is the run without it. *)
Theorem force_is_idle_without_target environ (target py : path) (c : bool) st :
  path_exists (world st) target <> inr true ->
  main environ {| venv := target; python := py; force := true; copies := c |} st
  = main environ {| venv := target; python := py; force := false; copies := c |} st.
Proof.
  intros Habsent.
  set (a := {| venv := target; python := py; force := true; copies := c |}).
  set (a' := {| venv := target; python := py; force := false; copies := c |}).
  unfold main.
  change (main_gates environ a') with (main_gates environ a).
  destruct (main_gates environ a st) as [[d|e|code] st1] eqn:Hgates.
  - rewrite !(bind_ret_run _ _ _ _ _ Hgates).
    destruct (main_gates_quiet environ a st _ _ Hgates) as [Hworld _].
    assert (remove_existing a' st1 = (Ret tt, st1)) as Hremove'
      by (apply remove_existing_unforced; reflexivity).
    unfold main_prepare. rewrite !bind_assoc_run.
    rewrite (bind_ret_run _ _ _ _ _ Hremove').
    destruct (path_exists (world st) target) as [e|[]] eqn:Hex; [|congruence|].
    + assert (remove_existing a st1 = (Raise e, st1)) as Hremove.
      { unfold remove_existing. run. cbn [force venv a]. run.
        rewrite Hworld, Hex. reflexivity. }
      assert (make_target a' st1 = (Raise e, st1)) as Hmake.
      { unfold make_target. run. cbn [venv a']. rewrite Hworld, Hex. reflexivity. }
      rewrite (bind_raise_run _ _ _ _ _ Hremove), (bind_raise_run _ _ _ _ _ Hmake).
      reflexivity.
    + assert (remove_existing a st1 = (Ret tt, st1)) as Hremove.
      { unfold remove_existing. run. cbn [force venv a]. run.
        rewrite Hworld, Hex. reflexivity. }
      rewrite (bind_ret_run _ _ _ _ _ Hremove). reflexivity.
  - rewrite !(bind_raise_run _ _ _ _ _ Hgates). reflexivity.
  - rewrite !(bind_exit_run _ _ _ _ _ Hgates). reflexivity.
Qed.

(** X15: without [--force], a target that does not exist is made; a target
    that exists and is empty is accepted, and made again; and a target that
    exists and cannot be listed, or cannot be tested for, ends the run on
    the exception of the listing or of the test, with nothing made. *)
Theorem prepare_without_force args st :
  force args = false ->
  let made :=
    (match fst (mkdir (venv args) (world st)) with
     | None => Ret tt
     | Some e => Raise e
     end,
     State (snd (mkdir (venv args) (world st)))
       (trace st ++ [EvMkdir (path_str (venv args))])) in
  (path_exists (world st) (venv args) = inr false -> main_prepare args st = made)
  /\ (path_exists (world st) (venv args) = inr true ->
      (iterdir (world st) (venv args) = inr [] -> main_prepare args st = made)
      /\ forall e, iterdir (world st) (venv args) = inl e ->
                   main_prepare args st = (Raise e, st))
  /\ (forall e, path_exists (world st) (venv args) = inl e ->
                main_prepare args st = (Raise e, st)).
Proof.
  intros Hforce made. unfold main_prepare.
  rewrite (bind_ret_run _ _ _ _ _ (remove_existing_unforced args st Hforce)).
  unfold made, make_target. split; [|split; [split|]].
  - intros He. run. rewrite He. run.
    destruct (mkdir (venv args) (world st)) as [[e|] w']; reflexivity.
  - intros Hi. run. rewrite H, Hi.
    rewrite bool_decide_eq_true_2 by reflexivity. cbn [negb world trace].
    destruct (mkdir (venv args) (world st)) as [[e|] w']; reflexivity.
  - intros e Hi. run. rewrite H, Hi. reflexivity.
  - intros e He. run. rewrite He. reflexivity.
Qed.














End FailureMore.

(** ** The theorems on the concrete machine *)

Import Toy.

(** The string built-ins on the values of the descriptors. *)
Example split_max_three :
  PyStr.split_max ":" "/uenv/base:base:default" 3 = ["/uenv/base"; "base"; "default"].
Proof. reflexivity. Qed.

Example split_max_five :
  PyStr.split_max ":" "a:b:c:d:e" 3 = ["a"; "b"; "c"; "d:e"].
Proof. reflexivity. Qed.

Example rsplit1_image :
  PyStr.last_field (PyStr.rsplit1 ":" "img:tag:/mnt") = "/mnt".
Proof. reflexivity. Qed.

Example strip_then_split :
  PyStr.split_on is_list_sep (PyStr.strip "  a:b c:d, ") = ["a:b"; "c:d"; ""].
Proof. reflexivity. Qed.

(** The list descriptor [a:b c:d] gives the mount [d]. *)
Example parse_uenv_a_b_c_d :
  parse_uenv ({[ "UENV_MOUNT_LIST" := "a:b c:d" ]} : gmap string string) (start base_world)
  = (Ret (parse "d", "", ""), start base_world).
Proof. vm_compute. reflexivity. Qed.

(** A composite descriptor with four fields is passed over. *)
Example parse_uenv_four_fields :
  parse_uenv ({[ "UENV_VIEW" := "/m:n:v:w"; "UENV_MOUNT_LIST" := "a:b,c:d" ]}
                : gmap string string) (start base_world)
  = (Ret (parse "d", "", ""), start base_world).
Proof. vm_compute. reflexivity. Qed.

(** The provenance scenarios: inside the mount, outside it, and an
    interpreter path that does not resolve. *)
Example py_in_uenv_inside :
  py_in_uenv (parse "/base/env/x/bin/python") (parse "/base") (start base_world)
  = (Ret true, start base_world).
Proof. vm_compute. reflexivity. Qed.

Example py_in_uenv_outside :
  py_in_uenv (parse "/other/bin/python") (parse "/base") (start base_world)
  = (Ret false, start base_world).
Proof. vm_compute. reflexivity. Qed.

Example py_in_uenv_unresolved :
  resolve base_world (parse "loop") = inl RuntimeError
  /\ py_in_uenv (parse "loop") (parse "/home") (start base_world)
     = (Ret false, start base_world).
Proof. split; vm_compute; reflexivity. Qed.

(** The end-to-end scenario: the run succeeds and the path-injection file
    holds the view package directory and a newline. *)
Example end_to_end :
  fst (main base_environ base_args (start base_world)) = Ret 0
  /\ written (world (snd (main base_environ base_args (start base_world))))
     = [("/home/user/work/venv/lib/python3.11/site-packages/uenv.pth",
         site_packages +:+ PyStr.nl)].
Proof. split; vm_compute; reflexivity. Qed.

(** The resolver on three machines: the view package directory is on the
    search path; it is not, and the canonical directory exists; it is not,
    and the canonical directory does not exist. *)
Lemma discover_uenv_site_packages_cases :
  discover_uenv_site_packages (parse "/uenv/base") "default" (parse interpreter)
    (start base_world)
  = (Ret (parse site_packages),
     logged (start base_world) [EvCheckOutput [interpreter; "-c"; introspection_code]])
  /\ discover_uenv_site_packages (parse "/uenv/base") "default" (parse interpreter)
       (start fallback_world)
     = (Ret (parse site_packages),
        logged (start fallback_world)
          [EvCheckOutput [interpreter; "-c"; introspection_code]])
  /\ fst (discover_uenv_site_packages (parse "/uenv/base") "default" (parse interpreter)
            (start missing_world))
     = SysExit 2.
Proof.
  split; [|split].
  - refine (proj1 (discover_uenv_site_packages_spec
                     (parse "/uenv/base") "default" (parse interpreter) (start base_world)
                     {| ver := "3.11";
                        sys_path := [PathStr site_packages; PathStr "/usr/lib/python3.11"] |}
                     [parse site_packages; parse "/usr/lib/python3.11"]
                     (parse site_packages) _ _ _)
              [] [parse "/usr/lib/python3.11"] (parse site_packages) (parse site_packages)
              _ _ _).
    + vm_compute. reflexivity.
    + repeat constructor.
    + vm_compute. reflexivity.
    + reflexivity.
    + constructor.
    + vm_compute. reflexivity.
  - refine (proj1 (proj2 (proj2 (discover_uenv_site_packages_spec
                     (parse "/uenv/base") "default" (parse interpreter)
                     (start fallback_world)
                     {| ver := "3.11";
                        sys_path := [PathOther; PathStr "/usr/lib/python3.11"] |}
                     [parse "/usr/lib/python3.11"]
                     (parse site_packages) _ _ _)) _) _).
    + vm_compute. reflexivity.
    + repeat constructor.
    + vm_compute. reflexivity.
    + repeat constructor.
    + vm_compute. reflexivity.
  - refine (f_equal fst (proj1 (proj2 (proj2 (proj2 (discover_uenv_site_packages_spec
                     (parse "/uenv/base") "default" (parse interpreter)
                     (start missing_world)
                     {| ver := "3.11";
                        sys_path := [PathOther; PathStr "/usr/lib/python3.11"] |}
                     [parse "/usr/lib/python3.11"]
                     (parse site_packages) _ _ _)) _)) _)).
    + vm_compute. reflexivity.
    + repeat constructor.
    + vm_compute. reflexivity.
    + repeat constructor.
    + vm_compute. reflexivity.
Defined.

(** C2: the interpreter reports the view package directory and, behind it,
    an entry whose resolution raises (a symbolic link to itself).  The first
    reported entry is one the loop of lines 88-94 returns, and the loop
    returns it when it is run on the entries that resolve; yet the resolver
    ends on the exception that line 82 raised for the second entry, and
    returns nothing. *)
Theorem discover_first_match_lost :
  check_output_json Cases.loop_entry_world [interpreter; "-c"; introspection_code]
  = inr {| ver := "3.11";
           sys_path := [PathStr site_packages; PathStr "/home/user/loop"] |}
  /\ resolve Cases.loop_entry_world
       (canonical_site_packages (parse "/uenv/base") "default" "3.11")
     = inr (parse site_packages)
  /\ accepted Cases.loop_entry_world (parse site_packages) (parse site_packages)
     = inr (Some (parse site_packages))
  /\ scan_sys_path (parse site_packages) [parse site_packages]
       (start Cases.loop_entry_world)
     = (Ret (Some (parse site_packages)), start Cases.loop_entry_world)
  /\ resolve Cases.loop_entry_world (parse "/home/user/loop") = inl RuntimeError
  /\ discover_uenv_site_packages (parse "/uenv/base") "default" (parse interpreter)
       (start Cases.loop_entry_world)
     = (Raise RuntimeError,
        logged (start Cases.loop_entry_world)
          [EvCheckOutput [interpreter; "-c"; introspection_code]]).
Proof.
  split; [vm_compute; reflexivity|].
  split; [vm_compute; reflexivity|].
  split; [vm_compute; reflexivity|].
  split; [vm_compute; reflexivity|].
  split; [vm_compute; reflexivity|].
  vm_compute. reflexivity.
Qed.

(** A reported entry whose resolution raises ends the resolver on line 82,
    in front of the loop and its [try]. *)
Example discover_unresolvable_entry :
  fst (discover_uenv_site_packages (parse "/uenv/base") "default" (parse interpreter)
         (start (with_sys_path base_world [PathStr "/home/user/loop"; PathStr site_packages])))
  = Raise RuntimeError.
Proof. vm_compute. reflexivity. Qed.

Lemma parse_uenv_composite_witness :
  parse_uenv base_environ (start base_world)
  = (Ret (parse "/uenv/base", "base", "default"), start base_world)
  /\ parse_uenv list_environ (start base_world)
     = parse_uenv_mount_list list_environ (start base_world).
Proof.
  split.
  - apply (proj1 (parse_uenv_composite (PL:=toy_pathlib) base_environ (start base_world))
             "/uenv/base" "base" "default"); reflexivity.
  - apply (proj2 (parse_uenv_composite (PL:=toy_pathlib) list_environ (start base_world))).
    vm_compute. discriminate.
Defined.

Lemma parse_uenv_list_descriptor_witness :
  parse_uenv list_environ (start base_world)
  = (Ret (parse "/uenv/base", "", ""), start base_world)
  /\ parse_uenv Cases.padded_list_environ (start base_world)
     = (Ret (parse "/uenv/base", "", ""), start base_world)
  /\ fst (parse_uenv (∅ : gmap string string) (start base_world)) = SysExit 2.
Proof.
  split; [|split].
  - refine (proj1 (parse_uenv_list_descriptor (PL:=toy_pathlib) list_environ
                     (start base_world) _)
              "/images/a.squashfs:/user-tools " "/images/base.squashfs" "/uenv/base" ""
              _ _ _ _ _).
    + vm_compute. discriminate.
    + reflexivity.
    + reflexivity.
    + reflexivity.
    + reflexivity.
    + reflexivity.
  - refine (proj1 (parse_uenv_list_descriptor (PL:=toy_pathlib) Cases.padded_list_environ
                     (start base_world) _)
              "" "/images/base.squashfs" "/uenv/base" Cases.nbsp _ _ _ _ _).
    + vm_compute. discriminate.
    + reflexivity.
    + reflexivity.
    + reflexivity.
    + reflexivity.
    + reflexivity.
  - refine (f_equal fst (proj2 (parse_uenv_list_descriptor (PL:=toy_pathlib) ∅
                                  (start base_world) _) _)).
    + vm_compute. discriminate.
    + reflexivity.
Defined.

Lemma list_descriptor_never_succeeds_witness :
  main list_environ base_args (start base_world)
  = (SysExit 2,
     logged (start base_world) [EvPrint Stderr "ERROR: Could not detect uenv name."]).
Proof.
  apply (list_descriptor_never_succeeds list_environ base_args (start base_world)).
  vm_compute. discriminate.
Defined.



(** The diagnostic for a value of one line, and for a value of two lines:
    there the second line of the value has no indentation, so that nothing
    is dedented. *)
Example pythonpath_message_one_line :
  pythonpath_message "/opt/lib/python"
  = unlines
      [ "ERROR: PYTHONPATH is set in your environment and will break venv tooling.";
        "";
        "  PYTHONPATH=/opt/lib/python";
        "";
        "Please unset it and rerun:";
        "";
        "  # bash/zsh:";
        "  unset PYTHONPATH";
        "";
        "  # fish:";
        "  set -e PYTHONPATH";
        "";
        "  # csh/tcsh:";
        "  unsetenv PYTHONPATH";
        "";
        "(This is intentional: uenv-venv refuses to proceed while PYTHONPATH is set.)" ].
Proof. vm_compute. reflexivity. Qed.

Example pythonpath_message_two_lines :
  pythonpath_message ("/a" +:+ PyStr.nl +:+ "/b")
  = unlines
      [ "ERROR: PYTHONPATH is set in your environment and will break venv tooling.";
        "";
        "          PYTHONPATH=/a";
        "/b";
        "";
        "        Please unset it and rerun:";
        "";
        "          # bash/zsh:";
        "          unset PYTHONPATH";
        "";
        "          # fish:";
        "          set -e PYTHONPATH";
        "";
        "          # csh/tcsh:";
        "          unsetenv PYTHONPATH";
        "";
        "        (This is intentional: uenv-venv refuses to proceed while PYTHONPATH is set.)" ].
Proof. vm_compute. reflexivity. Qed.

(** With [PYTHONPATH] set and an interpreter that cannot be probed, the
    run ends on the exception of the probe, with status 1. *)
Example pythonpath_and_failing_probe :
  exit_status
    (fst (main pythonpath_environ
            {| venv := parse "./work/venv"; python := parse "/uenv/base/env/default/bin";
               force := false; copies := false |}
            (start base_world))) = 1.
Proof. vm_compute. reflexivity. Qed.





Lemma pth_file_content_witness :
  (exists (o : outcome (ppath * ppath)) (w' : machine),
      main_link base_args (parse site_packages) (start base_world)
      = (o, State w'
              [EvCheckOutput (purelib_cmd (_venv_python (venv base_args)));
               EvWriteText "/home/user/work/venv/lib/python3.11/site-packages/uenv.pth"
                 (site_packages +:+ PyStr.nl)])
      /\ written w'
         = [("/home/user/work/venv/lib/python3.11/site-packages/uenv.pth",
             site_packages +:+ PyStr.nl)])
  /\ (exists file : string,
         trace (snd (main_link base_args (parse site_packages) (start base_world)))
         = [] ++ [EvCheckOutput (purelib_cmd (_venv_python (venv base_args)));
                  EvWriteText file (site_packages +:+ PyStr.nl)]
         /\ trace (snd (main_link base_args (parse site_packages)
                          (State (world (snd (main_link base_args (parse site_packages)
                                                (start base_world)))) [])))
            = [] ++ [EvCheckOutput (purelib_cmd (_venv_python (venv base_args)));
                     EvWriteText file (site_packages +:+ PyStr.nl)])
  /\ exists (uenv_sp vsp : ppath),
      is_dir base_world uenv_sp = inr true
      /\ (exists q, resolve base_world q = inr uenv_sp)
      /\ In (EvWriteText (path_str (joinpath vsp "uenv.pth"))
               (path_str uenv_sp +:+ PyStr.nl))
           (trace (snd (main base_environ base_args (start base_world)))).
Proof.
  split; [|split].
  - assert (check_output (world (start base_world))
              (purelib_cmd (_venv_python (venv base_args)))
            = inr ("/home/user/work/venv/lib/python3.11/site-packages" +:+ PyStr.nl))
      as Hout by (vm_compute; reflexivity).
    destruct (proj1 (pth_file_content base_args) (parse site_packages)
                (start base_world)
                ("/home/user/work/venv/lib/python3.11/site-packages" +:+ PyStr.nl)
                Hout) as (o & w' & Hrun & Hwrite).
    exists o, w'. split; [exact Hrun|].
    vm_compute in Hwrite. injection Hwrite as _ <-. reflexivity.
  - refine (proj1 (proj2 (pth_file_content base_args)) (parse site_packages)
              (start base_world)
              (State (world (snd (main_link base_args (parse site_packages)
                                    (start base_world)))) [])
              ("/home/user/work/venv/lib/python3.11/site-packages" +:+ PyStr.nl)
              (fst (main_link base_args (parse site_packages) (start base_world)))
              (fst (main_link base_args (parse site_packages)
                      (State (world (snd (main_link base_args (parse site_packages)
                                            (start base_world)))) [])))
              _ _ _ _ _ _).
    + vm_compute. reflexivity.
    + vm_compute. reflexivity.
    + apply surjective_pairing.
    + apply surjective_pairing.
  - refine (proj2 (proj2 (pth_file_content base_args)) base_environ (start base_world) 0
              (snd (main base_environ base_args (start base_world))) _).
    vm_compute. reflexivity.
Defined.

(** After the second run of the linker the file holds what it held after
    the first. *)
Example linker_twice :
  lookup 0%nat
    (written (world (snd (main_link base_args (parse site_packages)
                            (State (world (snd (main_link base_args (parse site_packages)
                                                  (start base_world)))) [])))))
  = lookup 0%nat
      (written (world (snd (main_link base_args (parse site_packages)
                              (start base_world))))).
Proof. vm_compute. reflexivity. Qed.


(** ** The further facts on the concrete machine *)

Import Cases.

(** Three empty fields are three fields. *)
Lemma parse_uenv_three_fields_witness :
  parse_uenv empty_fields_environ (start base_world)
  = (Ret (parse "", "", ""), start base_world).
Proof.
  apply (parse_uenv_three_fields (PL:=toy_pathlib) empty_fields_environ (start base_world)
           "" "" "").
  vm_compute. reflexivity.
Defined.

(** The list descriptor of two images gives a mount free of separators
    and colons; without a descriptor the parse ends on its diagnostic. *)
Lemma parse_uenv_mount_list_result_witness :
  (exists m : string,
      parse_uenv_mount_list list_environ (start base_world)
      = (Ret (parse m, "", ""), start base_world)
      /\ PyStr.has token_breaker m = false)
  /\ PyStr.contains ":" (default "" ((∅ : gmap string string) !! "UENV_MOUNT_LIST")) = false.
Proof.
  assert (parse_uenv_mount_list list_environ (start base_world)
          = (Ret (parse "/uenv/base", "", ""), start base_world)) as Hlist
    by (vm_compute; reflexivity).
  assert (parse_uenv_mount_list (∅ : gmap string string) (start base_world)
          = (SysExit 2,
             logged (start base_world) [EvPrint Stderr "ERROR: Could not detect uenv."]))
    as Hnone by (vm_compute; reflexivity).
  split.
  - destruct (parse_uenv_mount_list_result (PL:=toy_pathlib) _ _ _ _ Hlist)
      as [(m & Ho & _ & Hm & _)|(Ho & _)]; [|discriminate Ho].
    exists m. split; [rewrite Hlist, Ho; reflexivity | exact Hm].
  - destruct (parse_uenv_mount_list_result (PL:=toy_pathlib) _ _ _ _ Hnone)
      as [(m & Ho & _)|(_ & _ & Hc)]; [discriminate Ho | exact Hc].
Defined.

(** The interpreter is inside the view, the view is inside the mount, so
    the interpreter is inside the mount; and it is not inside itself. *)
Lemma py_in_uenv_strict_order_witness :
  py_in_uenv (parse interpreter) (parse interpreter) (start base_world)
  = (Ret false, start base_world)
  /\ py_in_uenv (parse interpreter) (parse "/uenv/base") (start base_world)
     = (Ret true, start base_world).
Proof.
  split.
  - apply (proj1 (py_in_uenv_strict_order (parse interpreter) (parse "/uenv/base/env/default")
                    (parse "/uenv/base") (start base_world))).
  - apply (proj2 (py_in_uenv_strict_order (parse interpreter) (parse "/uenv/base/env/default")
                    (parse "/uenv/base") (start base_world))).
    + vm_compute. reflexivity.
    + vm_compute. reflexivity.
Defined.

(** The interpreter of the venv prints its package directory between
    no-break spaces, and a newline; none of them is part of the path. *)
Lemma venv_site_packages_strips_witness :
  venv_site_packages (parse "work/venv/bin/python") (start padded_world)
  = (Ret (parse "/home/user/work/venv/lib/python3.11/site-packages"),
     logged (start padded_world)
       [EvCheckOutput (purelib_cmd (parse "work/venv/bin/python"))]).
Proof.
  apply (venv_site_packages_strips (PL:=toy_pathlib) (parse "work/venv/bin/python")
           (start padded_world) nbsp (nbsp +:+ PyStr.nl) "/"
           "home/user/work/venv/lib/python3.11/site-packages").
  - reflexivity.
  - reflexivity.
  - reflexivity.
  - vm_compute. reflexivity.
  - vm_compute. reflexivity.
Defined.

(** [ensurepip] fails, [pip install] works: the bootstrap returns. *)
Lemma upgrade_bootstrap_best_effort_witness :
  fst (check_call (ensurepip_cmd (parse "work/venv/bin/python")) base_environ
         ensurepip_fails_world) = Some (CalledProcessError 1)
  /\ trace (snd (upgrade_bootstrap (parse "work/venv/bin/python") base_environ
                   (start ensurepip_fails_world)))
     = [] ++ [EvCheckCall (ensurepip_cmd (parse "work/venv/bin/python"));
              EvCheckCall (upgrade_cmd None (parse "work/venv/bin/python"))]
  /\ fst (upgrade_bootstrap (parse "work/venv/bin/python") base_environ
            (start ensurepip_fails_world)) = Ret tt.
Proof.
  assert (upgrade_bootstrap (parse "work/venv/bin/python") base_environ
            (start ensurepip_fails_world)
          = (fst (upgrade_bootstrap (parse "work/venv/bin/python") base_environ
                    (start ensurepip_fails_world)),
             snd (upgrade_bootstrap (parse "work/venv/bin/python") base_environ
                    (start ensurepip_fails_world)))) as Hrun
    by (vm_compute; reflexivity).
  split; [vm_compute; reflexivity|]. split.
  - exact (proj1 (upgrade_bootstrap_best_effort _ _ _ _ _ Hrun)).
  - apply (proj1 (proj2 (proj2 (proj2 (upgrade_bootstrap_best_effort _ _ _ _ _ Hrun))))).
    vm_compute. reflexivity.
Defined.

(** With [uv] installed and working the answer is [uv] after three
    commands; without [uv] it is [venv], the fast method having issued
    nothing that is not in front of the stdlib commands. *)
Lemma main_create_outcomes_witness :
  (exists u tool,
      trace (snd (main_create base_args (parse interpreter) base_environ
                    (start uv_works_world)))
      = [EvCheckCall (uv_venv_cmd u (venv base_args) (parse interpreter) false);
         EvCheckCall (ensurepip_cmd (_venv_python (venv base_args)));
         EvCheckCall (upgrade_cmd tool (_venv_python (venv base_args)))])
  /\ (exists fast tool,
         trace (snd (main_create base_args (parse interpreter) base_environ
                       (start base_world)))
         = fast ++ [EvCheckCall (stdlib_venv_cmd (venv base_args) (parse interpreter) false);
                    EvCheckCall (ensurepip_cmd (_venv_python (venv base_args)));
                    EvCheckCall (upgrade_cmd tool (_venv_python (venv base_args)))])
  /\ exists fast slow,
      trace (snd (main_create base_args (parse interpreter) base_environ
                    (start pip_fails_world)))
      = fast ++ EvCheckCall (stdlib_venv_cmd (venv base_args) (parse interpreter) false)
                 :: slow.
Proof.
  assert (forall w : machine,
             main_create base_args (parse interpreter) base_environ (start w)
             = (fst (main_create base_args (parse interpreter) base_environ (start w)),
                snd (main_create base_args (parse interpreter) base_environ (start w))))
    as Hrun by (intros w; apply surjective_pairing).
  assert (fst (main_create base_args (parse interpreter) base_environ
                 (start uv_works_world)) = Ret "uv") as Huv by (vm_compute; reflexivity).
  assert (fst (main_create base_args (parse interpreter) base_environ
                 (start base_world)) = Ret "venv") as Hvenv by (vm_compute; reflexivity).
  assert (fst (main_create base_args (parse interpreter) base_environ
                 (start pip_fails_world)) = Raise (CalledProcessError 1)) as Hfail
    by (vm_compute; reflexivity).
  split; [|split].
  - destruct (main_create_outcomes _ _ _ _ _ _ (Hrun uv_works_world))
      as (evs & Ht & _ & _ & Ho).
    rewrite Huv in Ho. destruct Ho as [(_ & u & tool & ->)|(Hused & _)];
      [|discriminate Hused].
    exists u, tool. exact Ht.
  - destruct (main_create_outcomes _ _ _ _ _ _ (Hrun base_world))
      as (evs & Ht & _ & _ & Ho).
    rewrite Hvenv in Ho. destruct Ho as [(Hused & _)|(_ & fast & tool & ->)];
      [discriminate Hused|].
    exists fast, tool. exact Ht.
  - destruct (main_create_outcomes _ _ _ _ _ _ (Hrun pip_fails_world))
      as (evs & Ht & _ & _ & Ho).
    rewrite Hfail in Ho. destruct Ho as (fast & slow & ->).
    exists fast, slow. exact Ht.
Defined.

(** The end-to-end run returns 0 and prints nothing on the error stream;
    the run on an occupied target ends with status 2 on its diagnostic. *)
Lemma main_run_discipline_witness :
  (disciplined (start base_world) Returned
     (snd (main base_environ base_args (start base_world)))
   /\ forall code, (Ret 0 : outcome Z) = Ret code -> code = 0)
  /\ disciplined (start occupied_world) (Exited 2)
       (snd (main base_environ base_args (start occupied_world))).
Proof.
  assert (main base_environ base_args (start base_world)
          = (Ret 0, snd (main base_environ base_args (start base_world)))) as Hok
    by (vm_compute; reflexivity).
  assert (main base_environ base_args (start occupied_world)
          = (SysExit 2, snd (main base_environ base_args (start occupied_world)))) as Hbad
    by (vm_compute; reflexivity).
  split.
  - exact (main_run_discipline _ _ _ _ _ Hok).
  - exact (proj1 (main_run_discipline _ _ _ _ _ Hbad)).
Defined.


(** The sibling of the canonical directory that the resolver returns is a
    directory, and its path string starts with the canonical one. *)
Lemma discover_uenv_site_packages_result_witness :
  is_dir (world (start extra_world)) (parse (site_packages +:+ "-extra")) = inr true
  /\ exists (reply : introspection) (want : ppath) (rest : string),
      check_output_json (world (start extra_world))
        [path_str (parse interpreter); "-c"; introspection_code] = inr reply
      /\ resolve (world (start extra_world))
           (canonical_site_packages (parse "/uenv/base") "default" (ver reply))
         = inr want
      /\ as_posix (parse (site_packages +:+ "-extra")) = as_posix want +:+ rest.
Proof.
  assert (discover_uenv_site_packages (parse "/uenv/base") "default" (parse interpreter)
            (start extra_world)
          = (Ret (parse (site_packages +:+ "-extra")),
             logged (start extra_world)
               [EvCheckOutput [interpreter; "-c"; introspection_code]])) as Hrun
    by (vm_compute; reflexivity).
  exact (proj2 (discover_uenv_site_packages_result _ _ _ _ _ _ Hrun)).
Defined.

(** The gates of the end-to-end run. *)
Lemma gates_establish_witness :
  is_dir base_world (parse "/uenv/base") = inr true
  /\ resolve base_world (python base_args) = inr (parse interpreter)
  /\ path_exists base_world (parse interpreter) = inr true
  /\ (exists (p m : ppath) (rest : string),
         resolve base_world (parse interpreter) = inr p
         /\ resolve base_world (parse "/uenv/base") = inr m
         /\ render p = render m +:+ "/" +:+ rest)
  /\ is_dir base_world (parse site_packages) = inr true
  /\ (base_environ !! "PYTHONPATH" = None \/ base_environ !! "PYTHONPATH" = Some "").
Proof.
  assert (main_gates base_environ base_args (start base_world)
          = (Ret (Discovery (parse "/uenv/base") "base" "default" (parse interpreter)
                    (parse site_packages)),
             logged (start base_world)
               [EvCheckOutput [interpreter; "-c"; introspection_code]])) as Hgates
    by (vm_compute; reflexivity).
  destruct (gates_establish _ _ _ _ _ Hgates)
    as (_ & _ & Hmount & Hpy & Hex & Hin & Hsp & Hpp & _).
  split; [exact Hmount|]. split; [exact Hpy|]. split; [exact Hex|].
  split; [exact Hin|]. split; [exact Hsp | exact Hpp].
Defined.

(** One run for each gate: no name, a mount that cannot be tested, no
    mount on disk, no view, a [--python] that does not resolve, one that
    cannot be tested, one that does not exist, and one outside the mount. *)
Lemma gates_in_order_witness :
  main list_environ base_args (start base_world)
  = (SysExit 2, logged (start base_world) [EvPrint Stderr "ERROR: Could not detect uenv name."])
  /\ main base_environ base_args (start denied_mount_world)
     = (Raise PermissionError, start denied_mount_world)
  /\ main no_mount_environ base_args (start base_world)
     = (SysExit 2,
        logged (start base_world)
          [EvPrint Stderr ("ERROR: mount point does not exist: " +:+ "/nowhere")])
  /\ main no_view_environ base_args (start base_world)
     = (SysExit 2,
        logged (start base_world) [EvPrint Stderr "ERROR: Could not detect active view."])
  /\ main base_environ (args_with_python "loop") (start base_world)
     = (Raise RuntimeError, start base_world)
  /\ main base_environ (args_with_python "/opt/private/python3")
       (start denied_python_world)
     = (Raise PermissionError, start denied_python_world)
  /\ main base_environ (args_with_python "/uenv/base/env/default/bin/python9")
       (start base_world)
     = (SysExit 2,
        logged (start base_world)
          [EvPrint Stderr ("ERROR: --python not found: "
                           +:+ "/uenv/base/env/default/bin/python9")])
  /\ main base_environ (args_with_python "/usr/lib/python3.11") (start base_world)
     = (SysExit 2,
        logged (start base_world)
          [EvPrint Stderr (outside_mount_message (parse "/usr/lib/python3.11")
                             (parse "/uenv/base") "default")]).
Proof.
  assert (parse_uenv list_environ (start base_world)
          = (Ret (parse "/uenv/base", "", ""), start base_world)) as Hlist
    by (vm_compute; reflexivity).
  assert (parse_uenv no_mount_environ (start base_world)
          = (Ret (parse "/nowhere", "base", "default"), start base_world)) as Hnowhere
    by (vm_compute; reflexivity).
  assert (parse_uenv no_view_environ (start base_world)
          = (Ret (parse "/uenv/base", "base", ""), start base_world)) as Hnoview
    by (vm_compute; reflexivity).
  assert (forall w : machine,
             parse_uenv base_environ (start w)
             = (Ret (parse "/uenv/base", "base", "default"), start w)) as Hbase
    by (intros w; vm_compute; reflexivity).
  assert (is_dir base_world (parse "/uenv/base") = inr true) as Hdir
    by (vm_compute; reflexivity).
  assert (is_dir denied_python_world (parse "/uenv/base") = inr true) as Hdir'
    by (vm_compute; reflexivity).
  split; [|split; [|split; [|split; [|split; [|split; [|split]]]]]].
  - apply (proj1 (gates_in_order list_environ base_args (start base_world) _ _ _ Hlist)).
    reflexivity.
  - refine (proj1 (proj2 (gates_in_order base_environ base_args (start denied_mount_world)
                            _ _ _ (Hbase _)) _) PermissionError _).
    + discriminate.
    + vm_compute. reflexivity.
  - refine (proj1 (proj2 (proj2 (gates_in_order no_mount_environ base_args
                                   (start base_world) _ _ _ Hnowhere) _)) _).
    + discriminate.
    + vm_compute. reflexivity.
  - refine (proj1 (proj2 (proj2 (proj2 (gates_in_order no_view_environ base_args
                                          (start base_world) _ _ _ Hnoview) _)) Hdir) _).
    + discriminate.
    + reflexivity.
  - refine (proj1 (proj2 (proj2 (proj2 (proj2 (gates_in_order base_environ
                                                 (args_with_python "loop")
                                                 (start base_world) _ _ _ (Hbase _)) _))
                                   Hdir) _)
              RuntimeError _).
    + discriminate.
    + discriminate.
    + vm_compute. reflexivity.
  - refine (proj1 (proj2 (proj2 (proj2 (proj2 (proj2 (gates_in_order base_environ
                                          (args_with_python "/opt/private/python3")
                                          (start denied_python_world) _ _ _ (Hbase _)) _))
                                   Hdir') _)
                     (parse "/opt/private/python3") _) PermissionError _).
    + discriminate.
    + discriminate.
    + vm_compute. reflexivity.
    + vm_compute. reflexivity.
  - refine (proj1 (proj2 (proj2 (proj2 (proj2 (proj2 (proj2 (gates_in_order base_environ
                                          (args_with_python "/uenv/base/env/default/bin/python9")
                                          (start base_world) _ _ _ (Hbase _)) _))
                                   Hdir) _)
                     (parse "/uenv/base/env/default/bin/python9") _)) _).
    + discriminate.
    + discriminate.
    + vm_compute. reflexivity.
    + vm_compute. reflexivity.
  - refine (proj2 (proj2 (proj2 (proj2 (proj2 (proj2 (proj2 (gates_in_order base_environ
                                          (args_with_python "/usr/lib/python3.11")
                                          (start base_world) _ _ _ (Hbase _)) _))
                                   Hdir) _)
                     (parse "/usr/lib/python3.11") _)) _ _).
    + discriminate.
    + discriminate.
    + vm_compute. reflexivity.
    + vm_compute. reflexivity.
    + vm_compute. reflexivity.
Defined.

(** The diagnostic of the provenance gate. *)
Example outside_mount_message_one_line :
  outside_mount_message (parse "/usr/lib/python3.11") (parse "/uenv/base") "default"
  = unlines
      [ "ERROR: Selected Python is not inside the uenv mount.";
        "  python: /usr/lib/python3.11";
        "  mount:  /uenv/base";
        "";
        "Hint: pass --python /uenv/base/env/default/bin/python" ].
Proof. vm_compute. reflexivity. Qed.

(** The run under [--force] on an occupied target returns, and has the
    anatomy of a run that returns, the removal included. *)
Lemma successful_run_anatomy_witness :
  exists (d : @discovery ppath) (removal cmds : list event) (used : string) (vsp : ppath),
    main_gates base_environ force_args (start occupied_world)
    = (Ret d,
       logged (start occupied_world)
         [EvCheckOutput [path_str (d_py d); "-c"; introspection_code]])
    /\ trace (snd (main base_environ force_args (start occupied_world)))
       = trace (start occupied_world)
           ++ [EvCheckOutput [path_str (d_py d); "-c"; introspection_code]]
           ++ removal
           ++ [EvMkdir (path_str (venv force_args))]
           ++ cmds
           ++ [EvCheckOutput (purelib_cmd (_venv_python (venv force_args)));
               EvWriteText (path_str (joinpath vsp "uenv.pth"))
                 (path_str (d_uenv_sp d) +:+ PyStr.nl)]
           ++ report_lines force_args d used vsp (joinpath vsp "uenv.pth")
    /\ (removal = []
        \/ (removal = [EvRmtree (path_str (venv force_args))] /\ force force_args = true))
    /\ forallb is_check_call cmds = true
    /\ (used = "uv" \/ used = "venv").
Proof.
  assert (main base_environ force_args (start occupied_world)
          = (Ret 0, snd (main base_environ force_args (start occupied_world)))) as Hok
    by (vm_compute; reflexivity).
  exact (successful_run_anatomy _ _ _ _ _ Hok).
Defined.

(** The three ways the resolver raises: an interpreter that cannot be
    run, an entry that does not resolve behind the view package directory,
    and a canonical directory that does not resolve. *)
Lemma discover_uenv_site_packages_raises_witness :
  discover_uenv_site_packages (parse "/uenv/base") "default"
    (parse "/uenv/base/env/default/bin") (start base_world)
  = (Raise PermissionError,
     logged (start base_world)
       [EvCheckOutput [path_str (parse "/uenv/base/env/default/bin"); "-c";
                       introspection_code]])
  /\ discover_uenv_site_packages (parse "/uenv/base") "default" (parse interpreter)
       (start loop_entry_world)
     = (Raise RuntimeError,
        logged (start loop_entry_world)
          [EvCheckOutput [path_str (parse interpreter); "-c"; introspection_code]])
  /\ discover_uenv_site_packages (parse "/uenv/base") "default" (parse interpreter)
       (start canonical_loop_world)
     = (Raise RuntimeError,
        logged (start canonical_loop_world)
          [EvCheckOutput [path_str (parse interpreter); "-c"; introspection_code]]).
Proof.
  assert (check_output_json (world (start loop_entry_world))
            [path_str (parse interpreter); "-c"; introspection_code]
          = inr {| ver := "3.11";
                   sys_path := [PathStr site_packages; PathStr "/home/user/loop"] |})
    as Hloop by (vm_compute; reflexivity).
  assert (check_output_json (world (start canonical_loop_world))
            [path_str (parse interpreter); "-c"; introspection_code]
          = inr {| ver := "3.11";
                   sys_path := [PathOther; PathStr "/usr/lib/python3.11"] |})
    as Hcanon by (vm_compute; reflexivity).
  split; [|split].
  - apply (proj1 (discover_uenv_site_packages_raises (parse "/uenv/base") "default"
                    (parse "/uenv/base/env/default/bin") (start base_world))).
    vm_compute. reflexivity.
  - refine (proj1 (proj2 (discover_uenv_site_packages_raises (parse "/uenv/base") "default"
                            (parse interpreter) (start loop_entry_world)) _ Hloop)
              [PathStr site_packages] "/home/user/loop" [] RuntimeError _ _ _).
    + reflexivity.
    + intros s' [[= <-]|[]]. exists (parse site_packages). vm_compute. reflexivity.
    + vm_compute. reflexivity.
  - refine (proj2 (proj2 (discover_uenv_site_packages_raises (parse "/uenv/base") "default"
                            (parse interpreter) (start canonical_loop_world)) _ Hcanon)
              [parse "/usr/lib/python3.11"] RuntimeError _ _).
    + repeat constructor.
    + vm_compute. reflexivity.
Defined.

(** The end-to-end run with [--force] is the end-to-end run, and so is the
    run on a target that cannot be tested for. *)
Lemma force_is_idle_without_target_witness :
  main base_environ force_args (start base_world)
  = main base_environ base_args (start base_world)
  /\ main base_environ force_args (start denied_target_world)
     = main base_environ base_args (start denied_target_world).
Proof.
  split.
  - apply (force_is_idle_without_target base_environ (parse "./work/venv")
             (parse interpreter) false (start base_world)).
    vm_compute. discriminate.
  - apply (force_is_idle_without_target base_environ (parse "./work/venv")
             (parse interpreter) false (start denied_target_world)).
    vm_compute. discriminate.
Defined.

(** A target that does not exist, an empty one, one that is a file, and
    one that cannot be tested for. *)
Lemma prepare_without_force_witness :
  main_prepare base_args (start base_world)
  = (match fst (mkdir (venv base_args) (world (start base_world))) with
     | None => Ret tt
     | Some e => Raise e
     end,
     State (snd (mkdir (venv base_args) (world (start base_world))))
       (trace (start base_world) ++ [EvMkdir (path_str (venv base_args))]))
  /\ main_prepare base_args (start empty_target_world)
     = (match fst (mkdir (venv base_args) (world (start empty_target_world))) with
        | None => Ret tt
        | Some e => Raise e
        end,
        State (snd (mkdir (venv base_args) (world (start empty_target_world))))
          (trace (start empty_target_world) ++ [EvMkdir (path_str (venv base_args))]))
  /\ main_prepare base_args (start file_target_world)
     = (Raise NotADirectoryError, start file_target_world)
  /\ main_prepare base_args (start denied_target_world)
     = (Raise PermissionError, start denied_target_world).
Proof.
  split; [|split; [|split]].
  - apply (proj1 (prepare_without_force base_args (start base_world) eq_refl)).
    vm_compute. reflexivity.
  - refine (proj1 (proj1 (proj2 (prepare_without_force base_args
                                   (start empty_target_world) eq_refl)) _) _).
    + vm_compute. reflexivity.
    + vm_compute. reflexivity.
  - refine (proj2 (proj1 (proj2 (prepare_without_force base_args
                                   (start file_target_world) eq_refl)) _)
              NotADirectoryError _).
    + vm_compute. reflexivity.
    + vm_compute. reflexivity.
  - refine (proj2 (proj2 (prepare_without_force base_args (start denied_target_world)
                            eq_refl)) PermissionError _).
    vm_compute. reflexivity.
Defined.


